(** * init-workflow.py: the workflow scaffolding script, embedded and verified

    The script creates a fixed directory tree under
    [<project>/.claude-workflow], optionally copies template files from a
    template source, writes [config.yml], six state documents and a README.

    The embedding is shallow.  Python strings are byte strings (UTF-8), the
    file system is a finite map from absolute paths to nodes, and the
    script's methods are functions in a state-and-exception monad over a
    [world] made of the file system and a chronological trace of the
    observable effects (console lines, directories made, files read and
    written).  The operating-system and standard-library calls the script
    relies on ([Path.mkdir], [Path.exists], [shutil.copy2], [open],
    [str.lower], [str.split], [str.replace], [dict.get], [strftime]) are
    modelled by their documented behaviour on a file system without
    symbolic links.  A path is looked up as the operating system does it,
    component by component from the root or from the working directory of
    the process, which is part of the [world]; the clock reading taken by
    [__init__] is an input. *)

From Stdlib Require Import Ascii String List Arith NArith Lia.
From stdpp Require Import gmap strings list fin_maps.

Open Scope string_scope.
Open Scope list_scope.

(** ** Strings *)

Module Str.

(** The double-quote character, kept as a definition so that texts which
    contain it are spliced rather than escaped. *)
Definition dq : string := String (ascii_of_nat 34) EmptyString.

Definition nl : string := String (ascii_of_nat 10) EmptyString.

(** A text written line by line; every line is newline-terminated. *)
Definition unlines (ls : list string) : string :=
  String.concat "" (map (fun l => l +:+ nl) ls).

(** [str.lower] on the ASCII range; the bytes of other characters are left
    alone.  For the one use the script makes of it, matching tokens against
    the eight platform names, this agrees with Python: a token of ASCII
    characters is lowered alike, and a token with any other character
    matches no platform name under either. *)
Definition lower_ascii (c : ascii) : ascii :=
  let n := nat_of_ascii c in
  if Nat.leb 65 n && Nat.leb n 90 then ascii_of_nat (n + 32) else c.

Fixpoint lower (s : string) : string :=
  match s with
  | EmptyString => EmptyString
  | String c r => String (lower_ascii c) (lower r)
  end.

(** [s.split(sep)] for a one-character separator: empty pieces are kept,
    and the empty string splits into one empty piece. *)
Fixpoint split (sep : ascii) (s : string) : list string :=
  match s with
  | EmptyString => [EmptyString]
  | String c r =>
      if Ascii.eqb c sep then EmptyString :: split sep r
      else match split sep r with
           | h :: t => String c h :: t
           | [] => [String c EmptyString]
           end
  end.

Fixpoint starts_with (p s : string) : bool :=
  match p, s with
  | EmptyString, _ => true
  | String a p', String b s' => Ascii.eqb a b && starts_with p' s'
  | String _ _, EmptyString => false
  end.

(** [s.replace(old, new)]: left to right, occurrences do not overlap.
    [skip] counts the characters of a matched occurrence that are still
    to be dropped. *)
Fixpoint replace_from (old new : string) (skip : nat) (s : string) : string :=
  match s with
  | EmptyString => EmptyString
  | String c r =>
      match skip with
      | S k => replace_from old new k r
      | O =>
          if starts_with old s
          then new +:+ replace_from old new (String.length old - 1) r
          else String c (replace_from old new 0 r)
      end
  end.

(** The script only replaces a non-empty pattern. *)
Definition replace (old new s : string) : string :=
  replace_from old new 0 s.

(** Truthiness of a string. *)
Definition truthy (s : string) : bool :=
  match s with EmptyString => false | _ => true end.

End Str.

Import Str.

(** ** Python values held in the configuration dictionary *)

Inductive pyval : Type :=
| PyNone
| PyBool (b : bool)
| PyStr (s : string).

(** [str(v)], which is also what [format] and f-strings insert. *)
Definition py_str (v : pyval) : string :=
  match v with
  | PyNone => "None"
  | PyBool true => "True"
  | PyBool false => "False"
  | PyStr s => s
  end.

(** [d.get(key, default)]. *)
Definition dict_get (d : gmap string pyval) (key : string) (default : pyval) : pyval :=
  match d !! key with
  | Some v => v
  | None => default
  end.

(** ** Paths *)

(** An absolute, normalised path is the list of the names below the root
    that lead to an entry.  The file system is keyed by such paths, and a
    path object that has been resolved is one. *)
Abbreviation path := (list string).

(** The components of a path string: split at the slashes, empty and [.]
    components dropped, [..] kept, as [pathlib] does. *)
Definition components (s : string) : list string :=
  filter (fun c => c <> "" /\ c <> ".") (Str.split "/" s).

(** [p / s] for a relative [s]. *)
Definition path_join (p : path) (s : string) : path := p ++ components s.

Infix "//" := path_join (at level 40, left associativity).

(** [p.parent]; the root is its own parent. *)
Definition parent (p : path) : path := removelast p.

(** [p.name], the final component; empty for the root. *)
Definition name (p : path) : string := List.last p EmptyString.

(** [q] lies in the subtree of [p] (or is [p]). *)
Definition under (p q : path) : Prop := p `prefix_of` q.

(** A path object that has not been resolved: whether its string starts at
    the root, and its components, which may hold [..].  A relative one is
    read from the working directory of the process. *)
Record pure_path : Type := PurePath {
  anchored : bool;
  parts : list string
}.

(** [Path(s)]. *)
Definition Path (s : string) : pure_path :=
  {| anchored := Str.starts_with "/" s; parts := components s |}.

(** [p / s] for a relative [s], on a path that has not been resolved. *)
Definition pure_join (p : pure_path) (s : string) : pure_path :=
  {| anchored := anchored p; parts := parts p ++ components s |}.

Infix "///" := pure_join (at level 40, left associativity).

(** [os.path.basename(p)]. *)
Definition basename (p : pure_path) : string :=
  List.last (parts p) (if anchored p then "" else ".").

(** Following one component from the directory [cur]. *)
Definition step (cur : path) (c : string) : path :=
  if String.eqb c ".." then parent cur
  else if String.eqb c "." || String.eqb c "" then cur
  else cur ++ [c].

(** A component that names an entry of the directory it is followed
    from. *)
Definition is_name (c : string) : bool :=
  negb (String.eqb c "..") && negb (String.eqb c ".") && negb (String.eqb c "").

(** Where a path starts: at the root, or at the working directory. *)
Definition origin (working_dir : path) (p : pure_path) : path :=
  if anchored p then [] else working_dir.

(** [p.resolve()], not strict, without symbolic links: the path is made
    absolute against the working directory and its [..] components are
    worked off, whether or not the entries exist. *)
Definition resolve (working_dir : path) (p : pure_path) : path :=
  fold_left step (parts p) (origin working_dir p).

(** ** File system *)

Inductive node : Type :=
| Dir
| File (content : string).

Inductive error : Type :=
| FileNotFoundError
| FileExistsError
| NotADirectoryError
| IsADirectoryError
| SameFileError.

Inductive result (A : Type) : Type :=
| Ok (a : A)
| Raise (e : error).
Arguments Ok {A} a.
Arguments Raise {A} e.

(** What a run lets the outside observe, in the order it happens.  The
    paths are those of the entries made, read and written. *)
Inductive event : Type :=
| Printed (line : string)
| MadeDir (p : path)
| ReadFile (p : path)
| Wrote (p : path).

(** The file system, the trace, and the working directory of the process,
    which the script never changes. *)
Record world : Type := World {
  fs : gmap path node;
  trace : list event;
  cwd : path
}.

(** The two changes a world undergoes: an event is recorded, an entry is
    put into the file system. *)
Definition emit (e : event) (w : world) : world :=
  {| fs := fs w; trace := trace w ++ [e]; cwd := cwd w |}.

Definition store (p : path) (n : node) (w : world) : world :=
  {| fs := <[p := n]> (fs w); trace := trace w; cwd := cwd w |}.

(** The root always is a directory. *)
Definition stat (f : gmap path node) (p : path) : option node :=
  match p with
  | [] => Some Dir
  | _ => f !! p
  end.

Definition exists_ (f : gmap path node) (p : path) : bool :=
  match stat f p with Some _ => true | None => false end.

Definition is_dir (f : gmap path node) (p : path) : bool :=
  match stat f p with Some Dir => true | _ => false end.

(** A file system is tree-shaped when every entry sits in a directory. *)
Definition tree_shaped (f : gmap path node) : Prop :=
  map_Forall (fun p _ => is_dir f (parent p) = true) f.

(** ** Path lookup *)

(** The walk of the operating system from the entry [cur] along the
    components [cs]: a component is followed from a directory only;
    from a missing entry the walk fails with [ENOENT], from a regular file
    with [ENOTDIR].  The entry that the walk ends at need not exist. *)
Fixpoint walk_by (next : path -> string -> path) (f : gmap path node)
    (cur : path) (cs : list string) : result path :=
  match cs with
  | [] => Ok cur
  | c :: cs' =>
      match stat f cur with
      | Some Dir => walk_by next f (next cur c) cs'
      | Some (File _) => Raise NotADirectoryError
      | None => Raise FileNotFoundError
      end
  end.

(** The walk from the root to an absolute, normalised path: every
    component is a name. *)
Definition descend (f : gmap path node) (p : path) : result path :=
  walk_by (fun cur c => cur ++ [c]) f [] p.

(** The walk to a path that has not been resolved. *)
Definition locate (f : gmap path node) (working_dir : path) (p : pure_path)
    : result path :=
  walk_by step f (origin working_dir p) (parts p).

(** [os.stat(p)], where it succeeds: the entry that the walk ends at, and
    what is there. *)
Definition sees (f : gmap path node) (working_dir : path) (p : pure_path)
    : option (path * node) :=
  match locate f working_dir p with
  | Ok q =>
      match stat f q with
      | Some n => Some (q, n)
      | None => None
      end
  | Raise _ => None
  end.

(** [p.exists()]: an error of the walk counts as absence. *)
Definition exists_at (f : gmap path node) (working_dir : path) (p : pure_path) : bool :=
  match sees f working_dir p with Some _ => true | None => false end.

(** [p.is_dir()] and [os.path.isdir(p)] for an absolute, normalised [p]. *)
Definition sees_dir (f : gmap path node) (p : path) : bool :=
  match descend f p with
  | Ok _ => is_dir f p
  | Raise _ => false
  end.

(** [os.path.samefile(src, dst)], with errors taken as [False]: both are
    there and are the same entry. *)
Definition same_file (f : gmap path node) (working_dir : path)
    (src : pure_path) (dst : path) : bool :=
  match sees f working_dir src, descend f dst with
  | Some (q, _), Ok _ => bool_decide (q = dst)
  | _, _ => false
  end.

(** ** The state-and-exception monad *)

Definition M (A : Type) : Type := world -> result A * world.

Definition ret {A} (a : A) : M A := fun w => (Ok a, w).

Definition bind {A B} (m : M A) (k : A -> M B) : M B :=
  fun w =>
    match m w with
    | (Ok a, w') => k a w'
    | (Raise e, w') => (Raise e, w')
    end.

Declare Scope script_scope.
Delimit Scope script_scope with script.
Bind Scope script_scope with M.
Notation "x <- m ;; k" := (bind m (fun x => k))
  (at level 100, m at next level, k at level 200, right associativity) : script_scope.
Notation "m ;; k" := (bind m (fun _ => k))
  (at level 100, k at level 200, right associativity) : script_scope.
Open Scope script_scope.

(** [for x in l: body(x)]; an exception leaves the loop. *)
Fixpoint for_each {A} (l : list A) (body : A -> M unit) : M unit :=
  match l with
  | [] => ret tt
  | x :: l' => body x ;; for_each l' body
  end.

(** [if c: m]. *)
Definition when (c : bool) (m : M unit) : M unit :=
  if c then m else ret tt.

Definition print (line : string) : M unit :=
  fun w => (Ok tt, emit (Printed line) w).

(** [os.getcwd()]. *)
Definition getcwd : M path :=
  fun w => (Ok (cwd w), w).

(** ** Operating-system and library calls *)

(** [os.mkdir(p)]. *)
Definition os_mkdir (p : path) : M unit :=
  fun w =>
    match descend (fs w) p with
    | Raise e => (Raise e, w)
    | Ok _ =>
        match stat (fs w) p with
        | Some _ => (Raise FileExistsError, w)
        | None => (Ok tt, emit (MadeDir p) (store p Dir w))
        end
    end.

(** [p.mkdir(parents=False, exist_ok=True)]. *)
Definition mkdir_exist_ok (p : path) : M unit :=
  fun w =>
    match os_mkdir p w with
    | (Ok _, w') => (Ok tt, w')
    | (Raise FileNotFoundError, _) => (Raise FileNotFoundError, w)
    | (Raise e, _) => if sees_dir (fs w) p then (Ok tt, w) else (Raise e, w)
    end.

(** [p.mkdir(parents=True, exist_ok=True)], by recursion on the reversed
    path [rp], whose tail is the parent: try [os.mkdir]; when that fails
    with [FileNotFoundError], make the parent the same way and retry
    without [parents]; on any other error succeed exactly when [p] already
    is a directory. *)
Fixpoint mkdir_parents_rev (rp : list string) : M unit :=
  fun w =>
    let p := rev rp in
    match os_mkdir p w with
    | (Ok _, w') => (Ok tt, w')
    | (Raise FileNotFoundError, _) =>
        match rp with
        | [] => (Raise FileNotFoundError, w)
        | _ :: rp' => (mkdir_parents_rev rp' ;; mkdir_exist_ok p) w
        end
    | (Raise e, _) => if sees_dir (fs w) p then (Ok tt, w) else (Raise e, w)
    end.

Definition mkdir_parents (p : path) : M unit := mkdir_parents_rev (rev p).

(** Opening [p] for writing and writing [content]: [open(p, "w")] followed
    by [write], and [Path.write_text]. *)
Definition write_text (p : path) (content : string) : M unit :=
  fun w =>
    match descend (fs w) p with
    | Raise e => (Raise e, w)
    | Ok _ =>
        match stat (fs w) p with
        | Some Dir => (Raise IsADirectoryError, w)
        | _ => (Ok tt, emit (Wrote p) (store p (File content) w))
        end
    end.

(** Opening [p] for reading and reading all of it. *)
Definition read_file (p : pure_path) : M string :=
  fun w =>
    match locate (fs w) (cwd w) p with
    | Raise e => (Raise e, w)
    | Ok q =>
        match stat (fs w) q with
        | None => (Raise FileNotFoundError, w)
        | Some Dir => (Raise IsADirectoryError, w)
        | Some (File c) => (Ok c, emit (ReadFile q) w)
        end
    end.

(** [shutil.copy2(src, dst)]: a directory destination stands for the entry
    of the source's name inside it; copying a file onto itself is refused;
    the source is opened before the destination.  File metadata is outside
    the model. *)
Definition copy2 (src : pure_path) (dst : path) : M unit :=
  fun w =>
    let dst := if sees_dir (fs w) dst then step dst (basename src) else dst in
    if same_file (fs w) (cwd w) src dst
    then (Raise SameFileError, w)
    else (content <- read_file src ;; write_text dst content) w.

(** [p.exists()]. *)
Definition path_exists (p : pure_path) : M bool :=
  fun w => (Ok (exists_at (fs w) (cwd w) p), w).

(** ** The clock *)

(** The reading of the system clock when the initializer is built. *)
Record clock : Type := Clock { year : N; month : N; day : N }.

Definition valid_clock (c : clock) : Prop :=
  (1 <= year c <= 9999 /\ 1 <= month c <= 12 /\ 1 <= day c <= 31)%N.

Definition digit (n : N) : ascii := ascii_of_N (48 + n mod 10).

Definition is_digit (c : ascii) : bool :=
  N.leb 48 (N_of_ascii c) && N.leb (N_of_ascii c) 57.

(** The last [width] decimal digits of [n], zero-filled. *)
Fixpoint zero_padded (width : nat) (n : N) : string :=
  match width with
  | O => EmptyString
  | S k => zero_padded k (n / 10) +:+ String (digit n) EmptyString
  end.

(** [strftime("%Y-%m-%d")]. *)
Definition strftime_ymd (c : clock) : string :=
  zero_padded 4 (year c) +:+ "-" +:+ zero_padded 2 (month c) +:+ "-"
  +:+ zero_padded 2 (day c).

(** ** The generated texts *)

Definition yaml_header (name type version : string) : string :=
  unlines [
    "# Claude Code 工作流配置";
    EmptyString;
    "project:";
    "  name: " +:+ dq +:+ name +:+ dq;
    "  type: " +:+ dq +:+ type +:+ dq;
    "  version: " +:+ dq +:+ version +:+ dq;
    EmptyString;
    "# 支持的平台";
    "platforms:"
  ].

Definition yaml_platform (id name enabled : string) : string :=
  unlines [
    "  - id: " +:+ id;
    "    name: " +:+ name;
    "    enabled: " +:+ enabled
  ].

Definition yaml_footer : string :=
  unlines [
    EmptyString;
    "# 工作流配置";
    "workflow:";
    "  enforce_order: true";
    "  enable_parallel: true";
    "  max_parallel_tasks: 5";
    "  enable_dependency_ignore: true";
    EmptyString;
    "# 文档配置";
    "documentation:";
    "  auto_generate: true";
    "  format: markdown";
    "  include_api_docs: true";
    EmptyString;
    "# 追溯配置";
    "traceability:";
    "  auto_update: true";
    "  mapping_granularity: function"
  ].

Definition current_phase_text (project_name date : string) : string :=
  unlines [
    "# 当前执行阶段";
    EmptyString;
    "## 项目信息";
    "- **项目名称**: " +:+ project_name;
    "- **当前阶段**: 阶段1 - 需求分析与规划";
    "- **开始日期**: " +:+ date;
    "- **整体进度**: 0%";
    EmptyString;
    "## 当前任务";
    "- **任务ID**: 待定";
    "- **任务名称**: 项目初始化";
    "- **状态**: 进行中";
    "- **当前步骤**: 配置项目";
    "- **完成度**: 10%";
    EmptyString;
    "## 任务堆栈";
    "### 主任务链";
    "1. ⏳ 项目初始化";
    "   - ✅ 创建目录结构";
    "   - ✅ 复制模板文件";
    "   - ⏳ 配置项目参数";
    EmptyString;
    "### 暂停的任务";
    "无";
    EmptyString;
    "### 待执行任务";
    "- [待执行] 收集第一个需求";
    EmptyString;
    "## 上下文信息";
    "- **相关平台**: 待配置";
    "- **相关文件**: .claude-workflow/config.yml";
    "- **依赖项**: 无";
    "- **阻塞项**: 无";
    EmptyString;
    "## 快速恢复命令";
    dq +:+ "继续配置项目参数" +:+ dq
  ].

Definition active_tasks_text (date : string) : string :=
  unlines [
    "# 活跃并行任务列表";
    EmptyString;
    "更新时间: " +:+ date +:+ " 00:00";
    EmptyString;
    "## 正在进行的功能";
    EmptyString;
    "### 项目初始化";
    "- **当前阶段**: 配置";
    "- **完成度**: 10%";
    "- **当前步骤**: 配置项目参数";
    "- **状态**: 🟢 正常进行";
    "- **依赖**: 无";
    EmptyString;
    "## 并行统计";
    "- **活跃功能数**: 0";
    "- **分布阶段**: 配置(1)";
    "- **预计完成日期**: 待定";
    EmptyString;
    "## 阻塞警告";
    "无"
  ].

Definition task_deps_text : string :=
  unlines [
    "# 任务依赖关系图";
    EmptyString;
    "## 依赖关系可视化";
    EmptyString;
    "```";
    "无依赖关系";
    "```";
    EmptyString;
    "## 依赖类型定义";
    EmptyString;
    "| 类型 | 符号 | 说明 | 处理方式 |";
    "|------|------|------|---------|";
    "| 强依赖 | ═══ | 必须等待依赖完成 | 串行开发 |";
    "| 弱依赖 | ━━ | 可以并行，使用忽略机制 | 并行 + mock |";
    "| 无依赖 | 无 | 完全独立 | 自由并行 |";
    EmptyString;
    "## 依赖忽略记录";
    "无";
    EmptyString;
    "## 依赖关系表";
    "| 当前功能 | 依赖功能 | 依赖类型 | 处理方式 | 状态 |"
  ].

Definition dep_backlog_text : string :=
  unlines [
    "# 依赖忽略跟踪表";
    EmptyString;
    "## 待补齐依赖项";
    EmptyString;
    "| ID | 当前模块 | 依赖模块 | 忽略内容 | Mock位置 | 补齐优先级 | 依赖状态 | 补齐期限 | 负责人 |";
    EmptyString;
    "## 依赖补齐记录";
    "无";
    EmptyString;
    "## 统计信息";
    EmptyString;
    "- **待补齐依赖数**: 0";
    "- **P0 优先级**: 0";
    "- **P1 优先级**: 0";
    "- **P2 优先级**: 0";
    "- **本月已补齐**: 0"
  ].

Definition code_map_text : string :=
  unlines [
    "# 功能到代码映射表";
    EmptyString;
    "## 映射规则";
    "- 每个功能点对应具体的文件、类、函数";
    "- 记录行号范围以便快速定位";
    "- 包含依赖关系和影响范围";
    EmptyString;
    "## 映射表";
    EmptyString;
    "| 功能ID | 功能描述 | 平台 | 代码文件 | 类/组件 | 函数/方法 | 行号 | 依赖 | 状态 |";
    EmptyString;
    "## 依赖关系图";
    "无";
    EmptyString;
    "## 影响分析查询";
    "无";
    EmptyString;
    "## 反向映射 (代码 → 功能)";
    EmptyString;
    "| 代码文件 | 函数 | 实现功能 | 功能ID | 状态 |";
    EmptyString;
    "## 平台分布";
    EmptyString;
    "| 平台 | 功能数 | 已实现 | 进行中 | 待开始 |";
    "|------|--------|--------|--------|--------|";
    "| 网关 | 0 | 0 | 0 | 0 |";
    "| HMI | 0 | 0 | 0 | 0 |";
    "| 云平台 | 0 | 0 | 0 | 0 |";
    "| APP | 0 | 0 | 0 | 0 |";
    "| 边缘AI | 0 | 0 | 0 | 0 |";
    "| Scada | 0 | 0 | 0 | 0 |";
    "| Web编辑器 | 0 | 0 | 0 | 0 |";
    EmptyString;
    "## 统计信息";
    EmptyString;
    "- **总功能点数**: 0";
    "- **已实现**: 0 (0%)";
    "- **进行中**: 0 (0%)";
    "- **待开始**: 0 (0%)";
    "- **依赖忽略**: 0"
  ].

Definition rt_matrix_text (date : string) : string :=
  unlines [
    "# 需求追溯矩阵 (Requirements Traceability Matrix)";
    EmptyString;
    "## 追溯概览";
    "- **总需求数**: 0";
    "- **已实现**: 0 (0%)";
    "- **已验证**: 0 (0%)";
    "- **未开始**: 0 (0%)";
    EmptyString;
    "## 前向追溯 (需求 → 交付物)";
    EmptyString;
    "| 需求ID | 需求描述 | 功能需求 | 技术方案 | 实现计划 | 代码模块 | 测试用例 | 状态 |";
    EmptyString;
    "## 后向追溯 (交付物 → 需求)";
    EmptyString;
    "| 代码文件 | 功能描述 | 关联需求 | 测试覆盖 | 状态 |";
    EmptyString;
    "## 影响分析矩阵";
    EmptyString;
    "| 需求变更 | 影响功能 | 影响代码 | 影响测试 | 影响平台 | 风险等级 |";
    EmptyString;
    "## 测试覆盖率";
    "无";
    EmptyString;
    "## 平台覆盖";
    EmptyString;
    "| 平台 | 需求数 | 已实现 | 已验证 | 覆盖率 |";
    "|------|--------|--------|--------|--------|";
    "| 网关 | 0 | 0 | 0 | 0% |";
    "| HMI | 0 | 0 | 0 | 0% |";
    "| 云平台 | 0 | 0 | 0 | 0% |";
    "| APP | 0 | 0 | 0 | 0% |";
    "| 边缘AI | 0 | 0 | 0 | 0% |";
    "| Scada | 0 | 0 | 0 | 0% |";
    "| Web编辑器 | 0 | 0 | 0 | 0% |";
    EmptyString;
    "## 缺口分析";
    "无";
    EmptyString;
    "## 追溯完整性检查";
    "待初始化";
    EmptyString;
    "## 变更历史";
    EmptyString;
    "| 日期 | 变更类型 | 影响范围 | 变更人 | 审批人 |";
    "| " +:+ date +:+ " | 项目初始化 | 全部 | System | - |";
    EmptyString;
    "## 报告生成";
    EmptyString;
    "- **最后更新**: " +:+ date;
    "- **更新人**: System";
    "- **下次审查**: 待定"
  ].

Definition readme_text : string :=
  unlines [
    "# Claude Code 工作流管理";
    EmptyString;
    "本目录使用 Claude Code 结构化研发工作流管理体系进行管理。";
    EmptyString;
    "## 目录结构";
    EmptyString;
    "```";
    ".claude-workflow/";
    "├── 01-requirements/        # 需求管理";
    "├── 02-planning/           # 计划管理";
    "├── 03-design/             # 设计管理";
    "├── 04-implementation/      # 实现管理";
    "├── 05-verification/       # 验证管理";
    "├── 06-documentation/      # 文档管理";
    "├── 07-platforms/          # 多平台管理";
    "├── parallel-tasks/        # 并行任务管理";
    "├── templates/             # 文档模板";
    "├── state-history/         # 状态历史";
    "├── config.yml             # 项目配置";
    "├── current-phase.md       # 当前阶段";
    "├── feature-to-code-map.md # 功能代码映射";
    "├── dependency-backlog.md  # 依赖跟踪";
    "└── rt-matrix.md           # 需求追溯矩阵";
    "```";
    EmptyString;
    "## 使用方式";
    EmptyString;
    "### 开始新功能";
    "```";
    dq +:+ "我们需要添加[新功能]" +:+ dq;
    "→ workflow-orchestrator 自动激活";
    "→ 跟随引导完成需求收集、方案设计、实现...";
    "```";
    EmptyString;
    "### 查看当前状态";
    "```";
    dq +:+ "我上次做到哪了？" +:+ dq;
    "→ workflow-coordinator 显示当前任务和进度";
    "```";
    EmptyString;
    "### 暂停和恢复";
    "```";
    dq +:+ "暂停当前任务，处理其他任务" +:+ dq;
    "→ 任务切换和上下文保存";
    dq +:+ "继续之前的任务" +:+ dq;
    "→ 恢复到之前的任务";
    "```";
    EmptyString;
    "## 工作流程";
    EmptyString;
    "1. **需求阶段** (requirement-manager)";
    "   - 创建原始需求 (REQ-{N})";
    "   - 分解功能需求 (FE-{N})";
    EmptyString;
    "2. **设计阶段** (solution-designer)";
    "   - 创建技术方案 (SOL-{N})";
    "   - 设计架构和接口";
    EmptyString;
    "3. **实现计划** (implementation-manager)";
    "   - 创建实现计划 (IMP-{N})";
    "   - 设计代码映射";
    EmptyString;
    "4. **代码实现** (implementation-manager)";
    "   - 按计划实现";
    "   - 记录代码映射";
    EmptyString;
    "5. **验证和文档** (verification-manager, documentation-generator)";
    "   - 测试验证";
    "   - 生成文档";
    EmptyString;
    "## 更多信息";
    EmptyString;
    "参考完整文档: `Claude-Code-Workflow-Design-v1.0.0.md`"
  ].

Definition dirs : list string :=
  [ "01-requirements/raw-requirements";
    "01-requirements/functional-requirements";
    "01-requirements/user-stories";
    "02-planning";
    "03-design/architecture/adr";
    "03-design/technical-solutions";
    "03-design/api-design";
    "03-design/database-design";
    "04-implementation/implementation-plans";
    "04-implementation/code-mapping";
    "04-implementation/implementation-logs";
    "05-verification/test-plans";
    "05-verification/test-cases";
    "05-verification/verification-reports";
    "06-documentation/technical-docs";
    "06-documentation/user-guides";
    "06-documentation/api-docs";
    "07-platforms/gateway/requirements";
    "07-platforms/gateway/design";
    "07-platforms/gateway/implementation";
    "07-platforms/hmi/requirements";
    "07-platforms/hmi/design";
    "07-platforms/hmi/implementation";
    "07-platforms/configuration/requirements";
    "07-platforms/configuration/design";
    "07-platforms/configuration/implementation";
    "07-platforms/cloud/requirements";
    "07-platforms/cloud/design";
    "07-platforms/cloud/implementation";
    "07-platforms/app/requirements";
    "07-platforms/app/design";
    "07-platforms/app/implementation";
    "07-platforms/edge-ai/requirements";
    "07-platforms/edge-ai/design";
    "07-platforms/edge-ai/implementation";
    "07-platforms/scada/requirements";
    "07-platforms/scada/design";
    "07-platforms/scada/implementation";
    "07-platforms/web-editor/requirements";
    "07-platforms/web-editor/design";
    "07-platforms/web-editor/implementation";
    "parallel-tasks";
    "templates";
    "state-history" ].

(** ** WorkflowInitializer *)

Record WorkflowInitializer : Type := {
  project_path : path;
  workflow_dir : path;
  date : string
}.

(** [__init__], in a process whose working directory is [working_dir] and
    whose clock reads [now]. *)
Definition new_initializer (working_dir : path) (project_path : string) (now : clock)
    : WorkflowInitializer :=
  {| project_path := resolve working_dir (Path project_path);
     workflow_dir := resolve working_dir (Path project_path) // ".claude-workflow";
     date := strftime_ymd now |}.

Definition create_directories (self : WorkflowInitializer) : M unit :=
  print "📁 Creating directory structure..." ;;
  for_each dirs (fun dir_path =>
    let full_path := workflow_dir self // dir_path in
    mkdir_parents full_path) ;;
  print "✅ Directory structure created".

(** The two lists of [copy_templates]. *)
Definition templates : list string :=
  ["REQ-template.md"; "FE-template.md"; "SOL-template.md"; "IMP-template.md"].

Definition state_templates : list string :=
  [ "parallel-tasks/active-tasks-template.md";
    "parallel-tasks/task-dependencies-template.md";
    "dependency-backlog-template.md";
    "feature-to-code-map-template.md";
    "rt-matrix-template.md" ].

(** [source] in the first and in the second loop of [copy_templates], and
    [dest] in the second. *)
Definition template_source_file (template_source template : string) : pure_path :=
  Path template_source /// ".claude-workflow" /// "templates" /// template.

Definition state_source_file (template_source template : string) : pure_path :=
  Path template_source /// ".claude-workflow" /// template.

Definition state_dest_file (self : WorkflowInitializer) (template : string) : path :=
  workflow_dir self // Str.replace "-template" "" template.

(** The body of the loop over [templates]. *)
Definition copy_template (self : WorkflowInitializer) (template_source template : string) : M unit :=
  let template_dir := workflow_dir self // "templates" in
  let source := template_source_file template_source template in
  found <- path_exists source ;;
  if found then
    copy2 source (template_dir // template) ;;
    print ("  ✅ Copied " +:+ template)
  else
    print ("  ⚠️  Template not found: " +:+ template).

(** The body of the loop over [state_templates]; it has no [else]. *)
Definition copy_state_template (self : WorkflowInitializer) (template_source template : string) : M unit :=
  let source := state_source_file template_source template in
  found <- path_exists source ;;
  when found (
    let dest := state_dest_file self template in
    copy2 source dest ;;
    print ("  ✅ Copied " +:+ template)).

Definition copy_templates (self : WorkflowInitializer) (template_source : string) : M unit :=
  print "📄 Copying template files..." ;;
  for_each templates (copy_template self template_source) ;;
  for_each state_templates (copy_state_template self template_source) ;;
  print "✅ Template files copied".

(** The part of [default_config] that the writer reads.  Its [workflow],
    [documentation] and [traceability] entries are constants which are never
    read: the text of those sections is fixed in [yaml_footer]. *)
Record platform : Type := Platform {
  plat_id : string;
  plat_name : string;
  plat_enabled : pyval
}.

Record project_section : Type := {
  proj_name : pyval;
  proj_type : pyval;
  proj_version : pyval
}.

Record config : Type := {
  project : project_section;
  platforms : list platform
}.

Definition default_config (config_data : gmap string pyval) : config :=
  {| project :=
       {| proj_name := dict_get config_data "project_name" (PyStr "My Project");
          proj_type := dict_get config_data "project_type" (PyStr "application");
          proj_version := PyStr "1.0.0" |};
     platforms :=
       [ Platform "gateway" "网关端" (dict_get config_data "gateway" (PyBool false));
         Platform "hmi" "HMI运行端" (dict_get config_data "hmi" (PyBool false));
         Platform "configuration" "组态端" (dict_get config_data "configuration" (PyBool false));
         Platform "cloud" "云平台端" (dict_get config_data "cloud" (PyBool false));
         Platform "app" "APP端" (dict_get config_data "app" (PyBool false));
         Platform "edge-ai" "边缘智能服务器" (dict_get config_data "edge-ai" (PyBool false));
         Platform "scada" "Scada软件" (dict_get config_data "scada" (PyBool false));
         Platform "web-editor" "Web可视化编辑器" (dict_get config_data "web-editor" (PyBool false)) ] |}.

(** The text of [config.yml]: the formatted header, one block appended per
    platform, then the fixed tail. *)
Definition yaml_content (cfg : config) : string :=
  let yaml_content :=
    yaml_header (py_str (proj_name (project cfg)))
                (py_str (proj_type (project cfg)))
                (py_str (proj_version (project cfg))) in
  let yaml_content :=
    fold_left (fun yaml_content platform =>
                 yaml_content +:+
                 yaml_platform (plat_id platform) (plat_name platform)
                               (Str.lower (py_str (plat_enabled platform))))
              (platforms cfg) yaml_content in
  yaml_content +:+ yaml_footer.

Definition create_initial_config (self : WorkflowInitializer) (config_data : gmap string pyval) : M unit :=
  print "⚙️  Creating configuration..." ;;
  let config_file := workflow_dir self // "config.yml" in
  write_text config_file (yaml_content (default_config config_data)) ;;
  print "✅ Configuration created".

Definition create_initial_state (self : WorkflowInitializer) : M unit :=
  print "📊 Creating initial state files..." ;;
  let current_phase := workflow_dir self // "current-phase.md" in
  write_text current_phase
    (current_phase_text (name (parent (workflow_dir self))) (date self)) ;;
  let active_tasks := workflow_dir self // "parallel-tasks" // "active-tasks.md" in
  write_text active_tasks (active_tasks_text (date self)) ;;
  let task_deps := workflow_dir self // "parallel-tasks" // "task-dependencies.md" in
  write_text task_deps task_deps_text ;;
  let dep_backlog := workflow_dir self // "dependency-backlog.md" in
  write_text dep_backlog dep_backlog_text ;;
  let code_map := workflow_dir self // "feature-to-code-map.md" in
  write_text code_map code_map_text ;;
  let rt_matrix := workflow_dir self // "rt-matrix.md" in
  write_text rt_matrix (rt_matrix_text (date self)) ;;
  print "✅ Initial state files created".

Definition create_readme (self : WorkflowInitializer) : M unit :=
  let readme := workflow_dir self // "README.md" in
  write_text readme readme_text.

(** ["=" * 60]. *)
Definition rule : string := String.concat "" (repeat "=" 60).

(** Truthiness of an optional string argument: [None] and the empty string
    are false. *)
Definition supplied (o : option string) : bool :=
  match o with
  | Some s => Str.truthy s
  | None => false
  end.

(** [if config_data is None: config_data = {}]. *)
Definition or_empty (config_data : option (gmap string pyval)) : gmap string pyval :=
  match config_data with
  | Some d => d
  | None => ∅
  end.

Definition skip_notice : string := "⚠️  跳过模板复制（未指定模板源）".

Definition initialize (self : WorkflowInitializer)
    (config_data : option (gmap string pyval)) (template_source : option string) : M unit :=
  print rule ;;
  print "🚀 Claude Code Workflow Initialization" ;;
  print rule ;;
  print "" ;;
  let config_data := or_empty config_data in
  create_directories self ;;
  print "" ;;
  (match template_source with
   | Some src =>
       if Str.truthy src then copy_templates self src ;; print ""
       else print skip_notice ;; print ""
   | None => print skip_notice ;; print ""
   end) ;;
  create_initial_config self config_data ;;
  print "" ;;
  create_initial_state self ;;
  print "" ;;
  create_readme self ;;
  print "" ;;
  print rule ;;
  print "✅ 初始化完成！" ;;
  print rule ;;
  print "" ;;
  print "📝 下一步:" ;;
  print "1. 审查配置文件: .claude-workflow/config.yml" ;;
  print "2. 启动 Claude Code" ;;
  print "3. 开始第一个需求: '我们需要添加[新功能]'" ;;
  print "".

(** ** The command line *)

(** What [argparse] hands to [main]: an option that was not given is [None],
    except for the two that have defaults. *)
Record args : Type := Args {
  arg_project_path : string;
  arg_project_name : option string;
  arg_project_type : string;
  arg_platforms : option string;
  arg_template_source : option string
}.

(** The command line without any option. *)
Definition default_args : args :=
  {| arg_project_path := ".";
     arg_project_name := None;
     arg_project_type := "application";
     arg_platforms := None;
     arg_template_source := None |}.

Definition platform_names : list string :=
  ["gateway"; "hmi"; "configuration"; "cloud"; "app"; "edge-ai"; "scada"; "web-editor"].

Definition opt_str (o : option string) : pyval :=
  match o with
  | Some s => PyStr s
  | None => PyNone
  end.

(** The dictionary [main] builds before it calls [initialize]. *)
Definition parse_config_data (a : args) : gmap string pyval :=
  let config_data : gmap string pyval :=
    <["project_type" := PyStr (arg_project_type a)]>
      (<["project_name" := opt_str (arg_project_name a)]> ∅) in
  match arg_platforms a with
  | Some s =>
      if Str.truthy s then
        let platforms := Str.split "," (Str.lower s) in
        fold_left (fun (config_data : gmap string pyval) platform =>
                     if bool_decide (platform ∈ platform_names)
                     then <[platform := PyBool true]> config_data
                     else config_data)
                  platforms config_data
      else config_data
  | None => config_data
  end.

Definition main (a : args) (now : clock) : M unit :=
  let config_data := parse_config_data a in
  working_dir <- getcwd ;;
  let initializer := new_initializer working_dir (arg_project_path a) now in
  initialize initializer (Some config_data) (arg_template_source a).

(** ** The layout of [config.yml], as the specification words it *)

(** The identifier-to-display-name table. *)
Definition display_names : list (string * string) :=
  [ ("gateway", "网关端");
    ("hmi", "HMI运行端");
    ("configuration", "组态端");
    ("cloud", "云平台端");
    ("app", "APP端");
    ("edge-ai", "边缘智能服务器");
    ("scada", "Scada软件");
    ("web-editor", "Web可视化编辑器") ].

Fixpoint assoc (key : string) (table : list (string * string)) : string :=
  match table with
  | [] => EmptyString
  | (k, v) :: table' => if String.eqb key k then v else assoc key table'
  end.

Definition display_name (id : string) : string := assoc id display_names.

(** The lowercase rendering of a boolean. *)
Definition flag_text (b : bool) : string := if b then "true" else "false".

(** The text after [enabled:] for platform [id]. *)
Definition enabled_text (config_data : gmap string pyval) (id : string) : string :=
  Str.lower (py_str (dict_get config_data id (PyBool false))).

(** One entry of the platform table: the [id], [name], [enabled] triplet. *)
Definition platform_lines (config_data : gmap string pyval) (id : string) : list string :=
  [ "  - id: " +:+ id;
    "    name: " +:+ display_name id;
    "    enabled: " +:+ enabled_text config_data id ].

(** The whole text, line by line: the project section, the table of the
    eight platforms in their fixed order, then the three fixed sections,
    each under its comment line. *)
Definition config_lines (config_data : gmap string pyval) : list string :=
  [ "# Claude Code 工作流配置";
    EmptyString;
    "project:";
    "  name: " +:+ dq
      +:+ py_str (dict_get config_data "project_name" (PyStr "My Project")) +:+ dq;
    "  type: " +:+ dq
      +:+ py_str (dict_get config_data "project_type" (PyStr "application")) +:+ dq;
    "  version: " +:+ dq +:+ "1.0.0" +:+ dq;
    EmptyString;
    "# 支持的平台";
    "platforms:" ]
  ++ flat_map (platform_lines config_data) platform_names
  ++ [ EmptyString;
       "# 工作流配置";
       "workflow:";
       "  enforce_order: true";
       "  enable_parallel: true";
       "  max_parallel_tasks: 5";
       "  enable_dependency_ignore: true";
       EmptyString;
       "# 文档配置";
       "documentation:";
       "  auto_generate: true";
       "  format: markdown";
       "  include_api_docs: true";
       EmptyString;
       "# 追溯配置";
       "traceability:";
       "  auto_update: true";
       "  mapping_granularity: function" ].

Definition config_layout (config_data : gmap string pyval) : string :=
  Str.unlines (config_lines config_data).

(** The tokens of the [--platforms] argument that [main] looks at. *)
Definition platform_tokens (a : args) : list string :=
  match arg_platforms a with
  | Some s => if Str.truthy s then Str.split "," (Str.lower s) else []
  | None => []
  end.



(** The dictionary before any platform is entered. *)
Definition base_config_data (a : args) : gmap string pyval :=
  <["project_type" := PyStr (arg_project_type a)]>
    (<["project_name" := opt_str (arg_project_name a)]> ∅).

(** The command line [a] with [--platforms s]. *)
Definition with_platforms (a : args) (s : string) : args :=
  {| arg_project_path := arg_project_path a;
     arg_project_name := arg_project_name a;
     arg_project_type := arg_project_type a;
     arg_platforms := Some s;
     arg_template_source := arg_template_source a |}.



(** [s] occurs in [t]. *)
Definition substring_of (s t : string) : Prop :=
  exists pre post, t = pre +:+ s +:+ post.

(** Reading back a date of the form [YYYY-MM-DD]. *)
Definition digit_value (c : ascii) : option N :=
  if is_digit c then Some (N_of_ascii c - 48)%N else None.

Fixpoint number (acc : N) (s : string) : option N :=
  match s with
  | EmptyString => Some acc
  | String c r =>
      match digit_value c with
      | Some d => number (10 * acc + d)%N r
      | None => None
      end
  end.

Definition parse_ymd (s : string) : option clock :=
  match s with
  | String y1 (String y2 (String y3 (String y4 (String "-"
      (String m1 (String m2 (String "-"
        (String d1 (String d2 EmptyString))))))))) =>
      match number 0 (String y1 (String y2 (String y3 (String y4 EmptyString)))),
            number 0 (String m1 (String m2 EmptyString)),
            number 0 (String d1 (String d2 EmptyString)) with
      | Some y, Some m, Some d => Some (Clock y m d)
      | _, _, _ => None
      end
  | _ => None
  end.

(** The directory that the template source names, in a process whose
    working directory is [working_dir]. *)
Definition template_source_dir (working_dir : path) (template_source : string) : path :=
  resolve working_dir (Path template_source).

(** What [copy_templates] may do: print, read below the template source's
    [.claude-workflow], write below the workflow directory. *)
Definition template_event (self : WorkflowInitializer) (template_source : string)
    (working_dir : path) (e : event) : Prop :=
  match e with
  | Printed _ => True
  | MadeDir _ => False
  | ReadFile p => under (template_source_dir working_dir template_source // ".claude-workflow") p
  | Wrote p => under (workflow_dir self) p
  end.

(** The console line for a template that is not found. *)
Definition not_found_line (template : string) : string :=
  "  ⚠️  Template not found: " +:+ template.

(** A project at [/p] that already holds a state template of its own. *)
Definition project_with_state_template : world :=
  {| fs :=
       <[ ["p"; ".claude-workflow"; "parallel-tasks"; "active-tasks-template.md"]
          := File "# tasks" ]>
       (<[ ["p"; ".claude-workflow"; "parallel-tasks"] := Dir ]>
       (<[ ["p"; ".claude-workflow"] := Dir ]>
       (<[ ["p"] := Dir ]> ∅)));
     trace := [];
     cwd := [] |}.

(** The observable course of a successful run of [initialize], step by
    step. *)
Definition opening_events : list event :=
  [ Printed rule;
    Printed "🚀 Claude Code Workflow Initialization";
    Printed rule;
    Printed "" ].

Definition is_made_dir (e : event) : Prop :=
  match e with
  | MadeDir _ => True
  | _ => False
  end.

Definition directory_events (made : list event) : list event :=
  Printed "📁 Creating directory structure..." :: made
  ++ [Printed "✅ Directory structure created"].

(** The template step either ran, between its two console lines, or was
    skipped with the notice. *)
Definition template_events (self : WorkflowInitializer) (template_source : option string)
    (working_dir : path) (d : list event) : Prop :=
  match template_source with
  | Some src =>
      if Str.truthy src then
        exists inner,
          d = Printed "📄 Copying template files..." :: inner
              ++ [Printed "✅ Template files copied"]
          /\ Forall (template_event self src working_dir) inner
      else d = [Printed skip_notice]
  | None => d = [Printed skip_notice]
  end.

Definition config_events (self : WorkflowInitializer) : list event :=
  [ Printed "⚙️  Creating configuration...";
    Wrote (workflow_dir self // "config.yml");
    Printed "✅ Configuration created" ].

Definition state_events (self : WorkflowInitializer) : list event :=
  [ Printed "📊 Creating initial state files...";
    Wrote (workflow_dir self // "current-phase.md");
    Wrote (workflow_dir self // "parallel-tasks" // "active-tasks.md");
    Wrote (workflow_dir self // "parallel-tasks" // "task-dependencies.md");
    Wrote (workflow_dir self // "dependency-backlog.md");
    Wrote (workflow_dir self // "feature-to-code-map.md");
    Wrote (workflow_dir self // "rt-matrix.md");
    Printed "✅ Initial state files created" ].

Definition readme_events (self : WorkflowInitializer) : list event :=
  [ Wrote (workflow_dir self // "README.md") ].

Definition closing_events : list event :=
  [ Printed "";
    Printed rule;
    Printed "✅ 初始化完成！";
    Printed rule;
    Printed "";
    Printed "📝 下一步:";
    Printed "1. 审查配置文件: .claude-workflow/config.yml";
    Printed "2. 启动 Claude Code";
    Printed "3. 开始第一个需求: '我们需要添加[新功能]'";
    Printed "" ].

(** An empty world: nothing below the root, nothing observed yet. *)
Definition empty_world : world := {| fs := ∅; trace := []; cwd := [] |}.

(** The entry at [p] is left as it was. *)
Definition same_at (p : path) : relation world :=
  fun w w' => fs w' !! p = fs w !! p.

(** ** Concrete inputs *)

Definition sample_clock : clock := Clock 2026 11 3.

(** [init-workflow.py /home/proj --platforms gateway,hmi]. *)
Definition sample_args : args :=
  {| arg_project_path := "/home/proj";
     arg_project_name := None;
     arg_project_type := "application";
     arg_platforms := Some "gateway,hmi";
     arg_template_source := None |}.

Definition sample_self : WorkflowInitializer := new_initializer [] "/home/proj" sample_clock.

(** The world after a first run in an empty file system. *)
Definition after_first_run : world := snd (main sample_args sample_clock empty_world).

(** A template source at [/src] that holds one top-level template, next to
    an initialized project at [/home/proj]. *)
Definition with_template_source : world :=
  {| fs :=
       <[ ["src"; ".claude-workflow"; "templates"; "REQ-template.md"] := File "# REQ" ]>
       (<[ ["src"; ".claude-workflow"; "templates"] := Dir ]>
       (<[ ["src"; ".claude-workflow"] := Dir ]>
       (<[ ["src"] := Dir ]> (fs after_first_run))));
     trace := [];
     cwd := [] |}.

(** A process started in the directory [/home/user/proj], with nothing in
    it yet. *)
Definition in_project : world :=
  {| fs :=
       <[ ["home"; "user"; "proj"] := Dir ]>
       (<[ ["home"; "user"] := Dir ]>
       (<[ ["home"] := Dir ]> ∅));
     trace := [];
     cwd := ["home"; "user"; "proj"] |}.

(** ** Properties of runs *)

Definition blank_line (w : world) : world := emit (Printed "") w.

(** The console lines [initialize] starts with. *)
Definition opening (w : world) : world :=
  blank_line
    (emit (Printed rule)
       (emit (Printed "🚀 Claude Code Workflow Initialization")
          (emit (Printed rule) w))).

(** The console lines [initialize] ends with. *)
Definition closing (w : world) : world :=
  blank_line
    (emit (Printed "3. 开始第一个需求: '我们需要添加[新功能]'")
       (emit (Printed "2. 启动 Claude Code")
          (emit (Printed "1. 审查配置文件: .claude-workflow/config.yml")
             (emit (Printed "📝 下一步:")
                (blank_line
                   (emit (Printed rule)
                      (emit (Printed "✅ 初始化完成！")
                         (emit (Printed rule) (blank_line w))))))))).

(** The second step of [initialize], from world [w] to world [w']: the
    templates are copied from a source that was supplied, and otherwise
    only the notice is printed. *)
Definition template_step (self : WorkflowInitializer) (template_source : option string)
    (w w' : world) : Prop :=
  match template_source with
  | Some src =>
      if Str.truthy src then copy_templates self src w = (Ok tt, w')
      else w' = emit (Printed skip_notice) w
  | None => w' = emit (Printed skip_notice) w
  end.

(** A successful run of [initialize] from [w] to [w'], step by step. *)
Definition runs_in_order (self : WorkflowInitializer)
    (config_data : option (gmap string pyval)) (template_source : option string)
    (w w' : world) : Prop :=
  exists w1 w2 w3 w4 w5,
    create_directories self (opening w) = (Ok tt, w1)
    /\ template_step self template_source (blank_line w1) w2
    /\ create_initial_config self (or_empty config_data) (blank_line w2) = (Ok tt, w3)
    /\ create_initial_state self (blank_line w3) = (Ok tt, w4)
    /\ create_readme self (blank_line w4) = (Ok tt, w5)
    /\ w' = closing w5.

(** Every run of [m] relates the world before to the world after, whether
    it returns or raises. *)
Definition preserves {A} (R : relation world) (m : M A) : Prop :=
  forall w r w', m w = (r, w') -> R w w'.

(** Directories stay directories. *)
Definition dirs_kept : relation world :=
  fun w w' => forall p, is_dir (fs w) p = true -> is_dir (fs w') p = true.

(** The working directory stays. *)
Definition same_cwd : relation world :=
  fun w w' => cwd w' = cwd w.

(** Tree shape is not lost. *)
Definition tree_kept : relation world :=
  fun w w' => tree_shaped (fs w) -> tree_shaped (fs w').

(** The working directory stays, and the trace grows by events that all
    satisfy [P] there. *)
Definition grows_by (P : path -> event -> Prop) : relation world :=
  fun w w' =>
    cwd w' = cwd w /\ exists d, trace w' = trace w ++ d /\ Forall (P (cwd w)) d.

(** Nothing outside the subtree of [root] changes. *)
Definition same_outside (root : path) : relation world :=
  fun w w' => forall p, ~ under root p -> fs w' !! p = fs w !! p.

(** A relation between worlds that every effect of the primitives respects:
    recording an event, making a directory where there was nothing, and
    putting a file where there was no directory. *)
Class Safe (R : relation world) : Prop := {
  safe_preorder :: PreOrder R;
  safe_emit : forall e w, R w (emit e w);
  safe_mkdir : forall p w,
    is_dir (fs w) (parent p) = true -> stat (fs w) p = None -> R w (store p Dir w);
  safe_write : forall p c w,
    is_dir (fs w) (parent p) = true -> is_dir (fs w) p = false ->
    R w (store p (File c) w)
}.

(** ** Further concrete inputs *)

(** The project path [/home/proj] is a regular file. *)
Definition project_is_a_file : world :=
  {| fs := <[ ["home"; "proj"] := File "not a directory" ]> (<[ ["home"] := Dir ]> ∅);
     trace := [];
     cwd := [] |}.

(** A directory sits where [config.yml] goes. *)
Definition config_is_a_directory : world :=
  {| fs :=
       <[ ["home"; "proj"; ".claude-workflow"; "config.yml"] := Dir ]>
       (<[ ["home"; "proj"; ".claude-workflow"] := Dir ]>
       (<[ ["home"; "proj"] := Dir ]>
       (<[ ["home"] := Dir ]> ∅)));
     trace := [];
     cwd := [] |}.

(** An initialized project at [/home/proj] that holds a top-level template
    of its own, with the process started inside the project. *)
Definition project_with_template : world :=
  {| fs :=
       <[ ["home"; "proj"; ".claude-workflow"; "templates"; "REQ-template.md"]
          := File "# REQ" ]> (fs after_first_run);
     trace := [];
     cwd := ["home"; "proj"] |}.

(** The same, with a directory at the place of the first template and a
    regular file at the place of the second. *)
Definition project_with_template_directory : world :=
  {| fs :=
       <[ ["home"; "proj"; ".claude-workflow"; "templates"; "FE-template.md"]
          := File "# FE" ]>
       (<[ ["home"; "proj"; ".claude-workflow"; "templates"; "REQ-template.md"]
           := Dir ]> (fs after_first_run));
     trace := [];
     cwd := ["home"; "proj"] |}.

(** A template source at [/src] that holds a template, beside a regular
    file at the project path [/home/proj]. *)
Definition template_beside_file : world :=
  {| fs :=
       <[ ["src"; ".claude-workflow"; "templates"; "REQ-template.md"] := File "# REQ" ]>
       (<[ ["src"; ".claude-workflow"; "templates"] := Dir ]>
       (<[ ["src"; ".claude-workflow"] := Dir ]>
       (<[ ["src"] := Dir ]>
       (<[ ["home"; "proj"] := File "not a directory" ]>
       (<[ ["home"] := Dir ]> ∅)))));
     trace := [];
     cwd := [] |}.

(** The initializer of a run on the same project one day later. *)
Definition later_self : WorkflowInitializer :=
  new_initializer [] "/home/proj" (Clock 2026 11 4).

(** A template source at [/src] in which a directory sits at the place of
    a template, and one that holds a template, with no project yet. *)
Definition directory_as_template : world :=
  {| fs :=
       <[ ["src"; ".claude-workflow"; "templates"; "REQ-template.md"] := Dir ]>
       (<[ ["src"; ".claude-workflow"; "templates"] := Dir ]>
       (<[ ["src"; ".claude-workflow"] := Dir ]>
       (<[ ["src"] := Dir ]> ∅)));
     trace := [];
     cwd := [] |}.

Definition template_without_project : world :=
  {| fs :=
       <[ ["src"; ".claude-workflow"; "templates"; "REQ-template.md"] := File "# REQ" ]>
       (<[ ["src"; ".claude-workflow"; "templates"] := Dir ]>
       (<[ ["src"; ".claude-workflow"] := Dir ]>
       (<[ ["src"] := Dir ]> ∅)));
     trace := [];
     cwd := [] |}.

(** ** Further properties of runs *)

(** No entry is removed. *)
Definition entries_kept : relation world :=
  fun w w' => forall p, exists_ (fs w) p = true -> exists_ (fs w') p = true.

(** The trace accounts for every change of the file system: an entry that
    differs afterwards was made as a directory or written as a file, and
    is that directory or a file. *)
Definition logged : relation world :=
  fun w w' =>
    exists d,
      trace w' = trace w ++ d
      /\ forall q,
           fs w' !! q = fs w !! q
           \/ (MadeDir q ∈ d /\ fs w' !! q = Some Dir)
           \/ (Wrote q ∈ d /\ exists c, fs w' !! q = Some (File c)).

(** [p] is a manifest directory of [self] or lies above one. *)
Definition manifest_prefix (self : WorkflowInitializer) (p : path) : Prop :=
  exists d, d ∈ dirs /\ p `prefix_of` (workflow_dir self // d).

(** What a run of [initialize] may do. *)
Definition run_event (self : WorkflowInitializer) (template_source : option string)
    (working_dir : path) (e : event) : Prop :=
  match e with
  | Printed _ => True
  | MadeDir p => manifest_prefix self p
  | ReadFile p =>
      match template_source with
      | Some src => under (template_source_dir working_dir src // ".claude-workflow") p
      | None => False
      end
  | Wrote p => under (workflow_dir self) p
  end.

(** The eight documents that a run generates, each with its text. *)
Definition documents (self : WorkflowInitializer) (config_data : gmap string pyval)
    : list (path * string) :=
  [ (workflow_dir self // "config.yml", yaml_content (default_config config_data));
    (workflow_dir self // "current-phase.md",
     current_phase_text (name (parent (workflow_dir self))) (date self));
    (workflow_dir self // "parallel-tasks" // "active-tasks.md",
     active_tasks_text (date self));
    (workflow_dir self // "parallel-tasks" // "task-dependencies.md", task_deps_text);
    (workflow_dir self // "dependency-backlog.md", dep_backlog_text);
    (workflow_dir self // "feature-to-code-map.md", code_map_text);
    (workflow_dir self // "rt-matrix.md", rt_matrix_text (date self));
    (workflow_dir self // "README.md", readme_text) ].

(** The entry at a path is a file with the given text. *)
Definition holds (f : gmap path node) (doc : path * string) : Prop :=
  f !! doc.1 = Some (File doc.2).

(** The file system of a project that a run has set up: tree-shaped, with
    every manifest directory and every document in place. *)
Definition initialized (self : WorkflowInitializer) (config_data : gmap string pyval)
    (f : gmap path node) : Prop :=
  tree_shaped f
  /\ Forall (fun d => is_dir f (workflow_dir self // d) = true) dirs
  /\ Forall (holds f) (documents self config_data).

(** The paths of the eight documents. *)
Definition doc_paths (self : WorkflowInitializer) : list path :=
  map fst (documents self ∅).

(** A file system on which a run can set the project up: tree-shaped, with
    no regular file at a manifest directory or above one, and no directory
    where a document goes. *)
Definition installable (self : WorkflowInitializer) (f : gmap path node) : Prop :=
  tree_shaped f
  /\ (forall q c, manifest_prefix self q -> stat f q <> Some (File c))
  /\ Forall (fun p => is_dir f p = false) (doc_paths self).

(** Every document can be written: the file system is tree-shaped, the
    directory of the document is there, and no directory is in its place. *)
Definition ready (self : WorkflowInitializer) (f : gmap path node) : Prop :=
  tree_shaped f
  /\ Forall (fun p => is_dir f (parent p) = true /\ is_dir f p = false) (doc_paths self).

(** No regular file appears. *)
Definition no_new_files : relation world :=
  fun w w' =>
    forall q c, stat (fs w') q = Some (File c) -> stat (fs w) q = Some (File c).

(** Directories appear at paths that satisfy [Q] only. *)
Definition new_dirs_at (Q : path -> Prop) : relation world :=
  fun w w' => forall q, is_dir (fs w') q = true -> is_dir (fs w) q = true \/ Q q.

(** * Verification *)

(** ** The monad *)

Lemma bind_ok_inv {A B} (m : M A) (k : A -> M B) w b w' :
  (x <- m ;; k x) w = (Ok b, w') ->
  exists a w1, m w = (Ok a, w1) /\ k a w1 = (Ok b, w').
Proof.
  unfold bind. destruct (m w) as [[a|e] w1]; intros H.
  - exists a, w1. split; [reflexivity | exact H].
  - discriminate.
Qed.

Lemma bind_ok {A B} (m : M A) (k : A -> M B) w a w1 :
  m w = (Ok a, w1) -> (x <- m ;; k x) w = k a w1.
Proof. unfold bind. intros ->. reflexivity. Qed.

Lemma for_each_app {A} (l1 l2 : list A) body w :
  for_each (l1 ++ l2) body w =
  match for_each l1 body w with
  | (Ok _, w1) => for_each l2 body w1
  | (Raise e, w1) => (Raise e, w1)
  end.
Proof.
  revert w. induction l1 as [|x l1 IH]; intros w; simpl.
  - reflexivity.
  - unfold bind. destruct (body x w) as [[[]|e] w1]; [apply IH | reflexivity].
Qed.

Section Preserves.

Context (R : relation world) `{!PreOrder R}.

Lemma preserves_ret {A} (a : A) : preserves R (ret a).
Proof. intros w r w' H. inversion H. reflexivity. Qed.

Lemma preserves_bind {A B} (m : M A) (k : A -> M B) :
  preserves R m -> (forall a, preserves R (k a)) -> preserves R (x <- m ;; k x).
Proof.
  intros Hm Hk w r w'. unfold bind.
  destruct (m w) as [[a|e] w1] eqn:E; intros H.
  - transitivity w1; [eapply Hm, E | eapply Hk, H].
  - inversion H; subst. eapply Hm, E.
Qed.

Lemma preserves_for_each {A} (l : list A) body :
  (forall x, x ∈ l -> preserves R (body x)) -> preserves R (for_each l body).
Proof.
  induction l as [|x l IH]; intros Hb; simpl.
  - apply preserves_ret.
  - apply preserves_bind.
    + apply Hb. left.
    + intros _. apply IH. intros y Hy. apply Hb. right. exact Hy.
Qed.

Lemma preserves_when c m : preserves R m -> preserves R (when c m).
Proof. destruct c; simpl; [trivial | intros _; apply preserves_ret]. Qed.

Lemma preserves_if {A} (c : bool) (m1 m2 : M A) :
  preserves R m1 -> preserves R m2 -> preserves R (if c then m1 else m2).
Proof. destruct c; trivial. Qed.

(** What holds after each successful iteration and is stable under [R]
    holds for every element once the loop has returned. *)
Lemma for_each_ok_all {A} (P : A -> world -> Prop) (l : list A) body :
  (forall x, preserves R (body x)) ->
  (forall x w w', P x w -> R w w' -> P x w') ->
  (forall x w w', x ∈ l -> body x w = (Ok tt, w') -> P x w') ->
  forall w w', for_each l body w = (Ok tt, w') -> forall x, x ∈ l -> P x w'.
Proof.
  intros Hpres Hstable. induction l as [|y l IH]; intros Hbody w w' Hrun x Hx.
  - inversion Hx.
  - simpl in Hrun. apply bind_ok_inv in Hrun as ([] & w1 & Hy & Hrest).
    apply elem_of_cons in Hx as [-> | Hx].
    + eapply Hstable.
      * eapply Hbody; [left | exact Hy].
      * eapply (preserves_for_each l body); [intros; apply Hpres | exact Hrest].
    + eapply IH; [| exact Hrest | exact Hx].
      intros z w2 w3 Hz. apply Hbody. right. exact Hz.
Qed.

End Preserves.

(** ** The file system *)

Lemma is_dir_stat f p : is_dir f p = true <-> stat f p = Some Dir.
Proof.
  unfold is_dir. destruct (stat f p) as [[|c]|]; split; congruence.
Qed.

Lemma stat_insert_eq f p n : p <> [] -> stat (<[p:=n]> f) p = Some n.
Proof.
  intros Hp. destruct p; [congruence|]. simpl. apply lookup_insert_eq.
Qed.

Lemma stat_insert_ne f p q n : p <> q -> stat (<[p:=n]> f) q = stat f q.
Proof.
  intros Hpq. destruct q; [reflexivity|]. simpl. by apply lookup_insert_ne.
Qed.

Lemma stat_none_not_root f p : stat f p = None -> p <> [].
Proof. intros H ->. discriminate. Qed.

Lemma not_dir_not_root f p : is_dir f p = false -> p <> [].
Proof. intros H ->. discriminate. Qed.

Lemma parent_snoc (p : path) c : parent (p ++ [c]) = p.
Proof. apply removelast_last. Qed.

Lemma tree_shaped_parent f p n :
  tree_shaped f -> stat f p = Some n -> is_dir f (parent p) = true.
Proof.
  intros Ht Hp. destruct p as [|c p]; [reflexivity|].
  exact (Ht (c :: p) n Hp).
Qed.

(** Making a directory where there was nothing, inside a directory. *)
Lemma tree_shaped_insert f p n :
  tree_shaped f -> is_dir f (parent p) = true -> is_dir f p = false ->
  tree_shaped (<[p:=n]> f).
Proof.
  intros Ht Hpar Hp q m Hq.
  assert (Hroot : p <> []) by (eapply not_dir_not_root; eauto).
  assert (Hkeep : forall r, is_dir f r = true -> is_dir (<[p:=n]> f) r = true).
  { intros r Hr. unfold is_dir. rewrite stat_insert_ne; [exact Hr|].
    intros ->. congruence. }
  destruct (decide (p = q)) as [<-|Hne].
  - apply Hkeep, Hpar.
  - rewrite lookup_insert_ne in Hq by exact Hne.
    apply Hkeep. exact (Ht q m Hq).
Qed.

(** ** Path lookup *)

Lemma walk_by_app next f cur cs1 cs2 :
  walk_by next f cur (cs1 ++ cs2)
  = match walk_by next f cur cs1 with
    | Ok q => walk_by next f q cs2
    | Raise e => Raise e
    end.
Proof.
  revert cur. induction cs1 as [|c cs1 IH]; intros cur; [reflexivity|].
  cbn [app walk_by]. destruct (stat f cur) as [[|x]|]; auto.
Qed.

(** A walk that succeeds ends where the components lead. *)
Lemma walk_by_ok next f cur cs q :
  walk_by next f cur cs = Ok q -> q = fold_left next cs cur.
Proof.
  revert cur. induction cs as [|c cs IH]; intros cur; cbn [walk_by fold_left].
  - congruence.
  - destruct (stat f cur) as [[|x]|]; [apply IH | discriminate ..].
Qed.

Lemma fold_left_snoc (cs : list string) (cur : path) :
  fold_left (fun cur c => cur ++ [c]) cs cur = cur ++ cs.
Proof.
  revert cur. induction cs as [|c cs IH]; intros cur; cbn [fold_left].
  - by rewrite app_nil_r.
  - by rewrite IH, <- app_assoc.
Qed.

Lemma descend_ok f p q : descend f p = Ok q -> q = p.
Proof. intros H. apply walk_by_ok in H. by rewrite fold_left_snoc in H. Qed.

Lemma locate_resolve f working_dir p q :
  locate f working_dir p = Ok q -> q = resolve working_dir p.
Proof. apply walk_by_ok. Qed.

Lemma descend_app f p cs :
  descend f (p ++ cs)
  = match descend f p with
    | Ok _ => walk_by (fun cur c => cur ++ [c]) f p cs
    | Raise e => Raise e
    end.
Proof.
  unfold descend. rewrite walk_by_app.
  destruct (walk_by _ f [] p) as [q|e] eqn:E; [|reflexivity].
  apply (descend_ok f p q) in E. by subst.
Qed.

Lemma step_name cur c : is_name c = true -> step cur c = cur ++ [c].
Proof.
  unfold is_name, step. destruct (String.eqb c ".."); [discriminate|].
  destruct (String.eqb c "."); [discriminate|].
  by destruct (String.eqb c "").
Qed.

Lemma fold_left_step_names cs cur :
  forallb is_name cs = true -> fold_left step cs cur = cur ++ cs.
Proof.
  revert cur. induction cs as [|c cs IH]; intros cur H; cbn [fold_left].
  - by rewrite app_nil_r.
  - cbn [forallb] in H. apply andb_true_iff in H as [Hc Hcs].
    by rewrite (step_name _ _ Hc), IH, <- app_assoc.
Qed.

(** Joining names on to a path and resolving it, in either order. *)
Lemma resolve_join working_dir p s :
  forallb is_name (components s) = true ->
  resolve working_dir (p /// s) = resolve working_dir p // s.
Proof.
  intros H. unfold resolve, pure_join, path_join, origin. cbn [parts anchored].
  rewrite fold_left_app. by apply fold_left_step_names.
Qed.

Lemma last_app_default {A : Type} (l1 l2 : list A) d :
  List.last (l1 ++ l2) d = List.last l2 (List.last l1 d).
Proof.
  destruct l2 as [|x l2 _] using rev_ind.
  - by rewrite app_nil_r.
  - by rewrite app_assoc, !last_last.
Qed.

Lemma basename_join p s : basename (p /// s) = List.last (components s) (basename p).
Proof. unfold basename, pure_join. cbn [parts anchored]. apply last_app_default. Qed.

(** The walk to [p] succeeds only through a directory that holds [p]. *)
Lemma descend_parent f p q : descend f p = Ok q -> is_dir f (parent p) = true.
Proof.
  destruct p as [|c p] using rev_ind; [reflexivity|]. clear IHp.
  rewrite descend_app, parent_snoc. destruct (descend f p) as [r|e]; [|discriminate].
  cbn [walk_by]. unfold is_dir. destruct (stat f p) as [[|x]|]; done.
Qed.

(** In a tree-shaped file system the walk reaches every entry, and every
    place inside a directory. *)
Lemma descend_tree f p :
  tree_shaped f -> is_dir f (parent p) = true -> descend f p = Ok p.
Proof.
  intros Ht. induction p as [|c p IH] using rev_ind; intros Hpar; [reflexivity|].
  rewrite parent_snoc in Hpar. rewrite descend_app, IH.
  - cbn [walk_by]. apply is_dir_stat in Hpar. by rewrite Hpar.
  - apply is_dir_stat in Hpar. exact (tree_shaped_parent _ _ _ Ht Hpar).
Qed.

Lemma descend_tree_entry f p n :
  tree_shaped f -> stat f p = Some n -> descend f p = Ok p.
Proof.
  intros Ht Hp. apply descend_tree; [exact Ht|].
  exact (tree_shaped_parent _ _ _ Ht Hp).
Qed.

(** Below a regular file the walk fails with [ENOTDIR]. *)
Lemma descend_under_file f q c ext :
  tree_shaped f -> stat f q = Some (File c) -> ext <> [] ->
  descend f (q ++ ext) = Raise NotADirectoryError.
Proof.
  intros Ht Hq Hext. rewrite descend_app, (descend_tree_entry _ _ _ Ht Hq).
  destruct ext as [|x ext]; [done|]. cbn [walk_by]. by rewrite Hq.
Qed.

(** A walk that succeeds still succeeds when directories stay
    directories. *)
Lemma walk_by_kept (next : path -> string -> path) (f f' : gmap path node) cur cs q :
  (forall p, is_dir f p = true -> is_dir f' p = true) ->
  walk_by next f cur cs = Ok q -> walk_by next f' cur cs = Ok q.
Proof.
  intros Hk. revert cur. induction cs as [|c cs IH]; intros cur; cbn [walk_by]; [done|].
  destruct (stat f cur) as [[|x]|] eqn:E; try discriminate.
  assert (Hd : is_dir f' cur = true) by (apply Hk; unfold is_dir; by rewrite E).
  apply is_dir_stat in Hd. rewrite Hd. apply IH.
Qed.

Lemma sees_dir_is_dir f p : sees_dir f p = true -> is_dir f p = true.
Proof. unfold sees_dir. by destruct (descend f p). Qed.

Lemma sees_dir_tree f p : tree_shaped f -> sees_dir f p = is_dir f p.
Proof.
  intros Ht. unfold sees_dir. destruct (is_dir f p) eqn:E.
  - apply is_dir_stat in E. by rewrite (descend_tree_entry _ _ _ Ht E).
  - by destruct (descend f p).
Qed.

Lemma sees_located f working_dir p q n :
  sees f working_dir p = Some (q, n) ->
  locate f working_dir p = Ok q /\ stat f q = Some n /\ q = resolve working_dir p.
Proof.
  unfold sees. destruct (locate f working_dir p) as [r|e] eqn:E; [|discriminate].
  destruct (stat f r) as [m|] eqn:Er; [|discriminate].
  intros H. inversion H; subst. repeat split; [exact Er|].
  by apply locate_resolve in E.
Qed.

(** ** The primitives, case by case *)

Lemma os_mkdir_cases p w :
  (os_mkdir p w = (Ok tt, emit (MadeDir p) (store p Dir w))
   /\ is_dir (fs w) (parent p) = true /\ stat (fs w) p = None)
  \/ (exists e, os_mkdir p w = (Raise e, w)).
Proof.
  unfold os_mkdir. destruct (descend (fs w) p) as [q|e] eqn:E; [|eauto].
  apply descend_parent in E. destruct (stat (fs w) p); eauto.
Qed.

Lemma write_text_cases p c w :
  (write_text p c w = (Ok tt, emit (Wrote p) (store p (File c) w))
   /\ is_dir (fs w) (parent p) = true /\ is_dir (fs w) p = false)
  \/ (exists e, write_text p c w = (Raise e, w)).
Proof.
  unfold write_text, is_dir. destruct (descend (fs w) p) as [q|e] eqn:E; [|eauto].
  apply descend_parent in E. destruct (stat (fs w) p) as [[|c']|]; eauto.
Qed.

Lemma read_file_cases p w :
  (exists q c, read_file p w = (Ok c, emit (ReadFile q) w)
               /\ sees (fs w) (cwd w) p = Some (q, File c))
  \/ (exists e, read_file p w = (Raise e, w)).
Proof.
  unfold read_file, sees. destruct (locate (fs w) (cwd w) p) as [q|e]; [|eauto].
  destruct (stat (fs w) q) as [[|c]|]; eauto.
Qed.

(** [copy2] either refuses, or reads the source and writes the
    destination, which is [dst] or the entry of the source's name in it. *)
Lemma copy2_cases src dst w :
  copy2 src dst w = (Raise SameFileError, w)
  \/ exists dst',
       (dst' = dst \/ dst' = step dst (basename src))
       /\ copy2 src dst w = (content <- read_file src ;; write_text dst' content) w.
Proof.
  unfold copy2. destruct (same_file _ _ _ _); [by left|]. right.
  destruct (sees_dir (fs w) dst); eauto.
Qed.

Lemma is_dir_store_dir p w : p <> [] -> is_dir (fs (store p Dir w)) p = true.
Proof. intros Hp. unfold is_dir, store. simpl. by rewrite stat_insert_eq. Qed.

(** ** Proof automation for sequences of steps *)

Create HintDb script_pres.

Ltac pres_step :=
  first
    [ apply preserves_for_each; [typeclasses eauto | intros ? ?]
    | apply preserves_bind; [typeclasses eauto | | intros ?]
    | apply preserves_when; [typeclasses eauto |]
    | apply preserves_if
    | apply preserves_ret; typeclasses eauto
    | solve [eauto with script_pres]
    | progress cbv beta zeta ].

Ltac pres := repeat pres_step.

(** The same, with the lemmas about whole steps tried before a step is
    taken apart. *)
Ltac pres_steps := repeat first [ solve [eauto with script_pres] | pres_step ].

Lemma mkdir_parents_rev_eq rp w :
  mkdir_parents_rev rp w =
  match os_mkdir (rev rp) w with
  | (Ok _, w') => (Ok tt, w')
  | (Raise FileNotFoundError, _) =>
      match rp with
      | [] => (Raise FileNotFoundError, w)
      | _ :: rp' => (mkdir_parents_rev rp' ;; mkdir_exist_ok (rev rp)) w
      end
  | (Raise e, _) => if sees_dir (fs w) (rev rp) then (Ok tt, w) else (Raise e, w)
  end.
Proof. destruct rp; reflexivity. Qed.

(** ** What every primitive and every step respects *)

Section SafeRelation.

Context (R : relation world) `{!Safe R}.

Lemma safe_print line : preserves R (print line).
Proof. intros w r w' H. inversion H. apply safe_emit. Qed.

Lemma safe_path_exists p : preserves R (path_exists p).
Proof. intros w r w' H. inversion H. reflexivity. Qed.

Lemma safe_os_mkdir p : preserves R (os_mkdir p).
Proof.
  intros w r w' H. destruct (os_mkdir_cases p w) as [(E & Hpar & Hp) | [e E]];
    rewrite E in H; inversion H; subst.
  - transitivity (store p Dir w); [by apply safe_mkdir | apply safe_emit].
  - reflexivity.
Qed.

Lemma safe_write_text p c : preserves R (write_text p c).
Proof.
  intros w r w' H. destruct (write_text_cases p c w) as [(E & Hpar & Hp) | [e E]];
    rewrite E in H; inversion H; subst.
  - transitivity (store p (File c) w); [by apply safe_write | apply safe_emit].
  - reflexivity.
Qed.

Lemma safe_read_file p : preserves R (read_file p).
Proof.
  intros w r w' H. destruct (read_file_cases p w) as [(q & c & E & _) | [e E]];
    rewrite E in H; inversion H; subst.
  - apply safe_emit.
  - reflexivity.
Qed.

Lemma safe_copy2 src dst : preserves R (copy2 src dst).
Proof.
  intros w r w' H.
  destruct (copy2_cases src dst w) as [E | (dst' & _ & E)]; rewrite E in H.
  - inversion H. reflexivity.
  - exact (preserves_bind _ _ _
             (safe_read_file src) (fun c => safe_write_text _ c) _ _ _ H).
Qed.

Lemma safe_mkdir_exist_ok p : preserves R (mkdir_exist_ok p).
Proof.
  intros w r w'. unfold mkdir_exist_ok.
  destruct (os_mkdir p w) as [[[]|e] w1] eqn:E; intros H.
  - inversion H; subst. eapply safe_os_mkdir, E.
  - destruct e, (sees_dir (fs w) p); inversion H; reflexivity.
Qed.

Lemma safe_mkdir_parents_rev rp : preserves R (mkdir_parents_rev rp).
Proof.
  induction rp as [|c rp IH]; intros w r w'; rewrite mkdir_parents_rev_eq;
    destruct (os_mkdir _ w) as [[[]|e] w1] eqn:E; intros H.
  - inversion H; subst. eapply safe_os_mkdir, E.
  - destruct e; try destruct (sees_dir (fs w) (rev []));
      inversion H; reflexivity.
  - inversion H; subst. eapply safe_os_mkdir, E.
  - destruct e;
      try (destruct (sees_dir (fs w) (rev (c :: rp))); inversion H; reflexivity).
    exact (preserves_bind _ _ _
             IH (fun _ => safe_mkdir_exist_ok _) _ _ _ H).
Qed.

Lemma safe_mkdir_parents p : preserves R (mkdir_parents p).
Proof. apply safe_mkdir_parents_rev. Qed.

Hint Resolve safe_print safe_path_exists safe_write_text safe_copy2
  safe_mkdir_parents : script_pres.

Lemma safe_create_directories self : preserves R (create_directories self).
Proof. unfold create_directories. pres. Qed.

Lemma safe_copy_templates self src : preserves R (copy_templates self src).
Proof. unfold copy_templates, copy_template, copy_state_template. pres. Qed.

Lemma safe_create_initial_config self d : preserves R (create_initial_config self d).
Proof. unfold create_initial_config. pres. Qed.

Lemma safe_create_initial_state self : preserves R (create_initial_state self).
Proof. unfold create_initial_state. pres. Qed.

Lemma safe_create_readme self : preserves R (create_readme self).
Proof. unfold create_readme. pres. Qed.

End SafeRelation.

(** ** Directories stay directories, and the tree shape is kept *)

#[local] Instance dirs_kept_preorder : PreOrder dirs_kept.
Proof.
  split.
  - intros w p Hp. exact Hp.
  - intros a b c H1 H2 p Hp. apply H2, H1, Hp.
Qed.

Lemma is_dir_insert_other f p q n :
  is_dir f q = true -> is_dir f p = false \/ n = Dir ->
  is_dir (<[p:=n]> f) q = true.
Proof.
  intros Hq Hp. destruct (decide (p = q)) as [<-|Hne].
  - destruct Hp as [Hp | ->]; [congruence|].
    destruct p; [reflexivity|]. unfold is_dir. by rewrite stat_insert_eq.
  - unfold is_dir. by rewrite stat_insert_ne.
Qed.

#[local] Instance dirs_kept_safe : Safe dirs_kept.
Proof.
  split.
  - apply _.
  - intros e w p Hp. exact Hp.
  - intros p w _ _ q Hq. apply is_dir_insert_other; auto.
  - intros p c w _ Hp q Hq. apply is_dir_insert_other; auto.
Qed.

#[local] Instance tree_kept_preorder : PreOrder tree_kept.
Proof.
  split.
  - intros w H. exact H.
  - intros a b c H1 H2 H. apply H2, H1, H.
Qed.

#[local] Instance tree_kept_safe : Safe tree_kept.
Proof.
  split.
  - apply _.
  - intros e w H. exact H.
  - intros p w Hpar Hp Ht. apply tree_shaped_insert; auto.
    unfold is_dir. by rewrite Hp.
  - intros p c w Hpar Hp Ht. apply tree_shaped_insert; auto.
Qed.

#[local] Instance same_cwd_preorder : PreOrder same_cwd.
Proof.
  split.
  - intros w. reflexivity.
  - intros a b c H1 H2. unfold same_cwd in *. congruence.
Qed.

#[local] Instance same_cwd_safe : Safe same_cwd.
Proof. split; [apply _ | reflexivity ..]. Qed.

Lemma mkdir_exist_ok_is_dir p w w' :
  mkdir_exist_ok p w = (Ok tt, w') -> is_dir (fs w') p = true.
Proof.
  unfold mkdir_exist_ok.
  destruct (os_mkdir_cases p w) as [(E & _ & Hp) | [e E]]; rewrite E.
  - intros H. inversion H. apply is_dir_store_dir. eapply stat_none_not_root, Hp.
  - destruct e; try discriminate;
      destruct (sees_dir (fs w) p) eqn:D; intros H; inversion H; subst;
      exact (sees_dir_is_dir _ _ D).
Qed.

Lemma mkdir_parents_rev_is_dir rp w w' :
  mkdir_parents_rev rp w = (Ok tt, w') -> is_dir (fs w') (rev rp) = true.
Proof.
  rewrite mkdir_parents_rev_eq.
  destruct (os_mkdir_cases (rev rp) w) as [(E & _ & Hp) | [e E]]; rewrite E.
  - intros H. inversion H. apply is_dir_store_dir. eapply stat_none_not_root, Hp.
  - destruct e;
      try (destruct (sees_dir (fs w) (rev rp)) eqn:D; intros H; inversion H; subst;
           exact (sees_dir_is_dir _ _ D)).
    destruct rp as [|c rp]; [discriminate|].
    intros H. apply bind_ok_inv in H as ([] & w1 & _ & H).
    eapply mkdir_exist_ok_is_dir, H.
Qed.

Lemma mkdir_parents_is_dir p w w' :
  mkdir_parents p w = (Ok tt, w') -> is_dir (fs w') p = true.
Proof.
  unfold mkdir_parents. intros H. apply mkdir_parents_rev_is_dir in H.
  by rewrite rev_involutive in H.
Qed.

Lemma create_directories_makes_all self w w' :
  create_directories self w = (Ok tt, w') ->
  forall d, d ∈ dirs -> is_dir (fs w') (workflow_dir self // d) = true.
Proof.
  unfold create_directories. intros H d Hd.
  apply bind_ok_inv in H as ([] & w1 & _ & H).
  apply bind_ok_inv in H as ([] & w2 & Hloop & Hend).
  inversion Hend; subst. simpl.
  refine (for_each_ok_all dirs_kept
            (fun d w => is_dir (fs w) (workflow_dir self // d) = true)
            dirs _ _ _ _ _ _ Hloop d Hd).
  - intros x. apply safe_mkdir_parents, _.
  - intros x wa wb Hx Hk. apply Hk, Hx.
  - intros x wa wb _ Hx. eapply mkdir_parents_is_dir, Hx.
Qed.

(** ** [initialize], step by step *)

Lemma print_bind {B} line (k : unit -> M B) w :
  (x <- print line ;; k x) w = k tt (emit (Printed line) w).
Proof. reflexivity. Qed.

Lemma initialize_runs_in_order self cfg ts w w' :
  initialize self cfg ts w = (Ok tt, w') <-> runs_in_order self cfg ts w w'.
Proof.
  unfold initialize, runs_in_order. rewrite !print_bind. split.
  - intros H.
    apply bind_ok_inv in H as ([] & w1 & H1 & H). rewrite print_bind in H.
    apply bind_ok_inv in H as ([] & w2 & H2 & H).
    apply bind_ok_inv in H as ([] & w3 & H3 & H). rewrite print_bind in H.
    apply bind_ok_inv in H as ([] & w4 & H4 & H). rewrite print_bind in H.
    apply bind_ok_inv in H as ([] & w5 & H5 & H). rewrite !print_bind in H.
    assert (exists v, template_step self ts (blank_line w1) v /\ w2 = blank_line v)
      as (v & Hv & ->).
    { unfold template_step. destruct ts as [src|]; [destruct (Str.truthy src)|].
      - apply bind_ok_inv in H2 as ([] & v & Hv & H2). inversion H2. eauto.
      - inversion H2. eauto.
      - inversion H2. eauto. }
    exists w1, v, w3, w4, w5. repeat split; try assumption.
    inversion H. reflexivity.
  - intros (w1 & w2 & w3 & w4 & w5 & H1 & H2 & H3 & H4 & H5 & ->).
    rewrite (bind_ok _ _ _ _ _ H1), print_bind.
    assert (Ht : (match ts with
                  | Some src =>
                      if Str.truthy src then copy_templates self src ;; print ""
                      else print skip_notice ;; print ""
                  | None => print skip_notice ;; print ""
                  end) (blank_line w1) = (Ok tt, blank_line w2)).
    { unfold template_step in H2. destruct ts as [src|]; [destruct (Str.truthy src)|].
      - rewrite (bind_ok _ _ _ _ _ H2). reflexivity.
      - subst w2. reflexivity.
      - subst w2. reflexivity. }
    rewrite (bind_ok _ _ _ _ _ Ht).
    rewrite (bind_ok _ _ _ _ _ H3), print_bind.
    rewrite (bind_ok _ _ _ _ _ H4), print_bind.
    rewrite (bind_ok _ _ _ _ _ H5), !print_bind.
    reflexivity.
Qed.

Section AfterDirectories.

Context (R : relation world) `{!Safe R}.

Lemma safe_closing w : R w (closing w).
Proof.
  unfold closing, blank_line.
  repeat (etransitivity; [| apply safe_emit]). reflexivity.
Qed.

Lemma safe_opening w : R w (opening w).
Proof.
  unfold opening, blank_line.
  repeat (etransitivity; [| apply safe_emit]). reflexivity.
Qed.

Lemma safe_template_step self ts w w' : template_step self ts w w' -> R w w'.
Proof.
  unfold template_step.
  destruct ts as [src|]; [destruct (Str.truthy src)|]; intros H.
  - eapply safe_copy_templates, H; apply _.
  - subst. apply safe_emit.
  - subst. apply safe_emit.
Qed.

(** From the end of the directory step to the end of the run. *)
Lemma after_directories self ts d w1 w2 w3 w4 w5 :
  template_step self ts (blank_line w1) w2 ->
  create_initial_config self d (blank_line w2) = (Ok tt, w3) ->
  create_initial_state self (blank_line w3) = (Ok tt, w4) ->
  create_readme self (blank_line w4) = (Ok tt, w5) ->
  R w1 (closing w5).
Proof.
  intros H2 H3 H4 H5.
  transitivity (blank_line w1); [apply safe_emit|].
  transitivity w2; [eapply safe_template_step, H2|].
  transitivity (blank_line w2); [apply safe_emit|].
  transitivity w3; [eapply safe_create_initial_config, H3; apply _|].
  transitivity (blank_line w3); [apply safe_emit|].
  transitivity w4; [eapply safe_create_initial_state, H4; apply _|].
  transitivity (blank_line w4); [apply safe_emit|].
  transitivity w5; [eapply safe_create_readme, H5; apply _|].
  apply safe_closing.
Qed.

Lemma safe_initialize self cfg ts w w' :
  initialize self cfg ts w = (Ok tt, w') -> R w w'.
Proof.
  intros H. apply initialize_runs_in_order in H
    as (w1 & w2 & w3 & w4 & w5 & H1 & H2 & H3 & H4 & H5 & ->).
  transitivity (opening w); [apply safe_opening|].
  transitivity w1; [eapply safe_create_directories, H1; apply _|].
  eapply after_directories; eassumption.
Qed.

End AfterDirectories.

(** ** The directory manifest *)

Lemma initialize_makes_all self cfg ts w w' :
  initialize self cfg ts w = (Ok tt, w') ->
  Forall (fun d => is_dir (fs w') (workflow_dir self // d) = true) dirs.
Proof.
  intros H. apply initialize_runs_in_order in H
    as (w1 & w2 & w3 & w4 & w5 & H1 & H2 & H3 & H4 & H5 & ->).
  apply Forall_forall. intros d Hd.
  eapply (after_directories dirs_kept); [eassumption ..|].
  eapply create_directories_makes_all; eassumption.
Qed.

Lemma for_each_unchanged {A} (l : list A) body w :
  Forall (fun x => body x w = (Ok tt, w)) l -> for_each l body w = (Ok tt, w).
Proof.
  induction 1 as [|x l Hx _ IH]; simpl; [reflexivity|].
  by rewrite (bind_ok _ _ _ _ _ Hx).
Qed.

Lemma mkdir_parents_existing p w :
  tree_shaped (fs w) -> is_dir (fs w) p = true -> mkdir_parents p w = (Ok tt, w).
Proof.
  intros Ht Hp. unfold mkdir_parents.
  rewrite mkdir_parents_rev_eq, rev_involutive. unfold os_mkdir.
  apply is_dir_stat in Hp.
  rewrite (descend_tree_entry _ _ _ Ht Hp), Hp, (sees_dir_tree _ _ Ht).
  unfold is_dir. by rewrite Hp.
Qed.

(** C1 (amended).  The directory manifest has 44 entries, and after any
    run of [initialize] that completes, for any project path, every one of
    them is a directory under [<path>/.claude-workflow]. *)
Theorem manifest_directories_exist :
  length dirs = 44
  /\ forall working_dir project_path now cfg ts w w',
      initialize (new_initializer working_dir project_path now) cfg ts w = (Ok tt, w') ->
      Forall (fun d =>
                is_dir (fs w')
                       (resolve working_dir (Path project_path) // ".claude-workflow" // d)
                = true)
             dirs.
Proof.
  split; [reflexivity|].
  intros working_dir project_path now cfg ts w w' H.
  exact (initialize_makes_all _ _ _ _ _ H).
Qed.

(** C1 as stated fails: the manifest does not have 40 entries. *)
Lemma manifest_directories_not_forty :
  ~ ((forall working_dir project_path now cfg ts w w',
        initialize (new_initializer working_dir project_path now) cfg ts w = (Ok tt, w') ->
        Forall (fun d =>
                  is_dir (fs w')
                         (resolve working_dir (Path project_path) // ".claude-workflow" // d)
                  = true)
               dirs)
     /\ length dirs = 40).
Proof. intros [_ H]. vm_compute in H. discriminate. Qed.

(** C5.  In a tree-shaped file system, making a directory that already
    exists succeeds and changes nothing; hence after a completed run of
    [initialize], the directory step of a second run on the same path
    returns without raising, for every manifest path, and leaves the file
    system as it was.  ([opening w'] is the world in which the second run
    reaches its directory step.) *)
Theorem directory_step_idempotent :
  (forall p w, tree_shaped (fs w) -> is_dir (fs w) p = true ->
               mkdir_parents p w = (Ok tt, w))
  /\ forall working_dir project_path now cfg ts w w',
      tree_shaped (fs w) ->
      initialize (new_initializer working_dir project_path now) cfg ts w = (Ok tt, w') ->
      Forall (fun d =>
                mkdir_parents
                  (resolve working_dir (Path project_path) // ".claude-workflow" // d) w'
                = (Ok tt, w'))
             dirs
      /\ exists w'',
          create_directories (new_initializer working_dir project_path now) (opening w')
          = (Ok tt, w'')
          /\ fs w'' = fs w'.
Proof.
  split; [exact mkdir_parents_existing|].
  intros working_dir project_path now cfg ts w w' Ht H.
  pose proof (safe_initialize tree_kept _ _ _ _ _ H Ht) as Ht'.
  pose proof (initialize_makes_all _ _ _ _ _ H) as Hall.
  split.
  - eapply Forall_impl; [exact Hall|].
    intros d Hd. by apply mkdir_parents_existing.
  - eexists. split.
    + unfold create_directories. rewrite print_bind.
      erewrite bind_ok; [reflexivity|].
      apply for_each_unchanged.
      eapply Forall_impl; [exact Hall|].
      intros d Hd. by apply mkdir_parents_existing.
    + reflexivity.
Qed.

(** ** Strings *)

Lemma append_cons x (a b : string) : String x a +:+ b = String x (a +:+ b).
Proof. reflexivity. Qed.

Lemma append_assoc (a b c : string) : (a +:+ b) +:+ c = a +:+ (b +:+ c).
Proof.
  induction a as [|x a IH]; [reflexivity|].
  rewrite !append_cons. by rewrite IH.
Qed.

Lemma append_nil_r (a : string) : a +:+ "" = a.
Proof.
  induction a as [|x a IH]; [reflexivity|].
  rewrite append_cons. by rewrite IH.
Qed.

(** ** The configuration text *)

Lemma yaml_content_layout d : yaml_content (default_config d) = config_layout d.
Proof.
  unfold yaml_content, config_layout, config_lines, default_config, platform_lines,
    platform_names, yaml_header, yaml_footer, yaml_platform, Str.unlines.
  simpl fold_left. simpl flat_map. simpl map.
  cbn [project proj_name proj_type proj_version plat_id plat_name plat_enabled].
  cbv beta iota delta [String.concat].
  rewrite !append_assoc. reflexivity.
Qed.

Lemma enabled_text_flag d id b :
  dict_get d id (PyBool false) = PyBool b -> enabled_text d id = flag_text b.
Proof. unfold enabled_text. intros ->. by destruct b. Qed.

Lemma write_text_ok p c w w' :
  write_text p c w = (Ok tt, w') ->
  w' = emit (Wrote p) (store p (File c) w) /\ fs w' !! p = Some (File c).
Proof.
  destruct (write_text_cases p c w) as [(E & _ & Hp) | [e E]]; rewrite E; intros H;
    inversion H; subst.
  split; [reflexivity|]. simpl. apply lookup_insert_eq.
Qed.

(** ** Entries that a step leaves alone *)

#[local] Instance same_at_preorder p : PreOrder (same_at p).
Proof.
  split.
  - intros w. reflexivity.
  - intros a b c H1 H2. unfold same_at in *. congruence.
Qed.

Lemma same_at_print p line : preserves (same_at p) (print line).
Proof. intros w r w' H. inversion H. reflexivity. Qed.

Lemma same_at_write_text p q c : p <> q -> preserves (same_at p) (write_text q c).
Proof.
  intros Hne w r w' H.
  destruct (write_text_cases q c w) as [(E & _ & _) | [e E]]; rewrite E in H;
    inversion H; subst.
  - unfold same_at. simpl. by apply lookup_insert_ne.
  - reflexivity.
Qed.

(** Two paths below the same directory differ when their tails differ. *)
Ltac path_neq :=
  let E := fresh in
  unfold path_join; intros E; rewrite <- ?app_assoc in E;
  apply app_inv_head in E; vm_compute in E; discriminate E.

#[local] Hint Resolve same_at_print : script_pres.
#[local] Hint Extern 1 (preserves (same_at _) (write_text _ _)) =>
  apply same_at_write_text; path_neq : script_pres.

Lemma create_readme_same_at self p :
  p <> workflow_dir self // "README.md" -> preserves (same_at p) (create_readme self).
Proof. intros Hp. unfold create_readme. by apply same_at_write_text. Qed.

Lemma create_initial_state_keeps_config self :
  preserves (same_at (workflow_dir self // "config.yml")) (create_initial_state self).
Proof. unfold create_initial_state. pres. Qed.

Lemma initialize_config_file self cfg ts w w' :
  initialize self cfg ts w = (Ok tt, w') ->
  fs w' !! (workflow_dir self // "config.yml")
  = Some (File (config_layout (or_empty cfg))).
Proof.
  intros H. apply initialize_runs_in_order in H
    as (w1 & w2 & w3 & w4 & w5 & H1 & H2 & H3 & H4 & H5 & ->).
  assert (Hw3 : fs w3 !! (workflow_dir self // "config.yml")
                = Some (File (config_layout (or_empty cfg)))).
  { unfold create_initial_config in H3. rewrite print_bind in H3.
    apply bind_ok_inv in H3 as ([] & v & Hv & H3). inversion H3; subst.
    apply write_text_ok in Hv as [_ Hv]. rewrite yaml_content_layout in Hv. exact Hv. }
  apply create_initial_state_keeps_config in H4.
  apply (create_readme_same_at self (workflow_dir self // "config.yml")) in H5;
    [|path_neq].
  unfold same_at in *. simpl in *. congruence.
Qed.

(** ** The dictionary built from the command line *)

Lemma fold_platforms_lookup (tokens : list string) (m : gmap string pyval) k :
  fold_left (fun (config_data : gmap string pyval) platform =>
               if bool_decide (platform ∈ platform_names)
               then <[platform := PyBool true]> config_data
               else config_data) tokens m !! k
  = if bool_decide (k ∈ tokens /\ k ∈ platform_names)
    then Some (PyBool true) else m !! k.
Proof.
  revert m. induction tokens as [|t tokens IH]; intros m; simpl.
  - reflexivity.
  - rewrite IH.
    destruct (decide (k ∈ tokens /\ k ∈ platform_names)) as [HA|HA].
    + rewrite !bool_decide_eq_true_2; [reflexivity | | exact HA].
      split; [right|]; tauto.
    + rewrite (bool_decide_eq_false_2 _ HA).
      destruct (decide (k = t)) as [->|Hne].
      * destruct (decide (t ∈ platform_names)) as [Ht|Ht].
        -- rewrite (bool_decide_eq_true_2 _ Ht), lookup_insert_eq.
           rewrite bool_decide_eq_true_2; [reflexivity|]. split; [left | exact Ht].
        -- rewrite (bool_decide_eq_false_2 _ Ht).
           rewrite bool_decide_eq_false_2; [reflexivity | tauto].
      * assert (HB : ~ (k ∈ t :: tokens /\ k ∈ platform_names)).
        { rewrite elem_of_cons. tauto. }
        rewrite (bool_decide_eq_false_2 _ HB).
        destruct (bool_decide (t ∈ platform_names)); [|reflexivity].
        by rewrite lookup_insert_ne.
Qed.

Lemma parse_config_data_lookup a k :
  parse_config_data a !! k
  = if bool_decide (k ∈ platform_tokens a /\ k ∈ platform_names)
    then Some (PyBool true) else base_config_data a !! k.
Proof.
  unfold parse_config_data, platform_tokens. fold (base_config_data a).
  destruct (arg_platforms a) as [s|]; [destruct (Str.truthy s)|].
  - apply fold_platforms_lookup.
  - rewrite bool_decide_eq_false_2; [reflexivity|]. intros [H _]. inversion H.
  - rewrite bool_decide_eq_false_2; [reflexivity|]. intros [H _]. inversion H.
Qed.

Lemma base_config_data_platform a :
  Forall (fun p => base_config_data a !! p = None) platform_names.
Proof. unfold base_config_data. repeat constructor. Qed.

(** A platform is switched on exactly when its name is one of the tokens. *)
Lemma parse_config_data_platform a :
  Forall (fun p => dict_get (parse_config_data a) p (PyBool false)
                   = PyBool (bool_decide (p ∈ platform_tokens a)))
         platform_names.
Proof.
  apply Forall_forall. intros p Hp.
  pose proof (proj1 (Forall_forall _ _) (base_config_data_platform a) p Hp) as Hb.
  unfold dict_get. rewrite parse_config_data_lookup, Hb.
  repeat case_bool_decide; try reflexivity; tauto.
Qed.

Lemma parse_config_data_project_name a :
  dict_get (parse_config_data a) "project_name" (PyStr "My Project")
  = opt_str (arg_project_name a).
Proof.
  unfold dict_get. rewrite parse_config_data_lookup.
  rewrite bool_decide_eq_false_2.
  - reflexivity.
  - intros [_ H]. unfold platform_names in H.
    repeat (apply elem_of_cons in H as [H|H]; [discriminate H|]). inversion H.
Qed.

Lemma main_initialize a now w :
  main a now w
  = initialize (new_initializer (cwd w) (arg_project_path a) now)
      (Some (parse_config_data a)) (arg_template_source a) w.
Proof. reflexivity. Qed.

Lemma main_config_file a now w w' :
  main a now w = (Ok tt, w') ->
  fs w' !! (resolve (cwd w) (Path (arg_project_path a)) // ".claude-workflow" // "config.yml")
  = Some (File (config_layout (parse_config_data a))).
Proof.
  rewrite main_initialize. intros H. exact (initialize_config_file _ _ _ _ _ H).
Qed.

Lemma create_initial_config_file self d w w' :
  create_initial_config self d w = (Ok tt, w') ->
  fs w' !! (workflow_dir self // "config.yml") = Some (File (config_layout d)).
Proof.
  unfold create_initial_config. rewrite print_bind. intros H.
  apply bind_ok_inv in H as ([] & v & Hv & H). inversion H; subst.
  apply write_text_ok in Hv as [_ Hv]. rewrite yaml_content_layout in Hv. exact Hv.
Qed.

(** C7.  For every configuration dictionary the text built by
    [create_initial_config] is the fixed layout [config_lines]: the comment
    and section lines in their fixed order, with a table of exactly the
    eight platforms in the order gateway, hmi, configuration, cloud, app,
    edge-ai, scada, web-editor, each as an id / name / enabled triplet whose
    name comes from the display-name table and whose enabled field is the
    lowercase rendering of the platform's flag ([true] or [false] for a
    boolean); and that text is what a successful call writes to
    [config.yml]. *)
Theorem config_text_layout :
  platform_names
  = ["gateway"; "hmi"; "configuration"; "cloud"; "app"; "edge-ai"; "scada"; "web-editor"]
  /\ forall config_data,
      yaml_content (default_config config_data) = Str.unlines (config_lines config_data)
      /\ (forall id b,
            dict_get config_data id (PyBool false) = PyBool b ->
            enabled_text config_data id = flag_text b)
      /\ (forall self w w',
            create_initial_config self config_data w = (Ok tt, w') ->
            fs w' !! (workflow_dir self // "config.yml")
            = Some (File (Str.unlines (config_lines config_data)))).
Proof.
  split; [reflexivity|]. intros d. split; [|split].
  - apply yaml_content_layout.
  - apply enabled_text_flag.
  - intros self w w'. apply create_initial_config_file.
Qed.

(** C2, on the code.  When [--project-name] is not given, [main] enters
    [None] under the key [project_name], the default of [dict.get] is not
    used, and the project name line of [config.yml] reads [name: "None"]. *)
Theorem missing_project_name_written_as_None :
  forall a, arg_project_name a = None ->
    nth 3 (config_lines (parse_config_data a)) EmptyString
    = "  name: " +:+ dq +:+ "None" +:+ dq
    /\ forall now w w',
        main a now w = (Ok tt, w') ->
        fs w' !! (resolve (cwd w) (Path (arg_project_path a))
                  // ".claude-workflow" // "config.yml")
        = Some (File (Str.unlines (config_lines (parse_config_data a)))).
Proof.
  intros a Ha. split.
  - unfold config_lines. cbn [nth app].
    rewrite parse_config_data_project_name, Ha. reflexivity.
  - intros now w w'. apply main_config_file.
Qed.

Lemma platform_flags a :
  map (enabled_text (parse_config_data a)) platform_names
  = map (fun p => flag_text (bool_decide (p ∈ platform_tokens a))) platform_names.
Proof.
  pose proof (parse_config_data_platform a) as H.
  induction H as [|p l Hp _ IH]; [reflexivity|].
  cbn [map]. rewrite IH. f_equal. by apply enabled_text_flag.
Qed.

(** C3.  With [--platforms gateway,hmi] the enabled fields of the eight
    platforms, in table order, are true, true and six times false, and a
    successful run writes the layout with these fields to [config.yml]. *)
Theorem platforms_gateway_hmi :
  forall a, arg_platforms a = Some "gateway,hmi" ->
    map (fun id => (id, enabled_text (parse_config_data a) id)) platform_names
    = [ ("gateway", "true"); ("hmi", "true"); ("configuration", "false");
        ("cloud", "false"); ("app", "false"); ("edge-ai", "false");
        ("scada", "false"); ("web-editor", "false") ]
    /\ forall now w w',
        main a now w = (Ok tt, w') ->
        fs w' !! (resolve (cwd w) (Path (arg_project_path a))
                  // ".claude-workflow" // "config.yml")
        = Some (File (Str.unlines (config_lines (parse_config_data a)))).
Proof.
  intros a Ha. split.
  - pose proof (platform_flags a) as H.
    assert (Ht : platform_tokens a = ["gateway"; "hmi"]).
    { unfold platform_tokens. rewrite Ha. reflexivity. }
    rewrite Ht in H. unfold platform_names in *. cbn [map] in *.
    injection H as -> -> -> -> -> -> -> ->. reflexivity.
  - intros now w w'. apply main_config_file.
Qed.








Lemma concat_cons x l : String.concat "" (x :: l) = x +:+ String.concat "" l.
Proof. destruct l; [symmetry; apply append_nil_r | reflexivity]. Qed.






(** ** The date *)

Lemma digit_value_digit n : digit_value (digit n) = Some (n mod 10)%N.
Proof.
  unfold digit_value, is_digit, digit.
  assert (Hlt : (n mod 10 < 10)%N) by (apply N.mod_lt; discriminate).
  generalize dependent (n mod 10)%N. clear n. intros n Hlt.
  rewrite N_ascii_embedding by lia.
  replace (48 <=? 48 + n)%N with true by (symmetry; apply N.leb_le; lia).
  replace (48 + n <=? 57)%N with true by (symmetry; apply N.leb_le; lia).
  simpl. f_equal. lia.
Qed.

Lemma number_four y :
  (y < 10000)%N ->
  number 0 (zero_padded 4 y) = Some y.
Proof.
  intros Hy. cbv [zero_padded String.append number].
  rewrite !digit_value_digit. f_equal.
  pose proof (N.div_mod y 10 ltac:(discriminate)).
  pose proof (N.div_mod (y / 10) 10 ltac:(discriminate)).
  pose proof (N.div_mod (y / 10 / 10) 10 ltac:(discriminate)).
  pose proof (N.div_mod (y / 10 / 10 / 10) 10 ltac:(discriminate)).
  assert (y / 10 / 10 / 10 / 10 = 0)%N.
  { rewrite !N.Div0.div_div. apply N.div_small. exact Hy. }
  lia.
Qed.

Lemma number_two n :
  (n < 100)%N ->
  number 0 (zero_padded 2 n) = Some n.
Proof.
  intros Hn. cbv [zero_padded String.append number].
  rewrite !digit_value_digit. f_equal.
  pose proof (N.div_mod n 10 ltac:(discriminate)).
  pose proof (N.div_mod (n / 10) 10 ltac:(discriminate)).
  assert (n / 10 / 10 = 0)%N.
  { rewrite !N.Div0.div_div. apply N.div_small. exact Hn. }
  lia.
Qed.

Lemma parse_strftime_ymd c : valid_clock c -> parse_ymd (strftime_ymd c) = Some c.
Proof.
  intros (Hy & Hm & Hd). destruct c as [y m d]. simpl in *.
  pose proof (number_four y ltac:(lia)) as Ey.
  pose proof (number_two m ltac:(lia)) as Em.
  pose proof (number_two d ltac:(lia)) as Ed.
  unfold strftime_ymd. cbn [year month day].
  revert Ey Em Ed. cbv [zero_padded String.append parse_ymd number].
  intros -> -> ->. reflexivity.
Qed.

(** ** Occurrences in a text *)

Lemma unlines_app l1 l2 : Str.unlines (l1 ++ l2) = Str.unlines l1 +:+ Str.unlines l2.
Proof.
  unfold Str.unlines. induction l1 as [|x l1 IH]; [reflexivity|].
  cbn [app map]. rewrite !concat_cons, IH, !append_assoc. reflexivity.
Qed.

Lemma line_of_unlines ls l :
  l ∈ ls -> substring_of (l +:+ Str.nl) (Str.unlines ls).
Proof.
  intros Hl. apply list_elem_of_split in Hl as (l1 & l2 & ->).
  exists (Str.unlines l1), (Str.unlines l2).
  rewrite unlines_app. change (?a :: l2) with ([a] ++ l2).
  rewrite unlines_app. unfold Str.unlines at 2. cbn [map String.concat].
  rewrite !append_assoc. reflexivity.
Qed.

Lemma substring_of_trans a b c : substring_of a b -> substring_of b c -> substring_of a c.
Proof.
  intros (p1 & q1 & ->) (p2 & q2 & ->). exists (p2 +:+ p1), (q1 +:+ q2).
  rewrite !append_assoc. reflexivity.
Qed.

(** The two lines of [current-phase.md] that carry the name and the
    date. *)
Lemma current_phase_text_lines project_name date :
  substring_of ("- **项目名称**: " +:+ project_name +:+ Str.nl)
               (current_phase_text project_name date)
  /\ substring_of ("- **开始日期**: " +:+ date +:+ Str.nl)
                  (current_phase_text project_name date).
Proof.
  unfold current_phase_text. split.
  - rewrite <- append_assoc. apply line_of_unlines. repeat constructor.
  - rewrite <- append_assoc. apply line_of_unlines. repeat constructor.
Qed.

Lemma current_phase_text_mentions project_name date :
  substring_of project_name (current_phase_text project_name date)
  /\ substring_of date (current_phase_text project_name date).
Proof.
  destruct (current_phase_text_lines project_name date) as [Hn Hd]. split.
  - eapply substring_of_trans; [|exact Hn].
    exists "- **项目名称**: ", Str.nl. reflexivity.
  - eapply substring_of_trans; [|exact Hd].
    exists "- **开始日期**: ", Str.nl. reflexivity.
Qed.

(** ** The state documents *)

Lemma preserves_run {A} (R : relation world) (m : M A) w r w' :
  m w = (r, w') -> preserves R m -> R w w'.
Proof. intros H Hm. eapply Hm, H. Qed.

Lemma initialize_current_phase_file self cfg ts w w' :
  initialize self cfg ts w = (Ok tt, w') ->
  fs w' !! (workflow_dir self // "current-phase.md")
  = Some (File (current_phase_text (name (parent (workflow_dir self))) (date self))).
Proof.
  intros H. apply initialize_runs_in_order in H
    as (w1 & w2 & w3 & w4 & w5 & H1 & H2 & H3 & H4 & H5 & ->).
  unfold create_initial_state in H4. rewrite print_bind in H4.
  apply bind_ok_inv in H4 as ([] & v & Hv & H4).
  apply write_text_ok in Hv as [_ Hv].
  assert (Hrest : same_at (workflow_dir self // "current-phase.md") v w4).
  { eapply preserves_run; [exact H4 | pres]. }
  apply (create_readme_same_at self (workflow_dir self // "current-phase.md")) in H5;
    [|path_neq].
  unfold same_at in *. simpl in *. congruence.
Qed.

Lemma project_basename working_dir project_path now :
  name (parent (workflow_dir (new_initializer working_dir project_path now)))
  = name (resolve working_dir (Path project_path)).
Proof.
  unfold new_initializer, path_join. cbn [workflow_dir].
  change (components ".claude-workflow") with [".claude-workflow"].
  by rewrite parent_snoc.
Qed.

(** C6.  After every run of the script that completes, [current-phase.md]
    holds a text with the line that gives the project name as the final
    component of the resolved project path, and with the line that gives
    the start date as the [strftime("%Y-%m-%d")] form of the date read from
    the clock when the initializer was built; so both occur in the text.
    The project path is resolved against the working directory of the
    process, with its [..] components worked off.  For a valid date the
    form reads back, as four, two and two digits separated by dashes, to
    the year, month and day of the clock. *)
Theorem current_phase_mentions_date_and_name :
  forall a now w w',
    main a now w = (Ok tt, w') ->
    (exists content,
        fs w' !! (resolve (cwd w) (Path (arg_project_path a))
                  // ".claude-workflow" // "current-phase.md")
        = Some (File content)
        /\ substring_of (strftime_ymd now) content
        /\ substring_of (name (resolve (cwd w) (Path (arg_project_path a)))) content
        /\ substring_of ("- **项目名称**: "
                         +:+ name (resolve (cwd w) (Path (arg_project_path a)))
                         +:+ Str.nl) content
        /\ substring_of ("- **开始日期**: " +:+ strftime_ymd now +:+ Str.nl) content)
    /\ (valid_clock now -> parse_ymd (strftime_ymd now) = Some now).
Proof.
  intros a now w w' H. rewrite main_initialize in H. split.
  - apply initialize_current_phase_file in H.
    rewrite project_basename in H. eexists. split; [exact H|].
    cbn [date new_initializer].
    split; [|split]; [apply current_phase_text_mentions ..|].
    apply current_phase_text_lines.
  - apply parse_strftime_ymd.
Qed.

(** ** Templates that are not there *)

Lemma copy_template_missing self ts t w :
  exists_at (fs w) (cwd w) (template_source_file ts t) = false ->
  copy_template self ts t w = (Ok tt, emit (Printed (not_found_line t)) w).
Proof.
  intros H. unfold copy_template, bind, path_exists. rewrite H. reflexivity.
Qed.

Lemma copy_state_template_missing self ts t w :
  exists_at (fs w) (cwd w) (state_source_file ts t) = false ->
  copy_state_template self ts t w = (Ok tt, w).
Proof.
  intros H. unfold copy_state_template, bind, path_exists. rewrite H. reflexivity.
Qed.

Lemma for_each_resume {A} (before : list A) x after body w w1 w2 :
  for_each before body w = (Ok tt, w1) ->
  body x w1 = (Ok tt, w2) ->
  for_each (before ++ x :: after) body w = for_each after body w2.
Proof.
  intros Hb Hx. rewrite for_each_app, Hb. cbn [for_each].
  by rewrite (bind_ok _ _ _ _ _ Hx).
Qed.

(** A loop whose iterations only add to the trace. *)
Lemma for_each_quiet {A : Type} (f : gmap path node) (c : path) (msg : A -> list event)
    (l : list A) (body : A -> M unit) :
  (forall x w, x ∈ l -> fs w = f -> cwd w = c ->
               body x w = (Ok tt, {| fs := f; trace := trace w ++ msg x; cwd := c |})) ->
  forall w, fs w = f -> cwd w = c ->
    for_each l body w
    = (Ok tt, {| fs := f; trace := trace w ++ flat_map msg l; cwd := c |}).
Proof.
  induction l as [|x l IH]; intros Hb w Hw Hc.
  - cbn. rewrite app_nil_r. destruct w; simpl in *; by subst.
  - cbn [for_each flat_map].
    rewrite (bind_ok _ _ _ _ _ (Hb x w (list_elem_of_here _ _) Hw Hc)).
    rewrite IH; [by rewrite app_assoc | | reflexivity | reflexivity].
    intros y v Hy. apply Hb. by right.
Qed.

Lemma copy_templates_nothing_found self ts w :
  Forall (fun t => exists_at (fs w) (cwd w) (template_source_file ts t) = false)
         templates ->
  Forall (fun t => exists_at (fs w) (cwd w) (state_source_file ts t) = false)
         state_templates ->
  copy_templates self ts w
  = (Ok tt,
     {| fs := fs w;
        trace := trace w
                 ++ [Printed "📄 Copying template files..."]
                 ++ map (fun t => Printed (not_found_line t)) templates
                 ++ [Printed "✅ Template files copied"];
        cwd := cwd w |}).
Proof.
  intros Ht Hs. unfold copy_templates. rewrite print_bind.
  erewrite bind_ok; cycle 1.
  { apply (for_each_quiet (fs w) (cwd w) (fun t => [Printed (not_found_line t)])).
    - intros t v Hin Hv Hc. rewrite copy_template_missing.
      + unfold emit. by rewrite Hv, Hc.
      + rewrite Hv, Hc. by apply (proj1 (Forall_forall _ _) Ht).
    - reflexivity.
    - reflexivity. }
  erewrite bind_ok; cycle 1.
  { apply (for_each_quiet (fs w) (cwd w) (fun _ => [])).
    - intros t v Hin Hv Hc. rewrite copy_state_template_missing.
      + rewrite app_nil_r. destruct v; simpl in *; by subst.
      + rewrite Hv, Hc. by apply (proj1 (Forall_forall _ _) Hs).
    - reflexivity.
    - reflexivity. }
  unfold print, emit. cbn [fs trace cwd flat_map templates state_templates map app].
  rewrite app_nil_r, <- !app_assoc. reflexivity.
Qed.

(** C4 (amended).  A top-level template whose source does not exist is
    skipped with the "Template not found" line on the console, a state
    template whose source does not exist is skipped silently; in both cases
    nothing is raised, the file system is left as it is, and the loop goes
    on with the templates that remain.  When no source exists at all,
    [copy_templates] returns with the file system unchanged and exactly the
    four warnings of the top-level templates between its two console
    lines.  A source does not exist when [exists()] is false of it: when
    the walk to it fails, or ends where there is no entry. *)
Theorem missing_templates_skipped :
  forall self ts,
    (forall t w,
        exists_at (fs w) (cwd w) (template_source_file ts t) = false ->
        copy_template self ts t w = (Ok tt, emit (Printed (not_found_line t)) w))
    /\ (forall t w,
          exists_at (fs w) (cwd w) (state_source_file ts t) = false ->
          copy_state_template self ts t w = (Ok tt, w))
    /\ (forall before t after w w1,
          for_each before (copy_template self ts) w = (Ok tt, w1) ->
          exists_at (fs w1) (cwd w1) (template_source_file ts t) = false ->
          for_each (before ++ t :: after) (copy_template self ts) w
          = for_each after (copy_template self ts) (emit (Printed (not_found_line t)) w1))
    /\ (forall before t after w w1,
          for_each before (copy_state_template self ts) w = (Ok tt, w1) ->
          exists_at (fs w1) (cwd w1) (state_source_file ts t) = false ->
          for_each (before ++ t :: after) (copy_state_template self ts) w
          = for_each after (copy_state_template self ts) w1)
    /\ (forall w,
          Forall (fun t => exists_at (fs w) (cwd w) (template_source_file ts t) = false)
                 templates ->
          Forall (fun t => exists_at (fs w) (cwd w) (state_source_file ts t) = false)
                 state_templates ->
          copy_templates self ts w
          = (Ok tt,
             {| fs := fs w;
                trace := trace w
                         ++ [Printed "📄 Copying template files..."]
                         ++ map (fun t => Printed (not_found_line t)) templates
                         ++ [Printed "✅ Template files copied"];
                cwd := cwd w |})).
Proof.
  intros self ts. repeat split.
  - intros t w. apply copy_template_missing.
  - intros t w. apply copy_state_template_missing.
  - intros before t after w w1 Hb Ht.
    eapply for_each_resume; [exact Hb | by apply copy_template_missing].
  - intros before t after w w1 Hb Ht.
    eapply for_each_resume; [exact Hb | by apply copy_state_template_missing].
  - intros w. apply copy_templates_nothing_found.
Qed.

(** C4 as stated fails for the state templates: with no source at all, the
    run prints a warning for each of the four top-level templates and none
    for [rt-matrix-template.md], which is in the manifest and is absent. *)
Lemma state_template_skipped_without_warning :
  let self := new_initializer [] "/proj" (Clock 2026 11 3) in
  "rt-matrix-template.md" ∈ state_templates
  /\ exists_at (fs empty_world) (cwd empty_world)
       (state_source_file "/src" "rt-matrix-template.md") = false
  /\ copy_state_template self "/src" "rt-matrix-template.md" empty_world
     = (Ok tt, empty_world)
  /\ trace (snd (copy_templates self "/src" empty_world))
     = [ Printed "📄 Copying template files...";
         Printed (not_found_line "REQ-template.md");
         Printed (not_found_line "FE-template.md");
         Printed (not_found_line "SOL-template.md");
         Printed (not_found_line "IMP-template.md");
         Printed "✅ Template files copied" ].
Proof.
  intros self. split; [|split; [|split]].
  - unfold state_templates. repeat constructor.
  - reflexivity.
  - reflexivity.
  - vm_compute. reflexivity.
Qed.

(** ** Where the template step reads and writes *)

#[local] Instance grows_by_preorder P : PreOrder (grows_by P).
Proof.
  split.
  - intros w. split; [reflexivity|].
    exists []. split; [by rewrite app_nil_r | constructor].
  - intros a b c (C1 & d1 & E1 & F1) (C2 & d2 & E2 & F2).
    split; [congruence|]. exists (d1 ++ d2). split.
    + by rewrite E2, E1, app_assoc.
    + apply Forall_app. split; [exact F1 | by rewrite <- C1].
Qed.

Lemma grows_by_emit (P : path -> event -> Prop) e w :
  P (cwd w) e -> grows_by P w (emit e w).
Proof.
  intros He. split; [reflexivity|].
  exists [e]. split; [reflexivity | by repeat constructor].
Qed.

Lemma grows_by_store (P : path -> event -> Prop) p n w : grows_by P w (store p n w).
Proof.
  split; [reflexivity|]. exists []. split; [by rewrite app_nil_r | constructor].
Qed.

Lemma grows_by_mono (P Q : path -> event -> Prop) w w' :
  (forall c e, P c e -> Q c e) -> grows_by P w w' -> grows_by Q w w'.
Proof.
  intros HPQ (C & d & E & F). split; [exact C|]. exists d. split; [exact E|].
  eapply Forall_impl; [exact F|]. intros e. apply HPQ.
Qed.

Lemma preserves_grows_by_mono {A} (P Q : path -> event -> Prop) (m : M A) :
  (forall c e, P c e -> Q c e) -> preserves (grows_by P) m -> preserves (grows_by Q) m.
Proof. intros HPQ Hm w r w' H. eapply grows_by_mono; [exact HPQ | eapply Hm, H]. Qed.

Section GrowsBy.

Context (P : path -> event -> Prop).

Lemma grows_by_print line :
  (forall c, P c (Printed line)) -> preserves (grows_by P) (print line).
Proof. intros HP w r w' H. inversion H. by apply grows_by_emit. Qed.

Lemma grows_by_path_exists p : preserves (grows_by P) (path_exists p).
Proof. intros w r w' H. inversion H. reflexivity. Qed.

Lemma grows_by_write_text p c :
  (forall wd, P wd (Wrote p)) -> preserves (grows_by P) (write_text p c).
Proof.
  intros HP w r w' H.
  destruct (write_text_cases p c w) as [(E & _ & _) | [e E]]; rewrite E in H;
    inversion H; subst.
  - transitivity (store p (File c) w); [apply grows_by_store | by apply grows_by_emit].
  - reflexivity.
Qed.

(** What is read is the entry that the path resolves to. *)
Lemma grows_by_read_file p :
  (forall wd, P wd (ReadFile (resolve wd p))) -> preserves (grows_by P) (read_file p).
Proof.
  intros HP w r w' H.
  destruct (read_file_cases p w) as [(q & c & E & Hq) | [e E]]; rewrite E in H;
    inversion H; subst.
  - apply grows_by_emit. apply sees_located in Hq as (_ & _ & ->). apply HP.
  - reflexivity.
Qed.

Lemma grows_by_copy2 src dst :
  (forall wd, P wd (ReadFile (resolve wd src))) ->
  (forall wd, P wd (Wrote dst)) ->
  (forall wd, P wd (Wrote (step dst (basename src)))) ->
  preserves (grows_by P) (copy2 src dst).
Proof.
  intros Hr Hw1 Hw2 w r w' H.
  destruct (copy2_cases src dst w) as [E | (dst' & Hdst & E)]; rewrite E in H.
  - inversion H. reflexivity.
  - refine (preserves_bind _ _ _ (grows_by_read_file src Hr) _ _ _ _ H).
    intros c. apply grows_by_write_text. by destruct Hdst as [-> | ->].
Qed.

End GrowsBy.

#[local] Instance same_outside_preorder root : PreOrder (same_outside root).
Proof.
  split.
  - intros w p _. reflexivity.
  - intros a b c H1 H2 p Hp. rewrite (H2 p Hp). apply H1, Hp.
Qed.

Section SameOutside.

Context (root : path).

Lemma same_outside_print line : preserves (same_outside root) (print line).
Proof. intros w r w' H. inversion H. intros p _. reflexivity. Qed.

Lemma same_outside_path_exists p : preserves (same_outside root) (path_exists p).
Proof. intros w r w' H. inversion H. reflexivity. Qed.

Lemma same_outside_write_text p c :
  under root p -> preserves (same_outside root) (write_text p c).
Proof.
  intros Hp w r w' H.
  destruct (write_text_cases p c w) as [(E & _ & _) | [e E]]; rewrite E in H;
    inversion H; subst.
  - intros q Hq. simpl. apply lookup_insert_ne. intros ->. by apply Hq.
  - reflexivity.
Qed.

Lemma same_outside_read_file p : preserves (same_outside root) (read_file p).
Proof.
  intros w r w' H.
  destruct (read_file_cases p w) as [(q & c & E & _) | [e E]]; rewrite E in H;
    inversion H; subst.
  - intros x _. reflexivity.
  - reflexivity.
Qed.

Lemma same_outside_copy2 src dst :
  under root dst -> is_name (basename src) = true ->
  preserves (same_outside root) (copy2 src dst).
Proof.
  intros Hd Hn w r w' H.
  destruct (copy2_cases src dst w) as [E | (dst' & Hdst & E)]; rewrite E in H.
  - inversion H. reflexivity.
  - refine (preserves_bind _ _ _ (same_outside_read_file src) _ _ _ _ H).
    intros c. apply same_outside_write_text.
    destruct Hdst as [-> | ->]; [exact Hd|].
    rewrite (step_name _ _ Hn). by apply prefix_app_r.
Qed.

End SameOutside.

(** ** The names of the templates *)

(** The members of the two lists, one by one. *)
Ltac template_cases H :=
  unfold templates, state_templates in H;
  repeat (apply elem_of_cons in H as [-> | H]); try (by inversion H).

(** A top-level template is looked for at
    [<template source>/.claude-workflow/templates/<template>], and its
    name is the final component. *)
Lemma template_source_resolved working_dir ts t :
  t ∈ templates ->
  resolve working_dir (template_source_file ts t)
  = template_source_dir working_dir ts ++ [".claude-workflow"; "templates"; t]
  /\ basename (template_source_file ts t) = t
  /\ is_name t = true
  /\ components t = [t].
Proof.
  intros Ht. template_cases Ht;
    (split; [|split; [|split]]; [| | reflexivity ..];
     unfold template_source_file;
     [rewrite !resolve_join by reflexivity; unfold path_join;
      by rewrite <- !app_assoc
     |by rewrite basename_join]).
Qed.

(** A state template is looked for at
    [<template source>/.claude-workflow/<template>] and goes to the place
    of that name without [-template] under the workflow directory. *)
Lemma state_source_resolved working_dir ts t :
  t ∈ state_templates ->
  resolve working_dir (state_source_file ts t)
  = template_source_dir working_dir ts ++ ".claude-workflow" :: components t
  /\ is_name (basename (state_source_file ts t)) = true.
Proof.
  intros Ht. template_cases Ht;
    (split;
     [unfold state_source_file; rewrite !resolve_join by reflexivity;
      unfold path_join; by rewrite <- !app_assoc
     |unfold state_source_file; by rewrite basename_join]).
Qed.

(** A path made by joining on to [p] lies under [p]. *)
Ltac under_tac :=
  unfold under, state_dest_file, path_join;
  eexists; rewrite <- ?app_assoc; reflexivity.

Lemma under_step_name (p q : path) c :
  under p q -> is_name c = true -> under p (step q c).
Proof. intros H Hc. rewrite (step_name _ _ Hc). by apply prefix_app_r. Qed.

Lemma copy_template_events self ts t :
  t ∈ templates ->
  preserves (grows_by (template_event self ts)) (copy_template self ts t).
Proof.
  intros Ht. unfold copy_template.
  apply preserves_bind; [apply _ | apply grows_by_path_exists |].
  intros found. apply preserves_if; [|apply grows_by_print; intros; exact I].
  apply preserves_bind; [apply _ | | intros _; apply grows_by_print; intros; exact I].
  apply grows_by_copy2; intros wd; cbn [template_event].
  - destruct (template_source_resolved wd ts t Ht) as (-> & _).
    unfold under, path_join. eexists. rewrite <- app_assoc. reflexivity.
  - under_tac.
  - destruct (template_source_resolved wd ts t Ht) as (_ & -> & Hn & _).
    apply under_step_name; [under_tac | exact Hn].
Qed.

Lemma copy_state_template_events self ts t :
  t ∈ state_templates ->
  preserves (grows_by (template_event self ts)) (copy_state_template self ts t).
Proof.
  intros Ht. unfold copy_state_template.
  apply preserves_bind; [apply _ | apply grows_by_path_exists |].
  intros found. apply preserves_when; [apply _|].
  apply preserves_bind; [apply _ | | intros _; apply grows_by_print; intros; exact I].
  apply grows_by_copy2; intros wd; cbn [template_event].
  - destruct (state_source_resolved wd ts t Ht) as (-> & _).
    unfold under, path_join. eexists. rewrite <- app_assoc. reflexivity.
  - under_tac.
  - destruct (state_source_resolved wd ts t Ht) as (_ & Hn).
    apply under_step_name; [under_tac | exact Hn].
Qed.

Lemma copy_template_same_outside self ts t :
  t ∈ templates ->
  preserves (same_outside (workflow_dir self)) (copy_template self ts t).
Proof.
  intros Ht. unfold copy_template.
  apply preserves_bind; [apply _ | apply same_outside_path_exists |].
  intros found. apply preserves_if; [|apply same_outside_print].
  apply preserves_bind; [apply _ | | intros _; apply same_outside_print].
  apply same_outside_copy2; [under_tac|].
  by destruct (template_source_resolved [] ts t Ht) as (_ & -> & Hn & _).
Qed.

Lemma copy_state_template_same_outside self ts t :
  t ∈ state_templates ->
  preserves (same_outside (workflow_dir self)) (copy_state_template self ts t).
Proof.
  intros Ht. unfold copy_state_template.
  apply preserves_bind; [apply _ | apply same_outside_path_exists |].
  intros found. apply preserves_when; [apply _|].
  apply preserves_bind; [apply _ | | intros _; apply same_outside_print].
  apply same_outside_copy2; [under_tac|].
  by destruct (state_source_resolved [] ts t Ht) as (_ & Hn).
Qed.

#[local] Hint Extern 1 (preserves (grows_by _) (print _)) =>
  apply grows_by_print; intros; exact I : script_pres.
#[local] Hint Resolve grows_by_path_exists same_outside_print same_outside_path_exists
  copy_template_events copy_state_template_events
  copy_template_same_outside copy_state_template_same_outside : script_pres.

Lemma copy_templates_events self ts :
  preserves (grows_by (template_event self ts)) (copy_templates self ts).
Proof. unfold copy_templates. pres_steps. Qed.

Lemma copy_templates_same_outside self ts :
  preserves (same_outside (workflow_dir self)) (copy_templates self ts).
Proof. unfold copy_templates. pres_steps. Qed.

Lemma under_both_nested (a b p : path) : under a p -> under b p -> under a b \/ under b a.
Proof. intros Ha Hb. exact (prefix_weak_total a b p Ha Hb). Qed.

(** C8 (amended).  Whatever [copy_templates] does, whether it returns or
    raises: every file it writes lies under the workflow directory, every
    file it reads lies under the [.claude-workflow] of the directory that
    the template source names, it makes no directory, and no entry outside
    the workflow directory changes.  Hence, when neither of the
    template-source directory and the workflow directory lies inside the
    other, nothing under the template source is written or changed.  The
    template-source directory is the one that the path string names from
    the working directory of the process, with its [..] components worked
    off. *)
Theorem copy_templates_writes_under_workflow_dir :
  forall self ts w r w',
    copy_templates self ts w = (r, w') ->
    exists d,
      trace w' = trace w ++ d
      /\ Forall (template_event self ts (cwd w)) d
      /\ (forall p, ~ under (workflow_dir self) p -> fs w' !! p = fs w !! p)
      /\ (~ under (template_source_dir (cwd w) ts) (workflow_dir self) ->
          ~ under (workflow_dir self) (template_source_dir (cwd w) ts) ->
          forall p, under (template_source_dir (cwd w) ts) p ->
                    (Wrote p ∉ d) /\ fs w' !! p = fs w !! p).
Proof.
  intros self ts w r w' H.
  destruct (copy_templates_events self ts _ _ _ H) as (_ & d & Hd & Hall).
  pose proof (copy_templates_same_outside self ts _ _ _ H) as Hout.
  exists d. split; [exact Hd|]. split; [exact Hall|]. split; [exact Hout|].
  intros Hn1 Hn2 p Hp. split.
  - intros Hin. apply (proj1 (Forall_forall _ _) Hall) in Hin. cbn in Hin.
    destruct (under_both_nested _ _ _ Hp Hin); tauto.
  - apply Hout. intros Hin.
    destruct (under_both_nested _ _ _ Hp Hin); tauto.
Qed.

(** C8 as stated fails when the template source is the project itself: the
    copy of a state template is written under the template-source
    directory, where no such file was before. *)
Lemma copy_templates_can_write_under_template_source :
  let self := new_initializer [] "/p" (Clock 2026 11 3) in
  let written := ["p"; ".claude-workflow"; "parallel-tasks"; "active-tasks.md"] in
  let w' := snd (copy_templates self "/p" project_with_state_template) in
  fst (copy_templates self "/p" project_with_state_template) = Ok tt
  /\ under (template_source_dir (cwd project_with_state_template) "/p") written
  /\ Wrote written ∈ trace w'
  /\ fs project_with_state_template !! written = None
  /\ fs w' !! written = Some (File "# tasks").
Proof.
  intros self written w'. split; [|split; [|split; [|split]]].
  - vm_compute. reflexivity.
  - exists [".claude-workflow"; "parallel-tasks"; "active-tasks.md"]. reflexivity.
  - apply list_elem_of_In. vm_compute. tauto.
  - vm_compute. reflexivity.
  - vm_compute. reflexivity.
Qed.

(** ** The observable course of a run *)

Section MakesDirectories.

Context (P : path -> event -> Prop) (P_made : forall wd p, P wd (MadeDir p)).

Lemma grows_by_os_mkdir p : preserves (grows_by P) (os_mkdir p).
Proof.
  intros w r w' H. destruct (os_mkdir_cases p w) as [(E & _ & _) | [e E]];
    rewrite E in H; inversion H; subst.
  - transitivity (store p Dir w); [apply grows_by_store | apply grows_by_emit, P_made].
  - reflexivity.
Qed.

Lemma grows_by_mkdir_exist_ok p : preserves (grows_by P) (mkdir_exist_ok p).
Proof.
  intros w r w'. unfold mkdir_exist_ok.
  destruct (os_mkdir p w) as [[[]|e] w1] eqn:E; intros H.
  - inversion H; subst. eapply grows_by_os_mkdir, E.
  - destruct e, (sees_dir (fs w) p); inversion H; reflexivity.
Qed.

Lemma grows_by_mkdir_parents_rev rp : preserves (grows_by P) (mkdir_parents_rev rp).
Proof.
  induction rp as [|c rp IH]; intros w r w'; rewrite mkdir_parents_rev_eq;
    destruct (os_mkdir _ w) as [[[]|e] w1] eqn:E; intros H.
  - inversion H; subst. eapply grows_by_os_mkdir, E.
  - destruct e; try destruct (sees_dir (fs w) (rev []));
      inversion H; reflexivity.
  - inversion H; subst. eapply grows_by_os_mkdir, E.
  - destruct e;
      try (destruct (sees_dir (fs w) (rev (c :: rp))); inversion H; reflexivity).
    exact (preserves_bind _ _ _
             IH (fun _ => grows_by_mkdir_exist_ok _) _ _ _ H).
Qed.

Lemma grows_by_mkdir_parents p : preserves (grows_by P) (mkdir_parents p).
Proof. apply grows_by_mkdir_parents_rev. Qed.

End MakesDirectories.

Lemma trace_opening w : trace (opening w) = trace w ++ opening_events.
Proof. cbn. rewrite <- !app_assoc. reflexivity. Qed.

Lemma trace_closing w : trace (closing w) = trace w ++ closing_events.
Proof. cbn. rewrite <- !app_assoc. reflexivity. Qed.

Lemma trace_blank_line w : trace (blank_line w) = trace w ++ [Printed ""].
Proof. reflexivity. Qed.

Lemma create_directories_trace self w w' :
  create_directories self w = (Ok tt, w') ->
  exists made, trace w' = trace w ++ directory_events made /\ Forall is_made_dir made.
Proof.
  unfold create_directories. rewrite print_bind. intros H.
  apply bind_ok_inv in H as ([] & v & Hloop & H). inversion H; subst.
  assert (Hg : grows_by (fun _ => is_made_dir)
                 (emit (Printed "📁 Creating directory structure...") w) v).
  { eapply preserves_run; [exact Hloop|].
    apply preserves_for_each; [apply _|]. intros d _.
    apply grows_by_mkdir_parents. intros wd p. exact I. }
  destruct Hg as (_ & made & E & Hmade). exists made. split; [|exact Hmade].
  cbn. rewrite E. cbn. unfold directory_events.
  rewrite <- !app_assoc. reflexivity.
Qed.

Lemma copy_templates_trace self src w w' :
  copy_templates self src w = (Ok tt, w') ->
  exists inner,
    trace w' = trace w ++ Printed "📄 Copying template files..." :: inner
                       ++ [Printed "✅ Template files copied"]
    /\ Forall (template_event self src (cwd w)) inner.
Proof.
  unfold copy_templates. rewrite print_bind. intros H.
  assert (Hg : exists v, grows_by (template_event self src)
                 (emit (Printed "📄 Copying template files...") w) v
               /\ w' = emit (Printed "✅ Template files copied") v).
  { apply bind_ok_inv in H as ([] & v1 & H1 & H).
    apply bind_ok_inv in H as ([] & v2 & H2 & H). inversion H; subst.
    exists v2. split; [|reflexivity].
    transitivity v1.
    - eapply preserves_run; [exact H1 | pres_steps].
    - eapply preserves_run; [exact H2 | pres_steps]. }
  destruct Hg as (v & (_ & inner & E & Hin) & ->). exists inner. split; [|exact Hin].
  cbn. rewrite E. cbn. rewrite <- !app_assoc. reflexivity.
Qed.

Lemma write_text_trace p c w w' :
  write_text p c w = (Ok tt, w') -> trace w' = trace w ++ [Wrote p].
Proof. intros H. apply write_text_ok in H as [-> _]. reflexivity. Qed.

Lemma create_initial_config_trace self d w w' :
  create_initial_config self d w = (Ok tt, w') ->
  trace w' = trace w ++ config_events self.
Proof.
  unfold create_initial_config. rewrite print_bind. intros H.
  apply bind_ok_inv in H as ([] & v & Hv & H). inversion H; subst.
  apply write_text_trace in Hv. cbn in *. rewrite Hv.
  unfold config_events. rewrite <- !app_assoc. reflexivity.
Qed.

Lemma create_initial_state_trace self w w' :
  create_initial_state self w = (Ok tt, w') ->
  trace w' = trace w ++ state_events self.
Proof.
  unfold create_initial_state. rewrite print_bind. intros H.
  apply bind_ok_inv in H as ([] & v1 & H1 & H). apply write_text_trace in H1.
  apply bind_ok_inv in H as ([] & v2 & H2 & H). apply write_text_trace in H2.
  apply bind_ok_inv in H as ([] & v3 & H3 & H). apply write_text_trace in H3.
  apply bind_ok_inv in H as ([] & v4 & H4 & H). apply write_text_trace in H4.
  apply bind_ok_inv in H as ([] & v5 & H5 & H). apply write_text_trace in H5.
  apply bind_ok_inv in H as ([] & v6 & H6 & H). apply write_text_trace in H6.
  inversion H; subst. cbn in *.
  rewrite H6, H5, H4, H3, H2, H1. unfold state_events.
  rewrite <- !app_assoc. reflexivity.
Qed.

Lemma create_readme_trace self w w' :
  create_readme self w = (Ok tt, w') -> trace w' = trace w ++ readme_events self.
Proof. unfold create_readme. apply write_text_trace. Qed.

Lemma template_step_trace self ts w w' :
  template_step self ts w w' ->
  exists d, trace w' = trace w ++ d /\ template_events self ts (cwd w) d.
Proof.
  unfold template_step, template_events.
  destruct ts as [src|]; [destruct (Str.truthy src)|]; intros H.
  - apply copy_templates_trace in H as (inner & E & Hin). eauto.
  - subst. eauto.
  - subst. eauto.
Qed.

Lemma template_step_supplied self ts w w' :
  template_step self ts w w'
  <-> if supplied ts
      then exists src, ts = Some src /\ copy_templates self src w = (Ok tt, w')
      else w' = emit (Printed skip_notice) w.
Proof.
  unfold template_step, supplied.
  destruct ts as [src|]; [destruct (Str.truthy src)|]; try tauto.
  split.
  - eauto.
  - intros (src' & E & H). by inversion E; subst.
Qed.

(** C9.  A run of [initialize] completes exactly when its five steps
    complete one after the other, each from the world the one before left:
    directories, then templates, then configuration, then state documents,
    then README.  The template step is a run of [copy_templates] exactly
    when a template source was supplied ([None] and the empty string count
    as not supplied); otherwise it only prints the notice, and the other
    steps run as before.  The trace of a completed run shows the steps in
    that order, separated by blank console lines. *)
Theorem initialize_steps_in_order :
  forall self cfg ts w w',
    (initialize self cfg ts w = (Ok tt, w') <-> runs_in_order self cfg ts w w')
    /\ (forall v v',
          template_step self ts v v'
          <-> if supplied ts
              then exists src, ts = Some src /\ copy_templates self src v = (Ok tt, v')
              else v' = emit (Printed skip_notice) v)
    /\ (initialize self cfg ts w = (Ok tt, w') ->
        exists made copied,
          Forall is_made_dir made
          /\ template_events self ts (cwd w) copied
          /\ trace w'
             = trace w ++ opening_events
               ++ directory_events made ++ [Printed ""]
               ++ copied ++ [Printed ""]
               ++ config_events self ++ [Printed ""]
               ++ state_events self ++ [Printed ""]
               ++ readme_events self
               ++ closing_events).
Proof.
  intros self cfg ts w w'. split; [|split].
  - apply initialize_runs_in_order.
  - intros v v'. apply template_step_supplied.
  - intros H. apply initialize_runs_in_order in H
      as (w1 & w2 & w3 & w4 & w5 & H1 & H2 & H3 & H4 & H5 & ->).
    pose proof (safe_create_directories same_cwd self _ _ _ H1) as Hc.
    apply create_directories_trace in H1 as (made & E1 & Hmade).
    apply template_step_trace in H2 as (copied & E2 & Hcopied).
    change (cwd (blank_line w1)) with (cwd w1) in Hcopied.
    rewrite Hc in Hcopied. change (cwd (opening w)) with (cwd w) in Hcopied.
    apply create_initial_config_trace in H3.
    apply create_initial_state_trace in H4.
    apply create_readme_trace in H5.
    exists made, copied. split; [exact Hmade|]. split; [exact Hcopied|].
    rewrite trace_closing, H5, trace_blank_line, H4, trace_blank_line, H3,
      trace_blank_line, E2, trace_blank_line, E1, trace_opening.
    rewrite <- !app_assoc. reflexivity.
Qed.

(** ** The theorems at concrete inputs *)

Lemma run_ok {A} (m : M A) w a : fst (m w) = Ok a -> m w = (Ok a, snd (m w)).
Proof. destruct (m w) as [r w']. simpl. by intros ->. Qed.

Lemma manifest_directories_exist_witness :
  initialize sample_self None None empty_world
  = (Ok tt, snd (initialize sample_self None None empty_world))
  /\ Forall (fun d =>
               is_dir (fs (snd (initialize sample_self None None empty_world)))
                      (resolve [] (Path "/home/proj") // ".claude-workflow" // d) = true)
            dirs.
Proof.
  assert (H : initialize sample_self None None empty_world
              = (Ok tt, snd (initialize sample_self None None empty_world)))
    by (apply run_ok; vm_compute; reflexivity).
  split; [exact H|].
  exact (proj2 manifest_directories_exist [] "/home/proj" sample_clock None None
           empty_world _ H).
Defined.

Lemma directory_step_idempotent_witness :
  tree_shaped (fs empty_world)
  /\ initialize sample_self None None empty_world
     = (Ok tt, snd (initialize sample_self None None empty_world))
  /\ exists w'',
      create_directories sample_self
        (opening (snd (initialize sample_self None None empty_world))) = (Ok tt, w'')
      /\ fs w'' = fs (snd (initialize sample_self None None empty_world)).
Proof.
  assert (Ht : tree_shaped (fs empty_world)) by apply map_Forall_empty.
  assert (H : initialize sample_self None None empty_world
              = (Ok tt, snd (initialize sample_self None None empty_world)))
    by (apply run_ok; vm_compute; reflexivity).
  split; [exact Ht|]. split; [exact H|].
  exact (proj2 (proj2 directory_step_idempotent [] "/home/proj" sample_clock None None
                  empty_world _ Ht H)).
Defined.

Lemma current_phase_mentions_date_and_name_witness :
  main default_args sample_clock in_project
  = (Ok tt, snd (main default_args sample_clock in_project))
  /\ valid_clock sample_clock
  /\ name (resolve (cwd in_project) (Path (arg_project_path default_args))) = "proj"
  /\ strftime_ymd sample_clock = "2026-11-03"
  /\ (exists content,
        fs (snd (main default_args sample_clock in_project))
        !! (resolve (cwd in_project) (Path (arg_project_path default_args))
            // ".claude-workflow" // "current-phase.md")
        = Some (File content)
        /\ substring_of (strftime_ymd sample_clock) content
        /\ substring_of
             (name (resolve (cwd in_project) (Path (arg_project_path default_args))))
             content
        /\ substring_of
             ("- **项目名称**: "
              +:+ name (resolve (cwd in_project) (Path (arg_project_path default_args)))
              +:+ Str.nl) content
        /\ substring_of ("- **开始日期**: " +:+ strftime_ymd sample_clock +:+ Str.nl)
                        content)
  /\ parse_ymd (strftime_ymd sample_clock) = Some sample_clock.
Proof.
  assert (H : main default_args sample_clock in_project
              = (Ok tt, snd (main default_args sample_clock in_project)))
    by (apply run_ok; vm_compute; reflexivity).
  assert (Hc : valid_clock sample_clock) by (vm_compute; intuition discriminate).
  destruct (current_phase_mentions_date_and_name default_args sample_clock
              in_project _ H) as [Hfile Hdate].
  split; [exact H|]. split; [exact Hc|]. split; [reflexivity|]. split; [reflexivity|].
  split; [exact Hfile | exact (Hdate Hc)].
Defined.

Lemma config_text_layout_witness :
  dict_get {[ "gateway" := PyBool true ]} "gateway" (PyBool false) = PyBool true
  /\ enabled_text {[ "gateway" := PyBool true ]} "gateway" = flag_text true
  /\ create_initial_config sample_self {[ "gateway" := PyBool true ]} after_first_run
     = (Ok tt, snd (create_initial_config sample_self {[ "gateway" := PyBool true ]}
                      after_first_run))
  /\ fs (snd (create_initial_config sample_self {[ "gateway" := PyBool true ]}
                after_first_run))
     !! (workflow_dir sample_self // "config.yml")
     = Some (File (Str.unlines (config_lines {[ "gateway" := PyBool true ]}))).
Proof.
  destruct config_text_layout as [_ H].
  destruct (H {[ "gateway" := PyBool true ]}) as (_ & Hflag & Hfile).
  assert (Hg : dict_get {[ "gateway" := PyBool true ]} "gateway" (PyBool false)
               = PyBool true) by reflexivity.
  assert (Hrun : create_initial_config sample_self {[ "gateway" := PyBool true ]}
                   after_first_run
                 = (Ok tt, snd (create_initial_config sample_self
                                  {[ "gateway" := PyBool true ]} after_first_run)))
    by (apply run_ok; vm_compute; reflexivity).
  split; [exact Hg|]. split; [exact (Hflag "gateway" true Hg)|].
  split; [exact Hrun | exact (Hfile sample_self _ _ Hrun)].
Defined.

Lemma missing_project_name_written_as_None_witness :
  arg_project_name default_args = None
  /\ main default_args sample_clock empty_world
     = (Ok tt, snd (main default_args sample_clock empty_world))
  /\ nth 3 (config_lines (parse_config_data default_args)) EmptyString
     = "  name: " +:+ dq +:+ "None" +:+ dq
  /\ fs (snd (main default_args sample_clock empty_world))
     !! (resolve (cwd empty_world) (Path (arg_project_path default_args))
         // ".claude-workflow" // "config.yml")
     = Some (File (Str.unlines (config_lines (parse_config_data default_args)))).
Proof.
  assert (Hn : arg_project_name default_args = None) by reflexivity.
  assert (Hrun : main default_args sample_clock empty_world
                 = (Ok tt, snd (main default_args sample_clock empty_world)))
    by (apply run_ok; vm_compute; reflexivity).
  destruct (missing_project_name_written_as_None default_args Hn) as [Hline Hfile].
  split; [exact Hn|]. split; [exact Hrun|].
  split; [exact Hline | exact (Hfile _ _ _ Hrun)].
Defined.

Lemma platforms_gateway_hmi_witness :
  arg_platforms sample_args = Some "gateway,hmi"
  /\ main sample_args sample_clock empty_world = (Ok tt, after_first_run)
  /\ map (fun id => (id, enabled_text (parse_config_data sample_args) id)) platform_names
     = [ ("gateway", "true"); ("hmi", "true"); ("configuration", "false");
         ("cloud", "false"); ("app", "false"); ("edge-ai", "false");
         ("scada", "false"); ("web-editor", "false") ]
  /\ fs after_first_run
     !! (resolve (cwd empty_world) (Path (arg_project_path sample_args))
         // ".claude-workflow" // "config.yml")
     = Some (File (Str.unlines (config_lines (parse_config_data sample_args)))).
Proof.
  assert (Hp : arg_platforms sample_args = Some "gateway,hmi") by reflexivity.
  assert (Hrun : main sample_args sample_clock empty_world = (Ok tt, after_first_run))
    by (unfold after_first_run; apply run_ok; vm_compute; reflexivity).
  destruct (platforms_gateway_hmi sample_args Hp) as [Hflags Hfile].
  split; [exact Hp|]. split; [exact Hrun|].
  split; [exact Hflags | exact (Hfile _ _ _ Hrun)].
Defined.


Lemma missing_templates_skipped_witness :
  exists_at (fs empty_world) (cwd empty_world)
    (template_source_file "/src" "FE-template.md") = false
  /\ copy_template sample_self "/src" "FE-template.md" empty_world
     = (Ok tt, emit (Printed (not_found_line "FE-template.md")) empty_world)
  /\ exists_at (fs empty_world) (cwd empty_world)
       (state_source_file "/src" "rt-matrix-template.md") = false
  /\ copy_state_template sample_self "/src" "rt-matrix-template.md" empty_world
     = (Ok tt, empty_world)
  /\ for_each (["REQ-template.md"] ++ "FE-template.md" :: ["SOL-template.md"; "IMP-template.md"])
       (copy_template sample_self "/src") empty_world
     = for_each ["SOL-template.md"; "IMP-template.md"] (copy_template sample_self "/src")
         (emit (Printed (not_found_line "FE-template.md"))
            (emit (Printed (not_found_line "REQ-template.md")) empty_world))
  /\ fst (copy_templates sample_self "/src" empty_world) = Ok tt.
Proof.
  destruct (missing_templates_skipped sample_self "/src")
    as (Htop & Hstate & Hnext & _ & Hnone).
  assert (H1 : exists_at (fs empty_world) (cwd empty_world)
                 (template_source_file "/src" "FE-template.md") = false) by reflexivity.
  assert (H2 : exists_at (fs empty_world) (cwd empty_world)
                 (state_source_file "/src" "rt-matrix-template.md") = false)
    by reflexivity.
  split; [exact H1|]. split; [exact (Htop _ _ H1)|].
  split; [exact H2|]. split; [exact (Hstate _ _ H2)|]. split.
  - apply (Hnext ["REQ-template.md"] "FE-template.md" ["SOL-template.md"; "IMP-template.md"]
             empty_world (emit (Printed (not_found_line "REQ-template.md")) empty_world)).
    + reflexivity.
    + reflexivity.
  - rewrite (Hnone empty_world); [reflexivity | |].
    + unfold templates. repeat constructor.
    + unfold state_templates. repeat constructor.
Defined.

Lemma copy_templates_writes_under_workflow_dir_witness :
  copy_templates sample_self "/home/../src" with_template_source
  = (Ok tt, snd (copy_templates sample_self "/home/../src" with_template_source))
  /\ template_source_dir (cwd with_template_source) "/home/../src" = ["src"]
  /\ ~ under (template_source_dir (cwd with_template_source) "/home/../src")
          (workflow_dir sample_self)
  /\ ~ under (workflow_dir sample_self)
          (template_source_dir (cwd with_template_source) "/home/../src")
  /\ under (template_source_dir (cwd with_template_source) "/home/../src")
        ["src"; ".claude-workflow"; "templates"; "REQ-template.md"]
  /\ fs (snd (copy_templates sample_self "/home/../src" with_template_source))
     !! ["src"; ".claude-workflow"; "templates"; "REQ-template.md"]
     = fs with_template_source
       !! ["src"; ".claude-workflow"; "templates"; "REQ-template.md"]
  /\ fs (snd (copy_templates sample_self "/home/../src" with_template_source))
     !! ["home"; "proj"; ".claude-workflow"; "templates"; "REQ-template.md"]
     = Some (File "# REQ").
Proof.
  assert (Hrun : copy_templates sample_self "/home/../src" with_template_source
                 = (Ok tt, snd (copy_templates sample_self "/home/../src"
                                  with_template_source)))
    by (apply run_ok; vm_compute; reflexivity).
  assert (Hn1 : ~ under (template_source_dir (cwd with_template_source) "/home/../src")
                  (workflow_dir sample_self)).
  { intros [k Hk]. vm_compute in Hk. discriminate Hk. }
  assert (Hn2 : ~ under (workflow_dir sample_self)
                  (template_source_dir (cwd with_template_source) "/home/../src")).
  { intros [k Hk]. vm_compute in Hk. discriminate Hk. }
  assert (Hu : under (template_source_dir (cwd with_template_source) "/home/../src")
                 ["src"; ".claude-workflow"; "templates"; "REQ-template.md"]).
  { exists [".claude-workflow"; "templates"; "REQ-template.md"]. reflexivity. }
  destruct (copy_templates_writes_under_workflow_dir sample_self "/home/../src"
              with_template_source _ _ Hrun) as (d & _ & _ & _ & Hsrc).
  split; [exact Hrun|]. split; [reflexivity|].
  split; [exact Hn1|]. split; [exact Hn2|]. split; [exact Hu|].
  split; [exact (proj2 (Hsrc Hn1 Hn2 _ Hu))|].
  vm_compute. reflexivity.
Defined.

Lemma initialize_steps_in_order_witness :
  initialize sample_self None None empty_world
  = (Ok tt, snd (initialize sample_self None None empty_world))
  /\ runs_in_order sample_self None None empty_world
       (snd (initialize sample_self None None empty_world))
  /\ exists made copied,
      Forall is_made_dir made
      /\ template_events sample_self None (cwd empty_world) copied
      /\ trace (snd (initialize sample_self None None empty_world))
         = trace empty_world ++ opening_events
           ++ directory_events made ++ [Printed ""]
           ++ copied ++ [Printed ""]
           ++ config_events sample_self ++ [Printed ""]
           ++ state_events sample_self ++ [Printed ""]
           ++ readme_events sample_self
           ++ closing_events.
Proof.
  assert (H : initialize sample_self None None empty_world
              = (Ok tt, snd (initialize sample_self None None empty_world)))
    by (apply run_ok; vm_compute; reflexivity).
  destruct (initialize_steps_in_order sample_self None None empty_world
              (snd (initialize sample_self None None empty_world)))
    as (Hiff & _ & Htrace).
  split; [exact H|]. split; [exact (proj1 Hiff H) | exact (Htrace H)].
Defined.

(** * Further properties of the script *)

(** ** Whatever a run does, returning or raising *)

Lemma bind_raise_run {A B} (m : M A) (k : A -> M B) w e w1 :
  m w = (Raise e, w1) -> (x <- m ;; k x) w = (Raise e, w1).
Proof. unfold bind. intros ->. reflexivity. Qed.

Section SafeRun.

Context (R : relation world) `{!Safe R}.

Hint Resolve safe_print safe_path_exists safe_write_text safe_copy2
  safe_mkdir_parents : script_pres.

Lemma safe_initialize_any self cfg ts : preserves R (initialize self cfg ts).
Proof.
  unfold initialize. destruct ts as [src|]; [destruct (Str.truthy src)|]; pres.
Qed.

End SafeRun.

#[local] Instance entries_kept_preorder : PreOrder entries_kept.
Proof.
  split.
  - intros w p Hp. exact Hp.
  - intros a b c H1 H2 p Hp. apply H2, H1, Hp.
Qed.

Lemma exists_insert_other f p q n :
  exists_ f q = true -> exists_ (<[p:=n]> f) q = true.
Proof.
  intros Hq. destruct (decide (p = q)) as [<-|Hne].
  - destruct p; [reflexivity|]. unfold exists_. by rewrite stat_insert_eq.
  - unfold exists_. by rewrite stat_insert_ne.
Qed.

#[local] Instance entries_kept_safe : Safe entries_kept.
Proof.
  split.
  - apply _.
  - intros e w p Hp. exact Hp.
  - intros p w _ _ q Hq. by apply exists_insert_other.
  - intros p c w _ _ q Hq. by apply exists_insert_other.
Qed.

Lemma trace_grows_safe : Safe (grows_by (fun _ _ => True)).
Proof.
  split.
  - apply _.
  - intros e w. by apply grows_by_emit.
  - intros p w _ _. apply grows_by_store.
  - intros p c w _ _. apply grows_by_store.
Qed.

(** X1.  A run of [initialize], whether it returns or raises, removes
    nothing: every entry that existed still exists, every directory still
    is a directory, a tree-shaped file system stays tree-shaped, and the
    trace is only added to. *)
Theorem initialize_removes_nothing :
  forall self cfg ts w r w',
    initialize self cfg ts w = (r, w') ->
    (forall p, exists_ (fs w) p = true -> exists_ (fs w') p = true)
    /\ (forall p, is_dir (fs w) p = true -> is_dir (fs w') p = true)
    /\ (tree_shaped (fs w) -> tree_shaped (fs w'))
    /\ exists d, trace w' = trace w ++ d.
Proof.
  intros self cfg ts w r w' H. split; [|split; [|split]].
  - exact (safe_initialize_any entries_kept self cfg ts _ _ _ H).
  - exact (safe_initialize_any dirs_kept self cfg ts _ _ _ H).
  - exact (safe_initialize_any tree_kept self cfg ts _ _ _ H).
  - destruct (@safe_initialize_any _ trace_grows_safe self cfg ts _ _ _ H)
      as (_ & d & Hd & _).
    by exists d.
Qed.

(** ** Making directories, generically *)

Section MkdirPreserves.

Context (R : relation world) `{!PreOrder R}.

Lemma preserves_mkdir_exist_ok p :
  preserves R (os_mkdir p) -> preserves R (mkdir_exist_ok p).
Proof.
  intros Hos w r w'. unfold mkdir_exist_ok.
  destruct (os_mkdir p w) as [[[]|e] w1] eqn:E; intros H.
  - inversion H; subst. eapply Hos, E.
  - destruct e, (sees_dir (fs w) p); inversion H; reflexivity.
Qed.

(** [mkdir_parents] calls [os.mkdir] on the path and on paths above it
    only. *)
Lemma preserves_mkdir_parents_rev rp :
  (forall rp', rp' `suffix_of` rp -> preserves R (os_mkdir (rev rp'))) ->
  preserves R (mkdir_parents_rev rp).
Proof.
  induction rp as [|c rp IH]; intros Hos w r w'; rewrite mkdir_parents_rev_eq;
    destruct (os_mkdir _ w) as [[[]|e] w1] eqn:E; intros H.
  - inversion H; subst. eapply (Hos []); [reflexivity | exact E].
  - destruct e; try destruct (sees_dir (fs w) (rev []));
      inversion H; reflexivity.
  - inversion H; subst. eapply (Hos (c :: rp)); [reflexivity | exact E].
  - destruct e;
      try (destruct (sees_dir (fs w) (rev (c :: rp))); inversion H; reflexivity).
    refine (preserves_bind _ _ _ _ _ _ _ _ H).
    + apply IH. intros rp' Hs. apply Hos. by apply suffix_cons_r.
    + intros _. apply preserves_mkdir_exist_ok. apply (Hos (c :: rp)). reflexivity.
Qed.

Lemma preserves_mkdir_parents p :
  (forall q, q `prefix_of` p -> preserves R (os_mkdir q)) ->
  preserves R (mkdir_parents p).
Proof.
  intros Hos. apply preserves_mkdir_parents_rev.
  intros rp' [k Hk]. apply Hos. exists (rev k).
  rewrite <- (rev_involutive p), Hk, rev_app_distr. reflexivity.
Qed.

End MkdirPreserves.

(** ** The trace accounts for every change *)

#[local] Instance logged_preorder : PreOrder logged.
Proof.
  split.
  - intros w. exists []. split; [by rewrite app_nil_r | by left].
  - intros a b c (d1 & E1 & H1) (d2 & E2 & H2). exists (d1 ++ d2). split.
    + by rewrite E2, E1, app_assoc.
    + intros q. destruct (H2 q) as [Hq | [[Hin Hq] | [Hin Hq]]].
      * rewrite Hq. destruct (H1 q) as [Hq1 | [[Hin Hq1] | [Hin Hq1]]].
        -- by left.
        -- right. left. split; [apply elem_of_app; by left | exact Hq1].
        -- right. right. split; [apply elem_of_app; by left | exact Hq1].
      * right. left. split; [apply elem_of_app; by right | exact Hq].
      * right. right. split; [apply elem_of_app; by right | exact Hq].
Qed.

Lemma logged_emit e w : logged w (emit e w).
Proof. exists [e]. split; [reflexivity | by left]. Qed.

Lemma logged_print line : preserves logged (print line).
Proof. intros w r w' H. inversion H. apply logged_emit. Qed.

Lemma logged_path_exists p : preserves logged (path_exists p).
Proof. intros w r w' H. inversion H. reflexivity. Qed.

Lemma logged_read_file p : preserves logged (read_file p).
Proof.
  intros w r w' H. destruct (read_file_cases p w) as [(q & c & E & _) | [e E]];
    rewrite E in H; inversion H; subst.
  - apply logged_emit.
  - reflexivity.
Qed.

Lemma logged_os_mkdir p : preserves logged (os_mkdir p).
Proof.
  intros w r w' H. destruct (os_mkdir_cases p w) as [(E & _ & _) | [e E]];
    rewrite E in H; inversion H; subst.
  - exists [MadeDir p]. split; [reflexivity|]. intros q. cbn.
    destruct (decide (p = q)) as [<-|Hne].
    + right. left. split; [left | apply lookup_insert_eq].
    + left. by apply lookup_insert_ne.
  - reflexivity.
Qed.

Lemma logged_write_text p c : preserves logged (write_text p c).
Proof.
  intros w r w' H. destruct (write_text_cases p c w) as [(E & _ & _) | [e E]];
    rewrite E in H; inversion H; subst.
  - exists [Wrote p]. split; [reflexivity|]. intros q. cbn.
    destruct (decide (p = q)) as [<-|Hne].
    + right. right. split; [left | exists c; apply lookup_insert_eq].
    + left. by apply lookup_insert_ne.
  - reflexivity.
Qed.

Lemma logged_copy2 src dst : preserves logged (copy2 src dst).
Proof.
  intros w r w' H.
  destruct (copy2_cases src dst w) as [E | (dst' & _ & E)]; rewrite E in H.
  - inversion H. reflexivity.
  - exact (preserves_bind _ _ _
             (logged_read_file src) (fun c => logged_write_text _ c) _ _ _ H).
Qed.

Lemma logged_mkdir_parents p : preserves logged (mkdir_parents p).
Proof.
  apply preserves_mkdir_parents; [apply _|]. intros q _. apply logged_os_mkdir.
Qed.

#[local] Hint Resolve logged_print logged_path_exists logged_write_text logged_copy2
  logged_mkdir_parents : script_pres.

Lemma logged_initialize self cfg ts : preserves logged (initialize self cfg ts).
Proof.
  unfold initialize. destruct ts as [src|]; [destruct (Str.truthy src)|]; pres.
Qed.

(** ** Where a run reads, writes and makes directories *)

Lemma grows_by_os_mkdir_at (P : path -> event -> Prop) p :
  (forall wd, P wd (MadeDir p)) -> preserves (grows_by P) (os_mkdir p).
Proof.
  intros HP w r w' H. destruct (os_mkdir_cases p w) as [(E & _ & _) | [e E]];
    rewrite E in H; inversion H; subst.
  - transitivity (store p Dir w); [apply grows_by_store | apply grows_by_emit, HP].
  - reflexivity.
Qed.

Lemma grows_by_mkdir_manifest self ts d :
  d ∈ dirs ->
  preserves (grows_by (run_event self ts)) (mkdir_parents (workflow_dir self // d)).
Proof.
  intros Hd. apply preserves_mkdir_parents; [apply _|].
  intros q Hq. apply grows_by_os_mkdir_at. intros wd. exists d. by split.
Qed.

Lemma template_event_run_event self src wd e :
  template_event self src wd e -> run_event self (Some src) wd e.
Proof. destruct e; cbn; tauto. Qed.

Lemma copy_templates_run_events self src :
  preserves (grows_by (run_event self (Some src))) (copy_templates self src).
Proof.
  eapply preserves_grows_by_mono;
    [apply template_event_run_event | apply copy_templates_events].
Qed.

Ltac event_tac :=
  cbn [run_event]; unfold under, path_join;
  eexists; rewrite <- ?app_assoc; reflexivity.

#[local] Hint Resolve copy_templates_run_events : script_pres.
#[local] Hint Extern 1 (preserves (grows_by (run_event _ _)) (write_text _ _)) =>
  apply grows_by_write_text; intros; event_tac : script_pres.
#[local] Hint Extern 1 (preserves (grows_by (run_event _ _)) (mkdir_parents _)) =>
  apply grows_by_mkdir_manifest; assumption : script_pres.

Lemma initialize_events self cfg ts :
  preserves (grows_by (run_event self ts)) (initialize self cfg ts).
Proof.
  unfold initialize, create_readme.
  destruct ts as [src|]; [destruct (Str.truthy src)|]; pres_steps.
Qed.

(** X2.  The footprint of [initialize], whether it returns or raises: every
    file it writes lies under the workflow directory, every directory it
    makes is a manifest directory or lies above one, it reads only under
    the [.claude-workflow] of the directory that the template source names
    from the working directory, and an entry that is neither under the
    workflow directory nor above it is left as it was. *)
Theorem initialize_footprint :
  forall self cfg ts w r w',
    initialize self cfg ts w = (r, w') ->
    exists d,
      trace w' = trace w ++ d
      /\ Forall (run_event self ts (cwd w)) d
      /\ forall q,
           ~ under (workflow_dir self) q -> ~ under q (workflow_dir self) ->
           fs w' !! q = fs w !! q.
Proof.
  intros self cfg ts w r w' H.
  destruct (initialize_events self cfg ts _ _ _ H) as (_ & d & Hd & Hall).
  destruct (logged_initialize self cfg ts _ _ _ H) as (d' & Hd' & Hlog).
  assert (d' = d) as -> by (eapply app_inv_head; by rewrite <- Hd, <- Hd').
  exists d. split; [exact Hd|]. split; [exact Hall|].
  intros q Hn1 Hn2. destruct (Hlog q) as [Hq | [[Hin _] | [Hin _]]].
  - exact Hq.
  - apply (proj1 (Forall_forall _ _) Hall) in Hin. cbn in Hin.
    destruct Hin as (x & _ & Hpre).
    assert (Hwf : workflow_dir self `prefix_of` workflow_dir self // x)
      by (by exists (components x)).
    destruct (prefix_weak_total _ _ _ Hpre Hwf); contradiction.
  - apply (proj1 (Forall_forall _ _) Hall) in Hin. cbn in Hin. contradiction.
Qed.

(** ** The documents of a completed run *)

Lemma create_initial_config_fs self d w w' :
  create_initial_config self d w = (Ok tt, w') ->
  fs w' = <[workflow_dir self // "config.yml"
            := File (yaml_content (default_config d))]> (fs w).
Proof.
  unfold create_initial_config. rewrite print_bind. intros H.
  apply bind_ok_inv in H as ([] & v & Hv & H). inversion H; subst.
  apply write_text_ok in Hv as [-> _]. reflexivity.
Qed.

Lemma create_initial_state_fs self w w' :
  create_initial_state self w = (Ok tt, w') ->
  fs w' =
  <[workflow_dir self // "rt-matrix.md" := File (rt_matrix_text (date self))]>
  (<[workflow_dir self // "feature-to-code-map.md" := File code_map_text]>
  (<[workflow_dir self // "dependency-backlog.md" := File dep_backlog_text]>
  (<[workflow_dir self // "parallel-tasks" // "task-dependencies.md"
     := File task_deps_text]>
  (<[workflow_dir self // "parallel-tasks" // "active-tasks.md"
     := File (active_tasks_text (date self))]>
  (<[workflow_dir self // "current-phase.md"
     := File (current_phase_text (name (parent (workflow_dir self))) (date self))]>
   (fs w)))))).
Proof.
  unfold create_initial_state. rewrite print_bind. intros H.
  apply bind_ok_inv in H as ([] & v1 & H1 & H). apply write_text_ok in H1 as [-> _].
  apply bind_ok_inv in H as ([] & v2 & H2 & H). apply write_text_ok in H2 as [-> _].
  apply bind_ok_inv in H as ([] & v3 & H3 & H). apply write_text_ok in H3 as [-> _].
  apply bind_ok_inv in H as ([] & v4 & H4 & H). apply write_text_ok in H4 as [-> _].
  apply bind_ok_inv in H as ([] & v5 & H5 & H). apply write_text_ok in H5 as [-> _].
  apply bind_ok_inv in H as ([] & v6 & H6 & H). apply write_text_ok in H6 as [-> _].
  inversion H; subst. reflexivity.
Qed.

Lemma create_readme_fs self w w' :
  create_readme self w = (Ok tt, w') ->
  fs w' = <[workflow_dir self // "README.md" := File readme_text]> (fs w).
Proof.
  unfold create_readme. intros H. apply write_text_ok in H as [-> _]. reflexivity.
Qed.

Lemma initialize_documents self cfg ts w w' :
  initialize self cfg ts w = (Ok tt, w') ->
  Forall (holds (fs w')) (documents self (or_empty cfg)).
Proof.
  intros H. apply initialize_runs_in_order in H
    as (w1 & w2 & w3 & w4 & w5 & _ & _ & H3 & H4 & H5 & ->).
  apply create_initial_config_fs in H3. apply create_initial_state_fs in H4.
  apply create_readme_fs in H5.
  assert (Hfs : fs (closing w5) = fs w5) by reflexivity.
  rewrite Hfs, H5. cbn [blank_line emit fs]. rewrite H4. cbn [blank_line emit fs].
  rewrite H3. cbn [blank_line emit fs].
  unfold documents, holds.
  repeat (apply Forall_cons; split;
          [cbn [fst snd];
           repeat (rewrite lookup_insert_ne by path_neq); apply lookup_insert_eq|]).
  constructor.
Qed.

(** X3.  After a completed run of [initialize] each of the eight documents
    holds exactly its generated text, whatever was at its path before and
    whatever [copy_templates] copied there: the state files that the
    template step copies are overwritten by [create_initial_state]. *)
Theorem generated_documents_in_place :
  forall self cfg ts w w',
    initialize self cfg ts w = (Ok tt, w') ->
    Forall (fun doc => fs w' !! doc.1 = Some (File doc.2))
           (documents self (or_empty cfg)).
Proof. intros self cfg ts w w' H. exact (initialize_documents _ _ _ _ _ H). Qed.

(** ** A project that is set up *)

Lemma first_run_initialized self cfg ts w w' :
  tree_shaped (fs w) ->
  initialize self cfg ts w = (Ok tt, w') ->
  initialized self (or_empty cfg) (fs w').
Proof.
  intros Ht H. split; [|split].
  - exact (safe_initialize tree_kept _ _ _ _ _ H Ht).
  - exact (initialize_makes_all _ _ _ _ _ H).
  - exact (initialize_documents _ _ _ _ _ H).
Qed.

(** A joined path is not the root. *)
Ltac not_root :=
  let E := fresh in
  unfold path_join; intros E; apply app_eq_nil in E as [_ E];
  vm_compute in E; discriminate E.

Lemma create_directories_existing self f w :
  fs w = f -> tree_shaped f ->
  Forall (fun d => is_dir f (workflow_dir self // d) = true) dirs ->
  exists w', create_directories self w = (Ok tt, w') /\ fs w' = f.
Proof.
  intros <- Ht Hall. eexists. split.
  - unfold create_directories. rewrite print_bind.
    erewrite bind_ok; [reflexivity|].
    apply for_each_unchanged.
    eapply Forall_impl; [exact Hall|].
    intros d Hd. by apply mkdir_parents_existing.
  - reflexivity.
Qed.

(** ** A regular file in the way *)

Lemma mkdir_parents_under_file q c ext w :
  tree_shaped (fs w) -> stat (fs w) q = Some (File c) -> ext <> [] ->
  mkdir_parents (q ++ ext) w = (Raise NotADirectoryError, w).
Proof.
  intros Ht Hq Hext. unfold mkdir_parents.
  rewrite mkdir_parents_rev_eq, rev_involutive. unfold os_mkdir, sees_dir.
  by rewrite (descend_under_file _ _ _ _ Ht Hq Hext).
Qed.

(** X5.  When a regular file sits at the workflow directory or anywhere
    above it (the project path itself, for one), [initialize] raises
    [NotADirectoryError] on the first manifest directory: nothing is made
    or written, and only the banner and the first console line of the
    directory step have been printed. *)
Theorem file_in_the_way :
  forall self cfg ts w q c,
    tree_shaped (fs w) ->
    under q (workflow_dir self) ->
    stat (fs w) q = Some (File c) ->
    initialize self cfg ts w
    = (Raise NotADirectoryError,
       emit (Printed "📁 Creating directory structure...") (opening w)).
Proof.
  intros self cfg ts w q c Ht [k Hk] Hq.
  unfold initialize. rewrite !print_bind.
  apply bind_raise_run. unfold create_directories. rewrite print_bind.
  apply bind_raise_run. unfold dirs. cbn [for_each].
  apply bind_raise_run. unfold path_join. rewrite Hk, <- app_assoc.
  apply (mkdir_parents_under_file q c); [exact Ht | exact Hq |].
  intros E. apply app_eq_nil in E as [_ E]. vm_compute in E. discriminate E.
Qed.

(** ** When a run completes *)

#[local] Instance no_new_files_preorder : PreOrder no_new_files.
Proof.
  split.
  - intros w q c H. exact H.
  - intros a b c H1 H2 q x H. apply H1, H2, H.
Qed.

#[local] Instance new_dirs_at_preorder Q : PreOrder (new_dirs_at Q).
Proof.
  split.
  - intros w q H. by left.
  - intros a b c H1 H2 q H. destruct (H2 q H) as [Hb | HQ]; [|by right].
    exact (H1 q Hb).
Qed.

Lemma no_new_files_os_mkdir p : preserves no_new_files (os_mkdir p).
Proof.
  intros w r w' H. destruct (os_mkdir_cases p w) as [(E & _ & Hp) | [e E]];
    rewrite E in H; inversion H; subst.
  - intros q c. cbn. destruct (decide (p = q)) as [<-|Hne].
    + rewrite stat_insert_eq by (eapply stat_none_not_root, Hp). discriminate.
    + by rewrite stat_insert_ne.
  - reflexivity.
Qed.

Lemma new_dirs_at_os_mkdir (Q : path -> Prop) p :
  Q p -> preserves (new_dirs_at Q) (os_mkdir p).
Proof.
  intros HQ w r w' H. destruct (os_mkdir_cases p w) as [(E & _ & Hp) | [e E]];
    rewrite E in H; inversion H; subst.
  - intros q. cbn. destruct (decide (p = q)) as [<-|Hne]; [by right|].
    unfold is_dir. rewrite stat_insert_ne by done. by left.
  - reflexivity.
Qed.

(** With no regular file on the way, the walk succeeds or fails with
    [ENOENT]. *)
Lemma prefix_parent (q p : path) : q `prefix_of` parent p -> q `prefix_of` p.
Proof.
  destruct p as [|x p _] using rev_ind; [done|].
  rewrite parent_snoc. intros H. by apply prefix_app_r.
Qed.

Lemma descend_no_file f p :
  (forall q c, q `prefix_of` parent p -> stat f q <> Some (File c)) ->
  descend f p = Ok p \/ descend f p = Raise FileNotFoundError.
Proof.
  induction p as [|x p IH] using rev_ind; intros Hnf; [by left|].
  rewrite parent_snoc in Hnf. rewrite descend_app.
  destruct IH as [-> | ->]; [| |by right].
  { intros q c Hq. apply Hnf. by apply prefix_parent. }
  cbn [walk_by]. destruct (stat f p) as [[|c]|] eqn:E; [by left | | by right].
  destruct (Hnf p c); [reflexivity | exact E].
Qed.

Lemma mkdir_exist_ok_succeeds p w :
  tree_shaped (fs w) ->
  is_dir (fs w) (parent p) = true ->
  (forall c, stat (fs w) p <> Some (File c)) ->
  exists w', mkdir_exist_ok p w = (Ok tt, w').
Proof.
  intros Ht Hpar Hnf. unfold mkdir_exist_ok, os_mkdir.
  rewrite (descend_tree _ _ Ht Hpar), (sees_dir_tree _ _ Ht). unfold is_dir.
  destruct (stat (fs w) p) as [[|c]|] eqn:Ep; eauto.
  by destruct (Hnf c).
Qed.

Lemma mkdir_parents_rev_succeeds rp w :
  tree_shaped (fs w) ->
  (forall rp' c, rp' `suffix_of` rp -> stat (fs w) (rev rp') <> Some (File c)) ->
  exists w', mkdir_parents_rev rp w = (Ok tt, w').
Proof.
  revert w. induction rp as [|x rp IH]; intros w Ht Hnf;
    rewrite mkdir_parents_rev_eq; unfold os_mkdir.
  - eexists. reflexivity.
  - assert (Hwalk : descend (fs w) (rev (x :: rp)) = Ok (rev (x :: rp))
                    \/ descend (fs w) (rev (x :: rp)) = Raise FileNotFoundError).
    { apply descend_no_file. intros q c Hq. apply prefix_parent in Hq as [k Hk].
      rewrite <- (rev_involutive q).
      apply Hnf. exists (rev k).
      rewrite <- (rev_involutive (x :: rp)), Hk, rev_app_distr. reflexivity. }
    destruct Hwalk as [E | E]; rewrite E.
    + rewrite (sees_dir_tree _ _ Ht). unfold is_dir.
      destruct (stat (fs w) (rev (x :: rp))) as [[|c]|] eqn:Ep; eauto.
      destruct (Hnf (x :: rp) c); [reflexivity | exact Ep].
    + destruct (IH w Ht) as (w1 & E1).
      { intros rp' c Hs. apply Hnf. by apply suffix_cons_r. }
      rewrite (bind_ok _ _ _ _ _ E1).
      apply mkdir_exist_ok_succeeds.
      * exact (safe_mkdir_parents_rev tree_kept _ _ _ _ E1 Ht).
      * cbn [rev]. rewrite parent_snoc. exact (mkdir_parents_rev_is_dir _ _ _ E1).
      * intros c Hc.
        assert (Hk : no_new_files w w1).
        { eapply preserves_run; [exact E1|].
          apply preserves_mkdir_parents_rev; [apply _|].
          intros rp' _. apply no_new_files_os_mkdir. }
        apply Hk in Hc. destruct (Hnf (x :: rp) c); [reflexivity | exact Hc].
Qed.

Lemma mkdir_parents_succeeds p w :
  tree_shaped (fs w) ->
  (forall q c, q `prefix_of` p -> stat (fs w) q <> Some (File c)) ->
  exists w', mkdir_parents p w = (Ok tt, w').
Proof.
  intros Ht Hnf. apply mkdir_parents_rev_succeeds; [exact Ht|].
  intros rp' c [k Hk]. apply Hnf. exists (rev k).
  rewrite <- (rev_involutive p), Hk, rev_app_distr. reflexivity.
Qed.

Lemma doc_not_manifest_prefix self p :
  p ∈ doc_paths self -> ~ manifest_prefix self p.
Proof.
  intros Hp (d & Hd & Hpre).
  assert (Hall : forall s,
             s ∈ [ ["config.yml"]; ["current-phase.md"];
                   ["parallel-tasks"; "active-tasks.md"];
                   ["parallel-tasks"; "task-dependencies.md"];
                   ["dependency-backlog.md"]; ["feature-to-code-map.md"];
                   ["rt-matrix.md"]; ["README.md"] ] ->
             Forall (fun d => ~ s `prefix_of` components d) dirs).
  { apply Forall_forall. refine (bool_decide_unpack _ _). vm_compute. exact I. }
  assert (Hs : exists s, p = workflow_dir self ++ s
                         /\ Forall (fun d => ~ s `prefix_of` components d) dirs).
  { unfold doc_paths, documents in Hp. cbn [map fst] in Hp. unfold path_join in Hp.
    repeat (apply elem_of_cons in Hp as [-> | Hp];
            [rewrite <- ?app_assoc; eexists; split;
             [reflexivity | apply Hall; vm_compute; repeat constructor]|]).
    inversion Hp. }
  destruct Hs as (s & -> & Hno).
  apply (proj1 (Forall_forall _ _) Hno d Hd).
  unfold path_join in Hpre. by apply prefix_app_inv in Hpre.
Qed.

Lemma for_each_succeeds {A : Type} (Inv : world -> Prop) (l : list A)
    (body : A -> M unit) :
  (forall x w, x ∈ l -> Inv w -> exists w', body x w = (Ok tt, w') /\ Inv w') ->
  forall w, Inv w -> exists w', for_each l body w = (Ok tt, w') /\ Inv w'.
Proof.
  induction l as [|x l IH]; intros Hb w Hw.
  - exists w. by split.
  - destruct (Hb x w (list_elem_of_here _ _) Hw) as (w1 & E1 & H1).
    destruct (IH (fun y v Hy => Hb y v (list_elem_of_further _ _ _ Hy)) w1 H1)
      as (w2 & E2 & H2).
    exists w2. split; [|exact H2]. cbn [for_each].
    by rewrite (bind_ok _ _ _ _ _ E1).
Qed.

Lemma mkdir_manifest_installable self d w :
  d ∈ dirs -> installable self (fs w) ->
  exists w', mkdir_parents (workflow_dir self // d) w = (Ok tt, w')
             /\ installable self (fs w').
Proof.
  intros Hd (Ht & Hnf & Hdocs).
  assert (Hpre : forall q, q `prefix_of` workflow_dir self // d -> manifest_prefix self q)
    by (intros q Hq; by exists d).
  destruct (mkdir_parents_succeeds (workflow_dir self // d) w Ht) as (w' & E).
  { intros q c Hq. by apply Hnf, Hpre. }
  exists w'. split; [exact E|]. split; [|split].
  - exact (safe_mkdir_parents tree_kept _ _ _ _ E Ht).
  - intros q c Hq Hc.
    assert (Hk : no_new_files w w').
    { eapply preserves_run; [exact E|].
      apply preserves_mkdir_parents; [apply _|]. intros ? _.
      apply no_new_files_os_mkdir. }
    exact (Hnf q c Hq (Hk q c Hc)).
  - assert (Hk : new_dirs_at (manifest_prefix self) w w').
    { eapply preserves_run; [exact E|].
      apply preserves_mkdir_parents; [apply _|]. intros q Hq.
      by apply new_dirs_at_os_mkdir, Hpre. }
    apply Forall_forall. intros p Hp.
    destruct (is_dir (fs w') p) eqn:Ep; [exfalso | reflexivity].
    destruct (Hk p Ep) as [Hold | Hman].
    + rewrite (proj1 (Forall_forall _ _) Hdocs p Hp) in Hold. discriminate.
    + exact (doc_not_manifest_prefix self p Hp Hman).
Qed.

Lemma create_directories_succeeds self w :
  installable self (fs w) ->
  exists w', create_directories self w = (Ok tt, w') /\ installable self (fs w').
Proof.
  intros Hw. unfold create_directories. rewrite print_bind.
  destruct (for_each_succeeds (fun v => installable self (fs v)) dirs
              (fun dir_path => mkdir_parents (workflow_dir self // dir_path))
              (fun d v Hd Hv => mkdir_manifest_installable self d v Hd Hv)
              (emit (Printed "📁 Creating directory structure...") w) Hw)
    as (w1 & E1 & H1).
  rewrite (bind_ok _ _ _ _ _ E1). eexists. split; [reflexivity | exact H1].
Qed.

(** Path strings of the script, as lists of components. *)
Ltac components_tac :=
  unfold path_join;
  repeat match goal with
         | |- context [components ?s] =>
             let v := eval vm_compute in (components s) in
             change (components s) with v
         end.

Lemma installable_ready self f :
  installable self f ->
  Forall (fun d => is_dir f (workflow_dir self // d) = true) dirs ->
  ready self f.
Proof.
  intros (Ht & _ & Hdocs) Hdirs.
  assert (Hin : forall d, In d dirs -> is_dir f (workflow_dir self // d) = true).
  { intros d Hd. apply (proj1 (Forall_forall _ _) Hdirs). by apply list_elem_of_In. }
  assert (Hpt : is_dir f (workflow_dir self ++ ["parallel-tasks"]) = true).
  { apply (Hin "parallel-tasks"). vm_compute. tauto. }
  assert (Hwf : is_dir f (workflow_dir self) = true).
  { apply is_dir_stat in Hpt. apply (tree_shaped_parent _ _ _ Ht) in Hpt.
    by rewrite parent_snoc in Hpt. }
  split; [exact Ht|].
  apply Forall_forall. intros p Hp. split.
  - unfold doc_paths, documents in Hp. cbn [map fst] in Hp.
    repeat (apply elem_of_cons in Hp as [-> | Hp];
            [components_tac; rewrite parent_snoc; assumption|]).
    inversion Hp.
  - exact (proj1 (Forall_forall _ _) Hdocs p Hp).
Qed.

Lemma write_text_ready self p c w :
  ready self (fs w) -> p ∈ doc_paths self ->
  exists w', write_text p c w = (Ok tt, w') /\ ready self (fs w').
Proof.
  intros [Ht Hr] Hp.
  destruct (proj1 (Forall_forall _ _) Hr p Hp) as [Hpar Hnd].
  destruct (write_text_cases p c w) as [(E & _ & _) | [e E]].
  - eexists. split; [exact E|]. cbn. split.
    + by apply tree_shaped_insert.
    + apply Forall_forall. intros q Hq.
      destruct (proj1 (Forall_forall _ _) Hr q Hq) as [Hqpar Hqnd]. split.
      * apply is_dir_insert_other; auto.
      * unfold is_dir. destruct (decide (p = q)) as [<-|Hne].
        -- by rewrite stat_insert_eq by (eapply not_dir_not_root, Hnd).
        -- rewrite stat_insert_ne by done. exact Hqnd.
  - exfalso. revert E. unfold write_text. rewrite (descend_tree _ _ Ht Hpar).
    unfold is_dir in Hnd. destruct (stat (fs w) p) as [[|c']|]; discriminate.
Qed.

Ltac doc_path := unfold doc_paths, documents; cbn [map fst]; repeat constructor.

Lemma create_initial_config_succeeds self d w :
  ready self (fs w) ->
  exists w', create_initial_config self d w = (Ok tt, w') /\ ready self (fs w').
Proof.
  intros Hw. unfold create_initial_config. rewrite print_bind.
  destruct (write_text_ready self (workflow_dir self // "config.yml")
              (yaml_content (default_config d))
              (emit (Printed "⚙️  Creating configuration...") w) Hw)
    as (v & E & Hv); [doc_path|].
  rewrite (bind_ok _ _ _ _ _ E). eexists. split; [reflexivity | exact Hv].
Qed.

Lemma create_initial_state_succeeds self w :
  ready self (fs w) ->
  exists w', create_initial_state self w = (Ok tt, w') /\ ready self (fs w').
Proof.
  intros Hw. unfold create_initial_state. rewrite print_bind.
  destruct (write_text_ready self (workflow_dir self // "current-phase.md")
              (current_phase_text (name (parent (workflow_dir self))) (date self))
              (emit (Printed "📊 Creating initial state files...") w) Hw)
    as (v1 & E1 & H1); [doc_path|].
  rewrite (bind_ok _ _ _ _ _ E1).
  destruct (write_text_ready self (workflow_dir self // "parallel-tasks" // "active-tasks.md")
              (active_tasks_text (date self)) v1 H1) as (v2 & E2 & H2); [doc_path|].
  rewrite (bind_ok _ _ _ _ _ E2).
  destruct (write_text_ready self
              (workflow_dir self // "parallel-tasks" // "task-dependencies.md")
              task_deps_text v2 H2) as (v3 & E3 & H3); [doc_path|].
  rewrite (bind_ok _ _ _ _ _ E3).
  destruct (write_text_ready self (workflow_dir self // "dependency-backlog.md")
              dep_backlog_text v3 H3) as (v4 & E4 & H4); [doc_path|].
  rewrite (bind_ok _ _ _ _ _ E4).
  destruct (write_text_ready self (workflow_dir self // "feature-to-code-map.md")
              code_map_text v4 H4) as (v5 & E5 & H5); [doc_path|].
  rewrite (bind_ok _ _ _ _ _ E5).
  destruct (write_text_ready self (workflow_dir self // "rt-matrix.md")
              (rt_matrix_text (date self)) v5 H5) as (v6 & E6 & H6); [doc_path|].
  rewrite (bind_ok _ _ _ _ _ E6).
  eexists. split; [reflexivity | exact H6].
Qed.

Lemma initialize_succeeds self cfg ts w :
  installable self (fs w) -> supplied ts = false ->
  exists w', initialize self cfg ts w = (Ok tt, w').
Proof.
  intros Hw Hts.
  destruct (create_directories_succeeds self (opening w) Hw) as (w1 & E1 & H1).
  pose proof (create_directories_makes_all self _ _ E1) as Hdirs.
  assert (Hr : ready self (fs w1)).
  { apply installable_ready; [exact H1|]. apply Forall_forall. exact Hdirs. }
  set (w2 := emit (Printed skip_notice) (blank_line w1)).
  destruct (create_initial_config_succeeds self (or_empty cfg) (blank_line w2) Hr)
    as (w3 & E3 & H3).
  destruct (create_initial_state_succeeds self (blank_line w3) H3) as (w4 & E4 & H4).
  destruct (write_text_ready self (workflow_dir self // "README.md") readme_text
              (blank_line w4) H4) as (w5 & E5 & H5); [doc_path|].
  exists (closing w5).
  apply initialize_runs_in_order. exists w1, w2, w3, w4, w5.
  repeat split; try assumption.
  apply template_step_supplied. by rewrite Hts.
Qed.

(** X6.  When a run completes.  On a tree-shaped file system with no regular
    file at a manifest directory or above one, and no directory where one
    of the eight documents goes, [initialize] without a template source
    completes, whatever the configuration; an empty file system is such a
    one. *)
Theorem initialize_completes :
  forall self cfg ts,
    supplied ts = false ->
    (forall w, installable self (fs w) ->
               exists w', initialize self cfg ts w = (Ok tt, w'))
    /\ installable self ∅.
Proof.
  intros self cfg ts Hts. split.
  - intros w Hw. by apply initialize_succeeds.
  - split; [apply map_Forall_empty | split].
    + intros q c _. destruct q; discriminate.
    + apply Forall_forall. intros p Hp. unfold is_dir, stat.
      destruct p; [|by rewrite lookup_empty]. exfalso.
      unfold doc_paths, documents in Hp. cbn [map fst] in Hp.
      repeat (apply elem_of_cons in Hp as [Hp | Hp];
              [symmetry in Hp; revert Hp; not_root|]).
      inversion Hp.
Qed.

(** ** Running again *)

Lemma tree_prefix_dir f (p q : path) :
  tree_shaped f -> is_dir f p = true -> q `prefix_of` p -> is_dir f q = true.
Proof.
  intros Ht Hp [k ->]. induction k as [|x k IH] using rev_ind.
  - by rewrite app_nil_r in Hp.
  - apply IH. rewrite app_assoc in Hp. apply is_dir_stat in Hp.
    apply (tree_shaped_parent _ _ _ Ht) in Hp. by rewrite parent_snoc in Hp.
Qed.

Lemma doc_paths_workflow_dir self self' :
  workflow_dir self' = workflow_dir self -> doc_paths self' = doc_paths self.
Proof. intros H. unfold doc_paths, documents. cbn [map fst]. by rewrite H. Qed.

Lemma file_not_dir (f : gmap path node) p c :
  f !! p = Some (File c) -> p <> [] -> is_dir f p = false.
Proof. intros H Hp. unfold is_dir, stat. destruct p; [done|]. by rewrite H. Qed.

(** A project that one initializer has set up can be set up again, by any
    initializer for the same workflow directory. *)
Lemma initialized_installable self self' d f :
  workflow_dir self' = workflow_dir self -> initialized self d f -> installable self' f.
Proof.
  intros Hwf (Ht & Hdirs & Hdocs). split; [exact Ht | split].
  - intros q c (x & Hx & Hpre) Hq. rewrite Hwf in Hpre.
    pose proof (proj1 (Forall_forall _ _) Hdirs x Hx) as Hd. cbn in Hd.
    pose proof (tree_prefix_dir _ _ _ Ht Hd Hpre) as Hqd.
    apply is_dir_stat in Hqd. congruence.
  - rewrite (doc_paths_workflow_dir _ _ Hwf).
    unfold documents, holds in Hdocs. cbn [fst snd] in Hdocs.
    repeat (apply Forall_cons_1 in Hdocs as [? Hdocs]).
    unfold doc_paths, documents. cbn [map fst].
    repeat (apply Forall_cons; split;
            [eapply file_not_dir; [eassumption | not_root]|]).
    constructor.
Qed.

(** A run without a template source over a project whose directories are
    there changes the eight documents only. *)
Lemma rerun_frame self cfg ts w w' :
  tree_shaped (fs w) ->
  Forall (fun d => is_dir (fs w) (workflow_dir self // d) = true) dirs ->
  supplied ts = false ->
  initialize self cfg ts w = (Ok tt, w') ->
  forall q, q ∉ doc_paths self -> fs w' !! q = fs w !! q.
Proof.
  intros Ht Hdirs Hts H q Hq.
  apply initialize_runs_in_order in H
    as (w1 & w2 & w3 & w4 & w5 & H1 & H2 & H3 & H4 & H5 & ->).
  destruct (create_directories_existing self (fs w) (opening w) eq_refl Ht Hdirs)
    as (v & Ev & Hv).
  rewrite Ev in H1. inversion H1; subst v. clear H1.
  apply template_step_supplied in H2. rewrite Hts in H2. subst w2.
  apply create_initial_config_fs in H3. apply create_initial_state_fs in H4.
  apply create_readme_fs in H5.
  change (fs (closing w5)) with (fs w5).
  rewrite H5. cbn [blank_line emit fs]. rewrite H4. cbn [blank_line emit fs].
  rewrite H3. cbn [blank_line emit fs]. rewrite Hv.
  unfold doc_paths, documents in Hq. cbn [map fst] in Hq.
  repeat (apply not_elem_of_cons in Hq as [? Hq]).
  by rewrite !lookup_insert_ne by congruence.
Qed.

(** X4.  Running the script again on a project that a completed run has
    set up, without a template source, with any configuration and at any
    date: the second run completes as well, each of the eight documents
    then holds the text of the second run, and nothing else in the file
    system changes.  When date and configuration are those of the first
    run, the file system is left exactly as the first run left it. *)
Theorem second_run_rewrites_only_the_documents :
  forall self self' cfg cfg' ts ts' w w',
    tree_shaped (fs w) ->
    initialize self cfg ts w = (Ok tt, w') ->
    workflow_dir self' = workflow_dir self ->
    supplied ts' = false ->
    exists w'',
      initialize self' cfg' ts' w' = (Ok tt, w'')
      /\ Forall (fun doc => fs w'' !! doc.1 = Some (File doc.2))
                (documents self' (or_empty cfg'))
      /\ (forall q, q ∉ doc_paths self -> fs w'' !! q = fs w' !! q)
      /\ (date self' = date self -> or_empty cfg' = or_empty cfg -> fs w'' = fs w').
Proof.
  intros self self' cfg cfg' ts ts' w w' Ht H Hwf Hts.
  pose proof (first_run_initialized _ _ _ _ _ Ht H) as Hinit.
  destruct (initialize_succeeds self' cfg' ts' w'
              (initialized_installable _ _ _ _ Hwf Hinit) Hts) as (w'' & E).
  exists w''. split; [exact E|].
  split; [exact (initialize_documents _ _ _ _ _ E)|].
  assert (Hframe : forall q, q ∉ doc_paths self -> fs w'' !! q = fs w' !! q).
  { intros q Hq. destruct Hinit as (Ht' & Hdirs & _).
    apply (rerun_frame self' cfg' ts' w' w''); try assumption.
    - by rewrite Hwf.
    - by rewrite (doc_paths_workflow_dir _ _ Hwf). }
  split; [exact Hframe|].
  intros Hdate Hcfg. apply map_eq. intros q.
  destruct (decide (q ∈ doc_paths self)) as [Hin|Hout]; [|by apply Hframe].
  assert (Hsame : documents self' (or_empty cfg') = documents self (or_empty cfg))
    by (unfold documents; by rewrite Hwf, Hdate, Hcfg).
  pose proof (initialize_documents _ _ _ _ _ E) as D2. rewrite Hsame in D2.
  destruct Hinit as (_ & _ & D1).
  change (doc_paths self) with (map fst (documents self (or_empty cfg))) in Hin.
  apply list_elem_of_fmap in Hin as (doc & -> & Hdoc).
  rewrite (proj1 (Forall_forall _ _) D2 doc Hdoc). symmetry.
  exact (proj1 (Forall_forall _ _) D1 doc Hdoc).
Qed.

(** ** No rolling back *)

#[local] Hint Resolve safe_print safe_path_exists safe_write_text safe_copy2
  : script_pres.

(** X7.  [initialize] does not roll back.  Once its directory step has
    completed, every manifest directory is there at the end of the run,
    also when a later step raises. *)
Theorem directories_stay_when_a_later_step_raises :
  forall self cfg ts w w1 r w',
    create_directories self (opening w) = (Ok tt, w1) ->
    initialize self cfg ts w = (r, w') ->
    Forall (fun d => is_dir (fs w') (workflow_dir self // d) = true) dirs.
Proof.
  intros self cfg ts w w1 r w' E1 H.
  unfold initialize in H. rewrite !print_bind in H.
  change (emit (Printed "") (emit (Printed rule)
            (emit (Printed "🚀 Claude Code Workflow Initialization")
               (emit (Printed rule) w)))) with (opening w) in H.
  rewrite (bind_ok _ _ _ _ _ E1) in H.
  assert (Hk : dirs_kept w1 w').
  { pose proof dirs_kept_safe as Hsafe.
    eapply preserves_run; [exact H|]. unfold create_readme.
    destruct ts as [src|]; [destruct (Str.truthy src)|]; pres. }
  apply Forall_forall. intros d Hd. apply Hk.
  exact (create_directories_makes_all _ _ _ E1 d Hd).
Qed.

(** ** The dictionary that [main] builds *)

(** X8.  The dictionary that [main] hands to [initialize] has no key beyond
    [project_name], [project_type] and the eight platform names; a platform
    key is either absent or [True]; names that are no platform names are
    dropped without notice; and the dictionary depends on the
    [--platforms] argument only through the set of platform names among
    its tokens, so that order and repetition do not matter. *)
Theorem config_data_of_the_command_line :
  forall a,
    (forall k, is_Some (parse_config_data a !! k) ->
               k ∈ "project_name" :: "project_type" :: platform_names)
    /\ parse_config_data a !! "project_name" = Some (opt_str (arg_project_name a))
    /\ parse_config_data a !! "project_type" = Some (PyStr (arg_project_type a))
    /\ (forall p, p ∈ platform_names ->
                  parse_config_data a !! p
                  = if bool_decide (p ∈ platform_tokens a)
                    then Some (PyBool true) else None)
    /\ (forall a',
          arg_project_name a' = arg_project_name a ->
          arg_project_type a' = arg_project_type a ->
          (forall p, p ∈ platform_names ->
                     (p ∈ platform_tokens a' <-> p ∈ platform_tokens a)) ->
          parse_config_data a' = parse_config_data a).
Proof.
  intros a.
  assert (Hplat : forall b p, p ∈ platform_names ->
            parse_config_data b !! p
            = if bool_decide (p ∈ platform_tokens b) then Some (PyBool true) else None).
  { intros b p Hp. rewrite parse_config_data_lookup.
    rewrite (proj1 (Forall_forall _ _) (base_config_data_platform b) p Hp).
    repeat case_bool_decide; try reflexivity; tauto. }
  assert (Hother : forall b k, k ∉ platform_names ->
            parse_config_data b !! k = base_config_data b !! k).
  { intros b k Hk. rewrite parse_config_data_lookup.
    rewrite bool_decide_eq_false_2; [reflexivity | tauto]. }
  assert (Hname : "project_name" ∉ platform_names).
  { intros H. unfold platform_names in H.
    repeat (apply elem_of_cons in H as [H|H]; [discriminate H|]). inversion H. }
  assert (Htype : "project_type" ∉ platform_names).
  { intros H. unfold platform_names in H.
    repeat (apply elem_of_cons in H as [H|H]; [discriminate H|]). inversion H. }
  split; [|split; [|split; [|split]]].
  - intros k Hk. destruct (decide (k ∈ platform_names)) as [Hin|Hout].
    + by do 2 right.
    + rewrite (Hother a k Hout) in Hk. unfold base_config_data in Hk.
      destruct (decide (k = "project_type")) as [->|Hn1]; [right; left|].
      destruct (decide (k = "project_name")) as [->|Hn2]; [left|].
      rewrite lookup_insert_ne, lookup_insert_ne, lookup_empty in Hk by done.
      by destruct Hk.
  - rewrite (Hother a _ Hname). reflexivity.
  - rewrite (Hother a _ Htype). reflexivity.
  - apply Hplat.
  - intros a' En Et Htok. apply map_eq. intros k.
    destruct (decide (k ∈ platform_names)) as [Hin|Hout].
    + rewrite !Hplat by done.
      destruct (Htok k Hin). repeat case_bool_decide; try reflexivity; tauto.
    + rewrite !Hother by done. unfold base_config_data. by rewrite En, Et.
Qed.

(** ** What the configuration text depends on *)

(** X9.  [create_initial_config] reads ten keys of the dictionary and no
    other: two dictionaries that agree on [project_name], [project_type] and
    the eight platform names give the same text. *)
Theorem config_text_reads_ten_keys :
  forall d d' : gmap string pyval,
    Forall (fun k => d !! k = d' !! k)
           ("project_name" :: "project_type" :: platform_names) ->
    yaml_content (default_config d) = yaml_content (default_config d').
Proof.
  intros d d' H. unfold platform_names in H.
  repeat (apply Forall_cons_1 in H as [? H]).
  unfold default_config, dict_get.
  repeat match goal with E : d !! _ = d' !! _ |- _ => rewrite E; clear E end.
  reflexivity.
Qed.

(** ** Templates that are there *)

Lemma for_each_app_ok {A : Type} (l1 l2 : list A) (body : A -> M unit) w w' :
  for_each (l1 ++ l2) body w = (Ok tt, w') ->
  exists w1, for_each l1 body w = (Ok tt, w1) /\ for_each l2 body w1 = (Ok tt, w').
Proof.
  rewrite for_each_app. destruct (for_each l1 body w) as [[[]|e] w1]; [eauto | discriminate].
Qed.

Lemma new_dirs_at_emit (Q : path -> Prop) e w : new_dirs_at Q w (emit e w).
Proof. intros q H. by left. Qed.

Lemma new_dirs_at_print (Q : path -> Prop) line : preserves (new_dirs_at Q) (print line).
Proof. intros w r w' H. inversion H. apply new_dirs_at_emit. Qed.

Lemma new_dirs_at_path_exists (Q : path -> Prop) p :
  preserves (new_dirs_at Q) (path_exists p).
Proof. intros w r w' H. inversion H. reflexivity. Qed.

Lemma new_dirs_at_read_file (Q : path -> Prop) p :
  preserves (new_dirs_at Q) (read_file p).
Proof.
  intros w r w' H. destruct (read_file_cases p w) as [(q & c & E & _) | [e E]];
    rewrite E in H; inversion H; subst.
  - apply new_dirs_at_emit.
  - reflexivity.
Qed.

Lemma new_dirs_at_write_text (Q : path -> Prop) p c :
  preserves (new_dirs_at Q) (write_text p c).
Proof.
  intros w r w' H. destruct (write_text_cases p c w) as [(E & _ & Hp) | [e E]];
    rewrite E in H; inversion H; subst.
  - intros q. cbn. unfold is_dir at 1. destruct (decide (p = q)) as [<-|Hne].
    + by rewrite stat_insert_eq by (eapply not_dir_not_root, Hp).
    + rewrite stat_insert_ne by done. by left.
  - reflexivity.
Qed.

Lemma new_dirs_at_copy2 (Q : path -> Prop) src dst :
  preserves (new_dirs_at Q) (copy2 src dst).
Proof.
  intros w r w' H.
  destruct (copy2_cases src dst w) as [E | (dst' & _ & E)]; rewrite E in H.
  - inversion H. reflexivity.
  - exact (preserves_bind _ _ _ (new_dirs_at_read_file Q src)
             (fun c => new_dirs_at_write_text Q _ c) _ _ _ H).
Qed.

Lemma same_at_path_exists p q : preserves (same_at p) (path_exists q).
Proof. intros w r w' H. inversion H. reflexivity. Qed.

Lemma same_at_read_file p q : preserves (same_at p) (read_file q).
Proof.
  intros w r w' H. destruct (read_file_cases q w) as [(x & c & E & _) | [e E]];
    rewrite E in H; inversion H; subst; reflexivity.
Qed.

Lemma same_at_copy2 p src dst :
  is_name (basename src) = true ->
  p <> dst -> p <> dst ++ [basename src] -> preserves (same_at p) (copy2 src dst).
Proof.
  intros Hn H1 H2 w r w' H.
  destruct (copy2_cases src dst w) as [E | (dst' & Hdst & E)]; rewrite E in H.
  - inversion H. reflexivity.
  - refine (preserves_bind _ _ _ (same_at_read_file p src) _ _ _ _ H).
    intros c. apply same_at_write_text.
    destruct Hdst as [-> | ->]; [exact H1|]. by rewrite (step_name _ _ Hn).
Qed.

Section SafeTemplates.

Context (R : relation world) `{!Safe R}.

Lemma safe_copy_template self ts t : preserves R (copy_template self ts t).
Proof.
  unfold copy_template.
  apply preserves_bind; [apply _ | apply safe_path_exists, _ |].
  intros found. apply preserves_if; [|apply safe_print, _].
  apply preserves_bind; [apply _ | apply safe_copy2, _ | intros _; apply safe_print, _].
Qed.

End SafeTemplates.

#[local] Hint Resolve new_dirs_at_print new_dirs_at_path_exists new_dirs_at_copy2
  same_at_path_exists : script_pres.

Lemma copy_template_no_dirs self ts t :
  preserves (new_dirs_at (fun _ => False)) (copy_template self ts t).
Proof. unfold copy_template. pres. Qed.

(** The other templates go elsewhere. *)
Lemma copy_template_same_at self ts t x :
  t ∈ templates -> x ∈ templates -> x <> t ->
  preserves (same_at (workflow_dir self // "templates" // t)) (copy_template self ts x).
Proof.
  intros Ht Hx Hne.
  destruct (template_source_resolved [] ts x Hx) as (_ & Hb & Hn & _).
  unfold copy_template.
  apply preserves_bind; [apply _ | apply same_at_path_exists |].
  intros found. apply preserves_if; [|apply same_at_print].
  apply preserves_bind; [apply _ | | intros _; apply same_at_print].
  apply same_at_copy2; rewrite ?Hb; [exact Hn | |];
    template_cases Ht; template_cases Hx; try congruence; path_neq.
Qed.

Lemma copy_state_template_same_at self ts t x :
  t ∈ templates -> x ∈ state_templates ->
  preserves (same_at (workflow_dir self // "templates" // t))
            (copy_state_template self ts x).
Proof.
  intros Ht Hx.
  destruct (state_source_resolved [] ts x Hx) as (_ & Hn).
  unfold copy_state_template.
  apply preserves_bind; [apply _ | apply same_at_path_exists |].
  intros found. apply preserves_when; [apply _|].
  apply preserves_bind; [apply _ | | intros _; apply same_at_print].
  apply same_at_copy2; [exact Hn | |];
    template_cases Ht; template_cases Hx;
    unfold state_source_file, state_dest_file; rewrite ?basename_join; path_neq.
Qed.

(** What the script sees at a path stays, when directories stay
    directories, the working directory stays and the entry itself is left
    alone. *)
Lemma sees_kept w w' p q n :
  cwd w' = cwd w -> dirs_kept w w' -> fs w' !! q = fs w !! q ->
  sees (fs w) (cwd w) p = Some (q, n) -> sees (fs w') (cwd w') p = Some (q, n).
Proof.
  intros Hc Hd Hq H. apply sees_located in H as (Hloc & Hst & _).
  unfold sees, locate. rewrite Hc.
  rewrite (walk_by_kept _ _ _ _ _ _ Hd Hloc).
  assert (Hst' : stat (fs w') q = Some n)
    by (destruct q; [exact Hst | cbn in *; congruence]).
  by rewrite Hst'.
Qed.

Lemma sees_dir_false f p : is_dir f p = false -> sees_dir f p = false.
Proof. intros H. unfold sees_dir. by destruct (descend f p). Qed.

(** One template that is there and can be copied. *)
Lemma copy_template_copies self ts t c src w w' :
  sees (fs w) (cwd w) (template_source_file ts t) = Some (src, File c) ->
  src <> workflow_dir self // "templates" // t ->
  is_dir (fs w) (workflow_dir self // "templates" // t) = false ->
  copy_template self ts t w = (Ok tt, w') ->
  fs w' !! (workflow_dir self // "templates" // t) = Some (File c).
Proof.
  intros Hsees Hne Hnd H.
  destruct (sees_located _ _ _ _ _ Hsees) as (Hloc & Hst & _).
  unfold copy_template, bind, path_exists, exists_at in H. rewrite Hsees in H.
  unfold copy2 in H. rewrite (sees_dir_false _ _ Hnd) in H.
  assert (Hsf : same_file (fs w) (cwd w) (template_source_file ts t)
                  (workflow_dir self // "templates" // t) = false).
  { unfold same_file. rewrite Hsees. destruct (descend _ _); [|reflexivity].
    by apply bool_decide_eq_false_2. }
  rewrite Hsf in H. unfold bind at 1, read_file in H. rewrite Hloc, Hst in H.
  destruct (write_text _ c _) as [[[]|e] v] eqn:E; [|discriminate].
  apply write_text_ok in E as [_ E]. inversion H; subst. exact E.
Qed.

(** X10.  A top-level template that is there is copied.  When the script
    sees a regular file at the source of a top-level template, at a place
    outside the workflow directory, and no directory sits at its
    destination, then after a completed [copy_templates] the destination
    under [templates/] holds the text of the source. *)
Theorem template_is_copied :
  forall self ts t c src w w',
    t ∈ templates ->
    sees (fs w) (cwd w) (template_source_file ts t) = Some (src, File c) ->
    ~ under (workflow_dir self) src ->
    is_dir (fs w) (workflow_dir self // "templates" // t) = false ->
    copy_templates self ts w = (Ok tt, w') ->
    fs w' !! (workflow_dir self // "templates" // t) = Some (File c).
Proof.
  intros self ts t c src w w' Ht Hsrc Hout Hnd H.
  unfold copy_templates in H. rewrite print_bind in H.
  apply bind_ok_inv in H as ([] & v1 & Hloop & H).
  apply bind_ok_inv in H as ([] & v2 & Hstate & H). inversion H; subst. clear H.
  assert (Hnodup : NoDup templates).
  { unfold templates. refine (bool_decide_unpack _ _). vm_compute. exact I. }
  destruct (list_elem_of_split _ _ Ht) as (before & after & Hsplit).
  assert (Hbefore_in : forall x, x ∈ before -> x ∈ templates).
  { intros x Hx. rewrite Hsplit. apply elem_of_app. by left. }
  rewrite Hsplit in Hloop, Hnodup.
  apply for_each_app_ok in Hloop as (u1 & Hbefore & Hloop).
  cbn [for_each] in Hloop. apply bind_ok_inv in Hloop as ([] & u2 & Hstep & Hafter).
  set (u0 := emit (Printed "📄 Copying template files...") w) in *.
  assert (Hsrc1 : sees (fs u1) (cwd u1) (template_source_file ts t)
                  = Some (src, File c)).
  { apply (sees_kept u0 u1); [| | |exact Hsrc].
    - eapply (preserves_run same_cwd); [exact Hbefore|].
      apply preserves_for_each; [apply _|]. intros x _.
      apply safe_copy_template, _.
    - eapply (preserves_run dirs_kept); [exact Hbefore|].
      apply preserves_for_each; [apply _|]. intros x _.
      apply safe_copy_template, _.
    - assert (Hk : same_outside (workflow_dir self) u0 u1).
      { eapply preserves_run; [exact Hbefore|].
        apply preserves_for_each; [apply _|]. intros x Hx.
        apply copy_template_same_outside. by apply Hbefore_in. }
      exact (Hk _ Hout). }
  assert (Hnd1 : is_dir (fs u1) (workflow_dir self // "templates" // t) = false).
  { assert (Hk : new_dirs_at (fun _ => False) u0 u1).
    { eapply preserves_run; [exact Hbefore|].
      apply preserves_for_each; [apply _|]. intros x _.
      apply copy_template_no_dirs. }
    destruct (is_dir (fs u1) _) eqn:E; [|reflexivity].
    destruct (Hk _ E) as [Hold | []]. cbn in Hold. congruence. }
  assert (Hcopied : fs u2 !! (workflow_dir self // "templates" // t) = Some (File c)).
  { eapply copy_template_copies; [exact Hsrc1 | | exact Hnd1 | exact Hstep].
    intros E. apply Hout. rewrite E. unfold under, path_join.
    rewrite <- app_assoc. by eexists. }
  assert (Hk1 : same_at (workflow_dir self // "templates" // t) u2 v1).
  { eapply preserves_run; [exact Hafter|].
    apply preserves_for_each; [apply _|]. intros x Hx.
    apply copy_template_same_at; [exact Ht | |].
    - rewrite Hsplit. apply elem_of_app. right. by right.
    - intros ->. apply NoDup_app in Hnodup as (_ & _ & Hnodup).
      apply NoDup_cons in Hnodup as [Hnot _]. by apply Hnot. }
  assert (Hk2 : same_at (workflow_dir self // "templates" // t) v1 v2).
  { eapply preserves_run; [exact Hstate|].
    apply preserves_for_each; [apply _|]. intros x Hx.
    by apply copy_state_template_same_at. }
  unfold same_at in *. cbn. congruence.
Qed.

(** ** Templates that cannot be copied *)

(** The template source is the project itself: the source of a top-level
    template is its own destination. *)
Lemma template_source_is_destination self ts working_dir t :
  template_source_dir working_dir ts // ".claude-workflow" = workflow_dir self ->
  t ∈ templates ->
  resolve working_dir (template_source_file ts t) = workflow_dir self // "templates" // t.
Proof.
  intros Hsame Ht.
  destruct (template_source_resolved working_dir ts t Ht) as (-> & _ & _ & Hc).
  rewrite <- Hsame. unfold path_join. rewrite Hc, <- !app_assoc. reflexivity.
Qed.

Lemma copy_template_onto_itself self ts t src n w :
  tree_shaped (fs w) ->
  template_source_dir (cwd w) ts // ".claude-workflow" = workflow_dir self ->
  t ∈ templates ->
  sees (fs w) (cwd w) (template_source_file ts t) = Some (src, n) ->
  copy_template self ts t w
  = (Raise (match n with File _ => SameFileError | Dir => IsADirectoryError end), w).
Proof.
  intros Htree Hsame Ht Hsees.
  destruct (sees_located _ _ _ _ _ Hsees) as (Hloc & Hst & Hsrc).
  rewrite (template_source_is_destination self ts (cwd w) t Hsame Ht) in Hsrc.
  destruct (template_source_resolved (cwd w) ts t Ht) as (_ & Hb & Hn & _).
  unfold copy_template, bind, path_exists, exists_at. rewrite Hsees.
  unfold copy2. rewrite (sees_dir_tree _ _ Htree), Hb, <- Hsrc.
  unfold is_dir, same_file. rewrite Hst, Hsees. destruct n as [|c].
  - rewrite (step_name _ _ Hn).
    assert (Hne : src <> src ++ [t]).
    { intros E. apply (f_equal length) in E. rewrite length_app in E. cbn in E. lia. }
    replace (match descend (fs w) (src ++ [t]) with
             | Ok _ => bool_decide (src = src ++ [t])
             | Raise _ => false
             end) with false
      by (destruct (descend _ _); [by rewrite bool_decide_eq_false_2|reflexivity]).
    unfold bind, read_file. by rewrite Hloc, Hst.
  - rewrite (descend_tree_entry _ _ _ Htree Hst).
    by rewrite bool_decide_eq_true_2.
Qed.

Lemma flat_map_singleton {A B : Type} (f : A -> B) (l : list A) :
  flat_map (fun x => [f x]) l = map f l.
Proof. induction l as [|x l IH]; [reflexivity|]. cbn. by rewrite IH. Qed.

(** X11.  The project as its own template source.  When the template
    source names the project, so that its [.claude-workflow] is the
    workflow directory, and the script sees one of the top-level templates
    there, [copy_templates] raises at the first one it sees, after the
    warning for each one before it: [SameFileError] when that one is a
    regular file, [IsADirectoryError] when it is a directory.  The file
    system is left as it was. *)
Theorem project_as_its_own_template_source :
  forall self ts w before t after src n,
    tree_shaped (fs w) ->
    template_source_dir (cwd w) ts // ".claude-workflow" = workflow_dir self ->
    templates = before ++ t :: after ->
    Forall (fun x => exists_at (fs w) (cwd w) (template_source_file ts x) = false)
           before ->
    sees (fs w) (cwd w) (template_source_file ts t) = Some (src, n) ->
    copy_templates self ts w
    = (Raise (match n with File _ => SameFileError | Dir => IsADirectoryError end),
       {| fs := fs w;
          trace := trace w
                   ++ Printed "📄 Copying template files..."
                   :: map (fun x => Printed (not_found_line x)) before;
          cwd := cwd w |}).
Proof.
  intros self ts w before t after src n Htree Hsame Hsplit Hbefore Hsees.
  assert (Ht : t ∈ templates) by (rewrite Hsplit; apply elem_of_app; right; left).
  unfold copy_templates. rewrite print_bind, Hsplit.
  apply bind_raise_run. rewrite for_each_app.
  rewrite (for_each_quiet (fs w) (cwd w) (fun x => [Printed (not_found_line x)])
             before (copy_template self ts)); [| |reflexivity|reflexivity].
  - cbn [for_each]. apply bind_raise_run.
    rewrite copy_template_onto_itself with (src := src) (n := n);
      [|assumption ..].
    cbn [emit fs trace cwd]. rewrite flat_map_singleton, <- app_assoc. reflexivity.
  - intros x v Hx Hv Hc. rewrite copy_template_missing.
    + unfold emit. by rewrite Hv, Hc.
    + rewrite Hv, Hc. exact (proj1 (Forall_forall _ _) Hbefore x Hx).
Qed.

(** What the destination of a copy does to it. *)
Lemma copy_template_unwritable self ts t c src e w :
  sees (fs w) (cwd w) (template_source_file ts t) = Some (src, File c) ->
  descend (fs w) (workflow_dir self // "templates" // t) = Raise e ->
  copy_template self ts t w = (Raise e, emit (ReadFile src) w).
Proof.
  intros Hsees Hdst.
  destruct (sees_located _ _ _ _ _ Hsees) as (Hloc & Hst & _).
  unfold copy_template, bind, path_exists, exists_at. rewrite Hsees.
  unfold copy2, sees_dir, same_file. rewrite Hdst, Hsees.
  unfold bind, read_file. rewrite Hloc, Hst.
  unfold write_text. cbn [fs emit]. by rewrite Hdst.
Qed.

Lemma template_destination self t :
  t ∈ templates ->
  workflow_dir self // "templates" // t = (workflow_dir self // "templates") ++ [t].
Proof.
  intros Ht. destruct (template_source_resolved [] "" t Ht) as (_ & _ & _ & Hc).
  unfold path_join at 1. by rewrite Hc.
Qed.

(** X12.  A template that the script sees but cannot copy makes the loop
    body raise, for each of the four top-level templates.  When the source
    is a directory ([exists()] holds of directories too) it raises
    [IsADirectoryError] with nothing read or written.  When the source is
    a regular file, the source is read and no file is written, and it
    raises [FileNotFoundError] if the [templates] directory of the project
    is missing and no regular file sits above it, and
    [NotADirectoryError] if a regular file sits at the place of the
    [templates] directory or above it. *)
Theorem template_that_cannot_be_copied :
  forall self ts t w src,
    t ∈ templates ->
    (sees (fs w) (cwd w) (template_source_file ts t) = Some (src, Dir) ->
     copy_template self ts t w = (Raise IsADirectoryError, w))
    /\ (forall c,
          sees (fs w) (cwd w) (template_source_file ts t) = Some (src, File c) ->
          stat (fs w) (workflow_dir self // "templates") = None ->
          (forall q c', under q (workflow_dir self // "templates") ->
                        stat (fs w) q <> Some (File c')) ->
          copy_template self ts t w = (Raise FileNotFoundError, emit (ReadFile src) w))
    /\ (forall c q c',
          sees (fs w) (cwd w) (template_source_file ts t) = Some (src, File c) ->
          tree_shaped (fs w) ->
          under q (workflow_dir self // "templates") ->
          stat (fs w) q = Some (File c') ->
          copy_template self ts t w
          = (Raise NotADirectoryError, emit (ReadFile src) w)).
Proof.
  intros self ts t w src Ht. split; [|split].
  - intros Hsees.
    destruct (sees_located _ _ _ _ _ Hsees) as (Hloc & Hst & Hsrc).
    destruct (template_source_resolved (cwd w) ts t Ht) as (Hres & Hb & Hn & _).
    unfold copy_template, bind, path_exists, exists_at. rewrite Hsees.
    unfold copy2.
    assert (Hsf : forall dst,
               (dst = workflow_dir self // "templates" // t
                -> sees_dir (fs w) dst = false) ->
               dst = workflow_dir self // "templates" // t
               \/ dst = (workflow_dir self // "templates" // t) ++ [t] ->
               same_file (fs w) (cwd w) (template_source_file ts t) dst = false).
    { intros dst Hnd Hdst. unfold same_file. rewrite Hsees.
      destruct (descend (fs w) dst) as [x|e] eqn:Ed; [|reflexivity].
      apply bool_decide_eq_false_2. intros <-. destruct Hdst as [E | E].
      - specialize (Hnd E). unfold sees_dir in Hnd. rewrite Ed in Hnd.
        unfold is_dir in Hnd. by rewrite Hst in Hnd.
      - rewrite Hsrc, Hres, (template_destination self t Ht) in E.
        unfold path_join in E. change (components "templates") with ["templates"] in E.
        apply (f_equal (fun l => nth_error (rev l) 2)) in E.
        rewrite !rev_app_distr in E. cbn in E. discriminate E. }
    rewrite Hb, (step_name _ _ Hn).
    destruct (sees_dir (fs w) (workflow_dir self // "templates" // t)) eqn:Ed.
    + rewrite Hsf; [| |by right].
      2: { intros E. apply (f_equal length) in E. rewrite length_app in E.
           cbn in E. lia. }
      unfold bind, read_file. by rewrite Hloc, Hst.
    + rewrite Hsf; [|done|by left].
      unfold bind, read_file. by rewrite Hloc, Hst.
  - intros c Hsees Hmissing Hnf.
    apply copy_template_unwritable with (c := c); [exact Hsees|].
    rewrite (template_destination self t Ht).
    destruct (descend_no_file (fs w) ((workflow_dir self // "templates") ++ [t]))
      as [E | E]; [| |exact E].
    + rewrite parent_snoc. exact Hnf.
    + apply descend_parent in E. rewrite parent_snoc in E.
      apply is_dir_stat in E. congruence.
  - intros c q c' Hsees Htree Hq Hfile.
    apply copy_template_unwritable with (c := c); [exact Hsees|].
    rewrite (template_destination self t Ht). destruct Hq as [k ->].
    rewrite <- app_assoc. apply (descend_under_file _ _ c'); [exact Htree | exact Hfile|].
    by destruct k.
Qed.

(** ** The further properties at concrete inputs *)

Lemma run_is {A} (m : M A) w r : fst (m w) = r -> m w = (r, snd (m w)).
Proof. intros <-. by destruct (m w). Qed.

Lemma initialize_removes_nothing_witness :
  initialize sample_self None None config_is_a_directory
  = (Raise IsADirectoryError, snd (initialize sample_self None None config_is_a_directory))
  /\ is_dir (fs config_is_a_directory) ["home"; "proj"] = true
  /\ is_dir (fs (snd (initialize sample_self None None config_is_a_directory)))
            ["home"; "proj"] = true.
Proof.
  assert (H : initialize sample_self None None config_is_a_directory
              = (Raise IsADirectoryError,
                 snd (initialize sample_self None None config_is_a_directory)))
    by (apply run_is; vm_compute; reflexivity).
  assert (Hd : is_dir (fs config_is_a_directory) ["home"; "proj"] = true)
    by reflexivity.
  split; [exact H|]. split; [exact Hd|].
  exact (proj1 (proj2 (initialize_removes_nothing _ _ _ _ _ _ H)) _ Hd).
Defined.

Lemma initialize_footprint_witness :
  initialize sample_self None None empty_world
  = (Ok tt, snd (initialize sample_self None None empty_world))
  /\ ~ under (workflow_dir sample_self) ["etc"; "passwd"]
  /\ ~ under ["etc"; "passwd"] (workflow_dir sample_self)
  /\ fs (snd (initialize sample_self None None empty_world)) !! ["etc"; "passwd"]
     = fs empty_world !! ["etc"; "passwd"].
Proof.
  assert (H : initialize sample_self None None empty_world
              = (Ok tt, snd (initialize sample_self None None empty_world)))
    by (apply run_ok; vm_compute; reflexivity).
  assert (Hn1 : ~ under (workflow_dir sample_self) ["etc"; "passwd"]).
  { intros [k Hk]. vm_compute in Hk. discriminate Hk. }
  assert (Hn2 : ~ under ["etc"; "passwd"] (workflow_dir sample_self)).
  { intros [k Hk]. vm_compute in Hk. discriminate Hk. }
  destruct (initialize_footprint _ _ _ _ _ _ H) as (d & _ & _ & Hframe).
  split; [exact H|]. split; [exact Hn1|]. split; [exact Hn2|].
  exact (Hframe _ Hn1 Hn2).
Defined.

Lemma generated_documents_in_place_witness :
  initialize sample_self None (Some "/src") with_template_source
  = (Ok tt, snd (initialize sample_self None (Some "/src") with_template_source))
  /\ Forall (fun doc =>
               fs (snd (initialize sample_self None (Some "/src") with_template_source))
               !! doc.1 = Some (File doc.2))
            (documents sample_self (or_empty None)).
Proof.
  assert (H : initialize sample_self None (Some "/src") with_template_source
              = (Ok tt,
                 snd (initialize sample_self None (Some "/src") with_template_source)))
    by (apply run_ok; vm_compute; reflexivity).
  split; [exact H|]. exact (generated_documents_in_place _ _ _ _ _ H).
Defined.

Lemma second_run_rewrites_only_the_documents_witness :
  tree_shaped (fs empty_world)
  /\ initialize sample_self None None empty_world
     = (Ok tt, snd (initialize sample_self None None empty_world))
  /\ workflow_dir later_self = workflow_dir sample_self
  /\ supplied (Some "") = false
  /\ date sample_self = "2026-11-03"
  /\ date later_self = "2026-11-04"
  /\ exists w'',
      initialize later_self (Some {[ "hmi" := PyBool true ]}) (Some "")
        (snd (initialize sample_self None None empty_world)) = (Ok tt, w'')
      /\ fs w'' !! (workflow_dir sample_self // "rt-matrix.md")
         = Some (File (rt_matrix_text "2026-11-04"))
      /\ fs w'' !! (workflow_dir sample_self // "templates")
         = fs (snd (initialize sample_self None None empty_world))
           !! (workflow_dir sample_self // "templates").
Proof.
  assert (Ht : tree_shaped (fs empty_world)) by apply map_Forall_empty.
  assert (H : initialize sample_self None None empty_world
              = (Ok tt, snd (initialize sample_self None None empty_world)))
    by (apply run_ok; vm_compute; reflexivity).
  assert (Hwf : workflow_dir later_self = workflow_dir sample_self) by reflexivity.
  assert (Hs : supplied (Some "") = false) by reflexivity.
  split; [exact Ht|]. split; [exact H|]. split; [exact Hwf|]. split; [exact Hs|].
  split; [reflexivity|]. split; [reflexivity|].
  destruct (second_run_rewrites_only_the_documents sample_self later_self None
              (Some {[ "hmi" := PyBool true ]}) None (Some "") empty_world _
              Ht H Hwf Hs) as (w'' & E & Hdocs & Hframe & _).
  exists w''. split; [exact E|]. split.
  - unfold documents in Hdocs.
    do 6 (apply Forall_cons_1 in Hdocs as [_ Hdocs]).
    apply Forall_cons_1 in Hdocs as [Hdoc _]. exact Hdoc.
  - apply Hframe. unfold doc_paths, documents. cbn [map fst]. intros Hin.
    repeat (apply elem_of_cons in Hin as [Hin | Hin];
            [vm_compute in Hin; discriminate Hin|]).
    inversion Hin.
Defined.

Lemma file_in_the_way_witness :
  tree_shaped (fs project_is_a_file)
  /\ under ["home"; "proj"] (workflow_dir sample_self)
  /\ stat (fs project_is_a_file) ["home"; "proj"] = Some (File "not a directory")
  /\ initialize sample_self None None project_is_a_file
     = (Raise NotADirectoryError,
        emit (Printed "📁 Creating directory structure...") (opening project_is_a_file)).
Proof.
  assert (Ht : tree_shaped (fs project_is_a_file)).
  { refine (bool_decide_unpack _ _). vm_compute. exact I. }
  assert (Hu : under ["home"; "proj"] (workflow_dir sample_self))
    by (by exists [".claude-workflow"]).
  assert (Hf : stat (fs project_is_a_file) ["home"; "proj"]
               = Some (File "not a directory")) by reflexivity.
  split; [exact Ht|]. split; [exact Hu|]. split; [exact Hf|].
  exact (file_in_the_way sample_self None None _ _ _ Ht Hu Hf).
Defined.

Lemma initialize_completes_witness :
  supplied None = false
  /\ installable sample_self (fs empty_world)
  /\ exists w', initialize sample_self None None empty_world = (Ok tt, w').
Proof.
  assert (Hs : supplied None = false) by reflexivity.
  destruct (initialize_completes sample_self None None Hs) as [Hrun Hempty].
  split; [exact Hs|]. split; [exact Hempty|]. exact (Hrun empty_world Hempty).
Defined.

Lemma directories_stay_when_a_later_step_raises_witness :
  create_directories sample_self (opening config_is_a_directory)
  = (Ok tt, snd (create_directories sample_self (opening config_is_a_directory)))
  /\ initialize sample_self None None config_is_a_directory
     = (Raise IsADirectoryError,
        snd (initialize sample_self None None config_is_a_directory))
  /\ Forall (fun d =>
               is_dir (fs (snd (initialize sample_self None None config_is_a_directory)))
                      (workflow_dir sample_self // d) = true)
            dirs.
Proof.
  assert (H1 : create_directories sample_self (opening config_is_a_directory)
               = (Ok tt,
                  snd (create_directories sample_self (opening config_is_a_directory))))
    by (apply run_ok; vm_compute; reflexivity).
  assert (H : initialize sample_self None None config_is_a_directory
              = (Raise IsADirectoryError,
                 snd (initialize sample_self None None config_is_a_directory)))
    by (apply run_is; vm_compute; reflexivity).
  split; [exact H1|]. split; [exact H|].
  exact (directories_stay_when_a_later_step_raises _ _ _ _ _ _ _ H1 H).
Defined.

Lemma config_data_of_the_command_line_witness :
  is_Some (parse_config_data sample_args !! "hmi")
  /\ "hmi" ∈ "project_name" :: "project_type" :: platform_names
  /\ "cloud" ∈ platform_names
  /\ parse_config_data sample_args !! "cloud" = None
  /\ parse_config_data (with_platforms sample_args "hmi,bogus,gateway,hmi")
     = parse_config_data sample_args.
Proof.
  destruct (config_data_of_the_command_line sample_args)
    as (Hkeys & _ & _ & Hplat & Hset).
  assert (Hs : is_Some (parse_config_data sample_args !! "hmi"))
    by (by exists (PyBool true)).
  assert (Hc : "cloud" ∈ platform_names)
    by (unfold platform_names; repeat constructor).
  split; [exact Hs|]. split; [exact (Hkeys _ Hs)|]. split; [exact Hc|].
  split; [exact (Hplat _ Hc)|].
  apply (Hset (with_platforms sample_args "hmi,bogus,gateway,hmi"));
    [reflexivity | reflexivity |].
  intros p Hp. unfold platform_names in Hp.
  repeat (apply elem_of_cons in Hp as [-> | Hp]);
    try (by inversion Hp);
    split; intros H;
    first [ refine (bool_decide_unpack _ _); vm_compute; exact I
          | pose proof (bool_decide_pack _ H) as H'; vm_compute in H'; destruct H' ].
Defined.

Lemma config_text_reads_ten_keys_witness :
  Forall (fun k => (∅ : gmap string pyval) !! k
                   = ({[ "verbose" := PyBool true ]} : gmap string pyval) !! k)
         ("project_name" :: "project_type" :: platform_names)
  /\ yaml_content (default_config ∅)
     = yaml_content (default_config {[ "verbose" := PyBool true ]}).
Proof.
  assert (H : Forall (fun k => (∅ : gmap string pyval) !! k
                               = ({[ "verbose" := PyBool true ]} : gmap string pyval) !! k)
                     ("project_name" :: "project_type" :: platform_names))
    by (unfold platform_names; repeat constructor).
  split; [exact H|]. exact (config_text_reads_ten_keys _ _ H).
Defined.

Lemma template_is_copied_witness :
  "REQ-template.md" ∈ templates
  /\ sees (fs with_template_source) (cwd with_template_source)
       (template_source_file "/home/../src" "REQ-template.md")
     = Some (["src"; ".claude-workflow"; "templates"; "REQ-template.md"], File "# REQ")
  /\ ~ under (workflow_dir sample_self)
          ["src"; ".claude-workflow"; "templates"; "REQ-template.md"]
  /\ is_dir (fs with_template_source)
            (workflow_dir sample_self // "templates" // "REQ-template.md") = false
  /\ copy_templates sample_self "/home/../src" with_template_source
     = (Ok tt, snd (copy_templates sample_self "/home/../src" with_template_source))
  /\ fs (snd (copy_templates sample_self "/home/../src" with_template_source))
     !! (workflow_dir sample_self // "templates" // "REQ-template.md")
     = Some (File "# REQ").
Proof.
  assert (Ht : "REQ-template.md" ∈ templates) by (unfold templates; repeat constructor).
  assert (Hsrc : sees (fs with_template_source) (cwd with_template_source)
                   (template_source_file "/home/../src" "REQ-template.md")
                 = Some (["src"; ".claude-workflow"; "templates"; "REQ-template.md"],
                         File "# REQ")) by (vm_compute; reflexivity).
  assert (Hout : ~ under (workflow_dir sample_self)
                   ["src"; ".claude-workflow"; "templates"; "REQ-template.md"]).
  { intros [k Hk]. vm_compute in Hk. discriminate Hk. }
  assert (Hnd : is_dir (fs with_template_source)
                  (workflow_dir sample_self // "templates" // "REQ-template.md") = false)
    by (vm_compute; reflexivity).
  assert (Hrun : copy_templates sample_self "/home/../src" with_template_source
                 = (Ok tt, snd (copy_templates sample_self "/home/../src"
                                  with_template_source)))
    by (apply run_ok; vm_compute; reflexivity).
  split; [exact Ht|]. split; [exact Hsrc|]. split; [exact Hout|].
  split; [exact Hnd|]. split; [exact Hrun|].
  exact (template_is_copied _ _ _ _ _ _ _ Ht Hsrc Hout Hnd Hrun).
Defined.

Lemma project_as_its_own_template_source_witness :
  tree_shaped (fs project_with_template)
  /\ template_source_dir (cwd project_with_template) "." // ".claude-workflow"
     = workflow_dir sample_self
  /\ sees (fs project_with_template) (cwd project_with_template)
       (template_source_file "." "REQ-template.md")
     = Some (["home"; "proj"; ".claude-workflow"; "templates"; "REQ-template.md"],
             File "# REQ")
  /\ copy_templates sample_self "." project_with_template
     = (Raise SameFileError,
        {| fs := fs project_with_template;
           trace := [Printed "📄 Copying template files..."];
           cwd := cwd project_with_template |})
  /\ tree_shaped (fs project_with_template_directory)
  /\ sees (fs project_with_template_directory) (cwd project_with_template_directory)
       (template_source_file "." "REQ-template.md")
     = Some (["home"; "proj"; ".claude-workflow"; "templates"; "REQ-template.md"], Dir)
  /\ copy_templates sample_self "." project_with_template_directory
     = (Raise IsADirectoryError,
        {| fs := fs project_with_template_directory;
           trace := [Printed "📄 Copying template files..."];
           cwd := cwd project_with_template_directory |}).
Proof.
  assert (Ht1 : tree_shaped (fs project_with_template)).
  { refine (bool_decide_unpack _ _). vm_compute. exact I. }
  assert (Ht2 : tree_shaped (fs project_with_template_directory)).
  { refine (bool_decide_unpack _ _). vm_compute. exact I. }
  assert (Hsame : template_source_dir ["home"; "proj"] "." // ".claude-workflow"
                  = workflow_dir sample_self) by reflexivity.
  assert (Hsplit : templates
                   = [] ++ "REQ-template.md"
                        :: ["FE-template.md"; "SOL-template.md"; "IMP-template.md"])
    by reflexivity.
  assert (Hs1 : sees (fs project_with_template) (cwd project_with_template)
                  (template_source_file "." "REQ-template.md")
                = Some (["home"; "proj"; ".claude-workflow"; "templates";
                         "REQ-template.md"], File "# REQ"))
    by (vm_compute; reflexivity).
  assert (Hs2 : sees (fs project_with_template_directory)
                  (cwd project_with_template_directory)
                  (template_source_file "." "REQ-template.md")
                = Some (["home"; "proj"; ".claude-workflow"; "templates";
                         "REQ-template.md"], Dir))
    by (vm_compute; reflexivity).
  split; [exact Ht1|]. split; [exact Hsame|]. split; [exact Hs1|].
  split; [exact (project_as_its_own_template_source sample_self "."
                   project_with_template _ _ _ _ _ Ht1 Hsame Hsplit
                   (Forall_nil_2 _) Hs1)|].
  split; [exact Ht2|]. split; [exact Hs2|].
  exact (project_as_its_own_template_source sample_self "."
           project_with_template_directory _ _ _ _ _ Ht2 Hsame Hsplit
           (Forall_nil_2 _) Hs2).
Defined.

Lemma template_that_cannot_be_copied_witness :
  "REQ-template.md" ∈ templates
  /\ sees (fs directory_as_template) (cwd directory_as_template)
       (template_source_file "/src" "REQ-template.md")
     = Some (["src"; ".claude-workflow"; "templates"; "REQ-template.md"], Dir)
  /\ copy_template sample_self "/src" "REQ-template.md" directory_as_template
     = (Raise IsADirectoryError, directory_as_template)
  /\ sees (fs template_without_project) (cwd template_without_project)
       (template_source_file "/src" "REQ-template.md")
     = Some (["src"; ".claude-workflow"; "templates"; "REQ-template.md"], File "# REQ")
  /\ stat (fs template_without_project) (workflow_dir sample_self // "templates") = None
  /\ copy_template sample_self "/src" "REQ-template.md" template_without_project
     = (Raise FileNotFoundError,
        emit (ReadFile ["src"; ".claude-workflow"; "templates"; "REQ-template.md"])
             template_without_project)
  /\ tree_shaped (fs template_beside_file)
  /\ under ["home"; "proj"] (workflow_dir sample_self // "templates")
  /\ stat (fs template_beside_file) ["home"; "proj"] = Some (File "not a directory")
  /\ copy_template sample_self "/src" "REQ-template.md" template_beside_file
     = (Raise NotADirectoryError,
        emit (ReadFile ["src"; ".claude-workflow"; "templates"; "REQ-template.md"])
             template_beside_file).
Proof.
  assert (Ht : "REQ-template.md" ∈ templates) by (unfold templates; repeat constructor).
  assert (Hd : sees (fs directory_as_template) (cwd directory_as_template)
                 (template_source_file "/src" "REQ-template.md")
               = Some (["src"; ".claude-workflow"; "templates"; "REQ-template.md"], Dir))
    by (vm_compute; reflexivity).
  assert (Hf : sees (fs template_without_project) (cwd template_without_project)
                 (template_source_file "/src" "REQ-template.md")
               = Some (["src"; ".claude-workflow"; "templates"; "REQ-template.md"],
                       File "# REQ"))
    by (vm_compute; reflexivity).
  assert (Hmiss : stat (fs template_without_project)
                    (workflow_dir sample_self // "templates") = None)
    by (vm_compute; reflexivity).
  assert (Hnf : forall q c', under q (workflow_dir sample_self // "templates") ->
                             stat (fs template_without_project) q <> Some (File c')).
  { intros q c' [k Hk] Hq. vm_compute in Hk.
    repeat (destruct q as [|? q];
            [vm_compute in Hq; discriminate Hq
            |first [discriminate Hk | injection Hk as <- Hk]]). }
  assert (Htree : tree_shaped (fs template_beside_file)).
  { refine (bool_decide_unpack _ _). vm_compute. exact I. }
  assert (Hu : under ["home"; "proj"] (workflow_dir sample_self // "templates"))
    by (by exists [".claude-workflow"; "templates"]).
  assert (Hfile : stat (fs template_beside_file) ["home"; "proj"]
                  = Some (File "not a directory")) by reflexivity.
  assert (Hb : sees (fs template_beside_file) (cwd template_beside_file)
                 (template_source_file "/src" "REQ-template.md")
               = Some (["src"; ".claude-workflow"; "templates"; "REQ-template.md"],
                       File "# REQ"))
    by (vm_compute; reflexivity).
  destruct (template_that_cannot_be_copied sample_self "/src" "REQ-template.md"
              directory_as_template
              ["src"; ".claude-workflow"; "templates"; "REQ-template.md"] Ht)
    as (Hdir & _ & _).
  destruct (template_that_cannot_be_copied sample_self "/src" "REQ-template.md"
              template_without_project
              ["src"; ".claude-workflow"; "templates"; "REQ-template.md"] Ht)
    as (_ & Hmissing & _).
  destruct (template_that_cannot_be_copied sample_self "/src" "REQ-template.md"
              template_beside_file
              ["src"; ".claude-workflow"; "templates"; "REQ-template.md"] Ht)
    as (_ & _ & Hblocked).
  split; [exact Ht|]. split; [exact Hd|]. split; [exact (Hdir Hd)|].
  split; [exact Hf|]. split; [exact Hmiss|]. split; [exact (Hmissing _ Hf Hmiss Hnf)|].
  split; [exact Htree|]. split; [exact Hu|]. split; [exact Hfile|].
  exact (Hblocked _ _ _ Hb Htree Hu Hfile).
Defined.
